(** * diag.py: the farm diagnostics report, its loaders and its filters

    A shallow embedding of [src/diag.py] (a Streamlit page over a pandas
    frame of diagnostic lab records) and the properties of its record
    normaliser, its cascading filters, its KPI block and its farm report.

    Conventions of the embedding.
    - A pandas frame is the list of its rows, in frame order; a boolean
      mask is a predicate on rows and [df[mask]] is [filter].
    - A Python [str] is a [string]; [sorted] compares strings character by
      character.  [str.lower], [str.title] and [str.strip] act on the ASCII
      range, all other characters are left alone.
    - A Python exception is the [Raise] branch of [res]; [try/except] is
      [try_except].
    - A [float] is an IEEE 754 binary64, kept as sign, mantissa and binary
      exponent; [float(s)] rounds the decimal numeral once, to nearest and
      ties to even, as CPython does.
    - A blank [number] cell is [None].  A blank cell of [Test_Date],
      [CT_Value] or [Result] is the text [str] makes of it.  The columns
      [Specie], [Farm_Name], [Disease] and [Sample_ID] hold texts: a blank
      cell beside a text in one of the first three makes [sorted] raise at
      lines 304 to 316, and a column that [read_csv] types as numbers is
      compared as numbers; neither is in the model.  The names of a header
      are distinct once [_std_columns] has renamed them. *)

From Stdlib Require Import ZArith String Ascii List Bool Lia Floats Uint63.
From stdpp Require Import base tactics option list sets strings sorting.

Set Warnings "-clear-no-such-hyp".

Open Scope string_scope.
Open Scope Z_scope.

(** ** Exceptions *)

Inductive exn := ValueError | OverflowError.

Inductive res (A : Type) :=
| Ok (a : A)
| Raise (e : exn).
Arguments Ok {A} a.
Arguments Raise {A} e.

Global Instance res_ret : MRet res := λ A a, Ok a.
Global Instance res_bind : MBind res := λ A B k m,
  match m with Ok a => k a | Raise e => Raise e end.

(** [try: m except Exception: h] *)
Definition try_except {A} (m : res A) (h : res A) : res A :=
  match m with Ok a => Ok a | Raise _ => h end.

Definition is_ok {A} (m : res A) : bool :=
  match m with Ok _ => true | Raise _ => false end.

(** ** Strings *)

Module Str.

Definition code (c : ascii) : N := N_of_ascii c.

Definition is_upper (c : ascii) : bool := (65 <=? code c)%N && (code c <=? 90)%N.
Definition is_lower (c : ascii) : bool := (97 <=? code c)%N && (code c <=? 122)%N.
Definition is_cased (c : ascii) : bool := is_upper c || is_lower c.
Definition is_digit (c : ascii) : bool := (48 <=? code c)%N && (code c <=? 57)%N.

(** [str.isspace] on the ASCII range: TAB..CR, FS..US and the blank. *)
Definition is_space (c : ascii) : bool :=
  ((9 <=? code c)%N && (code c <=? 13)%N)
  || ((28 <=? code c)%N && (code c <=? 32)%N).

Definition to_lower (c : ascii) : ascii :=
  if is_upper c then ascii_of_N (code c + 32) else c.
Definition to_upper (c : ascii) : ascii :=
  if is_lower c then ascii_of_N (code c - 32) else c.

(** [s.lower()] *)
Fixpoint lower (s : string) : string :=
  match s with
  | EmptyString => EmptyString
  | String c s' => String (to_lower c) (lower s')
  end.

(** [s.title()]: a cased character is upper-cased when the character
    before it is not cased, and lower-cased otherwise. *)
Fixpoint title_go (previous_is_cased : bool) (s : string) : string :=
  match s with
  | EmptyString => EmptyString
  | String c s' =>
      String (if previous_is_cased then to_lower c else to_upper c)
             (title_go (is_cased c) s')
  end.
Definition title (s : string) : string := title_go false s.

Fixpoint lstrip (s : string) : string :=
  match s with
  | EmptyString => EmptyString
  | String c s' => if is_space c then lstrip s' else s
  end.

(** Trailing white space: a character is kept when something that is not
    white space follows it or it is not white space itself. *)
Fixpoint rstrip (s : string) : string :=
  match s with
  | EmptyString => EmptyString
  | String c s' =>
      match rstrip s' with
      | EmptyString => if is_space c then EmptyString else String c EmptyString
      | t => String c t
      end
  end.

(** [s.strip()] *)
Definition strip (s : string) : string := rstrip (lstrip s).

(** [s.replace(a, b)] for one-character [a] and [b]. *)
Fixpoint replace (a b : ascii) (s : string) : string :=
  match s with
  | EmptyString => EmptyString
  | String c s' => String (if Ascii.eqb c a then b else c) (replace a b s')
  end.

(** [s.upper()] *)
Fixpoint upper (s : string) : string :=
  match s with
  | EmptyString => EmptyString
  | String c s' => String (to_upper c) (upper s')
  end.

(** [s.isascii()] *)
Fixpoint is_ascii (s : string) : bool :=
  match s with
  | EmptyString => true
  | String c s' => (code c <? 128)%N && is_ascii s'
  end.

(** A text of ASCII white space only. *)
Fixpoint is_blank (s : string) : bool :=
  match s with
  | EmptyString => true
  | String c s' => is_space c && is_blank s'
  end.

Fixpoint mem (a : ascii) (s : string) : bool :=
  match s with
  | EmptyString => false
  | String c s' => Ascii.eqb c a || mem a s'
  end.

End Str.

(** ** Sorted distinct values *)

(** [Series.unique()]: the distinct values in order of first appearance. *)
Fixpoint unique {A} `{EqDecision A} (l : list A) : list A :=
  match l with
  | [] => []
  | x :: l' => x :: filter (λ y, y ≠ x) (unique l')
  end.

(** [sorted(l)] on strings. *)
Definition sorted (l : list string) : list string := merge_sort String.le l.

(** ** Calendar dates *)

Record date := mkDate { year : Z; month : Z; day : Z }.

Global Instance date_eq_dec : EqDecision date.
Proof. solve_decision. Defined.

Definition date_leb (a b : date) : bool :=
  (year a <? year b)
  || ((year a =? year b)
      && ((month a <? month b) || ((month a =? month b) && (day a <=? day b)))).

Definition date_le (a b : date) : Prop := date_leb a b = true.

Definition date_min (a b : date) : date := if date_leb a b then a else b.
Definition date_max (a b : date) : date := if date_leb a b then b else a.

(** [Series.min()] and [Series.max()]: undefined ([None]) on the empty
    column. *)
Definition dates_min (l : list date) : option date :=
  match l with [] => None | d :: l' => Some (foldl date_min d l') end.
Definition dates_max (l : list date) : option date :=
  match l with [] => None | d :: l' => Some (foldl date_max d l') end.

(** ** Floats *)

(** A Python [float], an IEEE 754 binary64: not-a-number, an infinity, or
    the finite value [m * 2^e] with its sign, where [2^52 ≤ m < 2^53] and
    [-1074 ≤ e ≤ 971] for a normal number, [m < 2^52] and [e = -1074] for
    a subnormal one, and [m = 0], [e = 0] for the two zeros. *)
Inductive pyfloat :=
| NaN
| Inf (negative : bool)
| Fin (negative : bool) (m e : Z).

Definition np_nan : pyfloat := NaN.

(** ** Records *)

(** One row of the frame after loading: the eight columns of the input
    and the two derived ones.  A blank [number] cell is [None]. *)
Record row := mkRow {
  number : option Z;
  Sample_ID : string;
  Specie : string;
  Farm_Name : string;
  Disease : string;
  Test_Date : date;
  CT_Value : string;
  Result : string;
  CT_Value_Num : pyfloat;
  is_positive : bool
}.

Abbreviation frame := (list row).

(** ** Cascading combo boxes (Specie -> Farm -> Disease -> Result -> Period) *)

Definition ALL : string := "All".

(** What the five widgets return.  [date_range] is [None] when the date
    input does not return a pair. *)
Record selection := mkSel {
  specie : string;
  farm : string;
  disease : string;
  result : string;
  date_range : option (date * date)
}.

Section Cascade.
Variable DF : frame.
Variable sel : selection.

(** 1) Specie *)
Definition specie_opts : list string := ALL :: sorted (unique (Specie <$> DF)).

Definition df1 : frame :=
  if decide (specie sel = ALL) then DF
  else filter (λ r, Specie r = specie sel) DF.

(** 2) Farm *)
Definition farm_opts : list string := ALL :: sorted (unique (Farm_Name <$> df1)).

Definition df2 : frame :=
  if decide (farm sel = ALL) then df1
  else filter (λ r, Farm_Name r = farm sel) df1.

(** 3) Disease *)
Definition disease_opts : list string := ALL :: sorted (unique (Disease <$> df2)).

(** 4) Result *)
Definition result_opts : list string := [ALL; "Positive"; "Negative"; "Re-analysis"].

(** 5) Period (auto range based on current candidate df2) *)
Definition dmin : option date := dates_min (Test_Date <$> df2).
Definition dmax : option date := dates_max (Test_Date <$> df2).

Definition d_start : option date :=
  match date_range sel with Some (s, _) => Some s | None => dmin end.
Definition d_end : option date :=
  match date_range sel with Some (_, e) => Some e | None => dmax end.

(** The three conjuncts of [mask]. *)
Definition in_period (r : row) : bool :=
  match d_start, d_end with
  | Some s, Some e => date_leb s (Test_Date r) && date_leb (Test_Date r) e
  | _, _ => false
  end.
Definition disease_ok (r : row) : bool :=
  bool_decide (disease sel = ALL) || bool_decide (Disease r = disease sel).
Definition result_ok (r : row) : bool :=
  bool_decide (result sel = ALL) || bool_decide (Result r = result sel).

Definition mask (r : row) : bool := in_period r && disease_ok r && result_ok r.

Definition fdf : frame := filter (λ r, mask r) df2.

(** The candidate sets after the disease, result and period stages,
    taken one stage at a time. *)
Definition df3 : frame :=
  if decide (disease sel = ALL) then df2
  else filter (λ r, Disease r = disease sel) df2.
Definition df4 : frame :=
  if decide (result sel = ALL) then df3
  else filter (λ r, Result r = result sel) df3.
Definition df5 : frame := filter (λ r, in_period r) df4.

End Cascade.

(** ** The builtin [float(s)] *)

Module PyFloat.

(** Round [n / d] to the nearest integer, ties to even. *)
Definition round_half_even (n d : Z) : Z :=
  let q := n / d in
  let r := n mod d in
  if 2 * r <? d then q
  else if d <? 2 * r then q + 1
  else if Z.even q then q else q + 1.

(** [n / d] as a quotient whose integer part is the mantissa for the
    exponent [e]. *)
Definition scaled (n d e : Z) : Z * Z :=
  if 0 <=? e then (n, d * 2 ^ e) else (n * 2 ^ (- e), d).

(** The mantissa and the exponent of the binary64 nearest to [n / d],
    for [0 ≤ n] and [0 < d], ties to even.  The exponent is the one that
    brings the quotient into [2^52, 2^53), or [-1074] when that would be
    lower; rounding up to [2^53] moves to the next exponent. *)
Definition nearest (n d : Z) : Z * Z :=
  let e1 := Z.max (Z.log2 n - Z.log2 d - 53) (-1074) in
  let e := if (scaled n d e1).1 / (scaled n d e1).2 <? 2 ^ 53 then e1 else e1 + 1 in
  let m := round_half_even (scaled n d e).1 (scaled n d e).2 in
  if m =? 0 then (0, 0)
  else if m =? 2 ^ 53 then (2 ^ 52, e + 1)
  else (m, e).

(** The float nearest to [n / d]; beyond the largest finite float it is
    an infinity. *)
Definition binary64 (negative : bool) (n d : Z) : pyfloat :=
  let '(m, e) := nearest n d in
  if 971 <? e then Inf negative else Fin negative m e.

(** The float nearest to [m * 10^e]: a decimal numeral is rounded
    once. *)
Definition of_decimal (negative : bool) (m e : Z) : pyfloat :=
  if 0 <=? e then binary64 negative (m * 10 ^ e) 1
  else binary64 negative m (10 ^ (- e)).

(** The float nearest to the integer [n]. *)
Definition of_int (n : Z) : pyfloat := binary64 (n <? 0) (Z.abs n) 1.

(** The integer part of [m * 2^e] and the numerator of its fractional
    part over [2^(-e)]. *)
Definition trunc (m e : Z) : Z :=
  if 0 <=? e then m * 2 ^ e else m / 2 ^ (- e).
Definition frac (m e : Z) : Z :=
  if 0 <=? e then 0 else m mod 2 ^ (- e).


Definition digit_val (c : ascii) : Z := Z.of_N (Str.code c) - 48.

Definition is_char (a c : ascii) : bool := Ascii.eqb c a.

(** [digit (["_"] digit)*], the digits read so far in [acc] and their
    number in [n]; the text after the digits is returned too. *)
Fixpoint digits_go (acc : Z) (n : Z) (s : string) : Z * Z * string :=
  match s with
  | String c s' =>
      if Str.is_digit c then digits_go (10 * acc + digit_val c) (n + 1) s'
      else if is_char "_" c then
        match s' with
        | String c' _ =>
            if Str.is_digit c' then digits_go acc n s' else (acc, n, s)
        | EmptyString => (acc, n, s)
        end
      else (acc, n, s)
  | EmptyString => (acc, n, s)
  end.

(** [digitpart]: at least one digit, starting with a digit. *)
Definition digitpart (s : string) : option (Z * Z * string) :=
  match s with
  | String c _ => if Str.is_digit c then Some (digits_go 0 0 s) else None
  | EmptyString => None
  end.

Definition sign (s : string) : bool * string :=
  match s with
  | String c s' =>
      if is_char "-" c then (true, s')
      else if is_char "+" c then (false, s')
      else (false, s)
  | EmptyString => (false, s)
  end.

(** The text after a decimal point, if [s] starts with one. *)
Definition point (s : string) : option string :=
  match s with
  | String c s' => if is_char "." c then Some s' else None
  | EmptyString => None
  end.

(** [[digitpart] "." digitpart | digitpart ["."]]: the digits as one
    integer and the number of digits after the point. *)
Definition number (s : string) : option (Z * Z * string) :=
  match digitpart s with
  | Some (i, _, rest) =>
      match point rest with
      | Some s' =>
          match digitpart s' with
          | Some (f, n, rest') => Some (i * 10 ^ n + f, n, rest')
          | None => Some (i, 0, s')
          end
      | None => Some (i, 0, rest)
      end
  | None =>
      match point s with
      | Some s' =>
          match digitpart s' with
          | Some (f, n, rest) => Some (f, n, rest)
          | None => None
          end
      | None => None
      end
  end.

(** [("e" | "E") [sign] digitpart], or nothing. *)
Definition exponent (s : string) : option (Z * string) :=
  match s with
  | String c s' =>
      if is_char "e" (Str.to_lower c) then
        let '(neg, s'') := sign s' in
        match digitpart s'' with
        | Some (x, _, rest) => Some (if neg then - x else x, rest)
        | None => None
        end
      else None
  | EmptyString => Some (0, s)
  end.

Definition absfloatvalue (neg : bool) (s : string) : res pyfloat :=
  let l := Str.lower s in
  if bool_decide (l = "inf") || bool_decide (l = "infinity") then Ok (Inf neg)
  else if bool_decide (l = "nan") then Ok NaN
  else
    match number s with
    | Some (m, n, rest) =>
        match exponent rest with
        | Some (x, EmptyString) => Ok (of_decimal neg m (x - n))
        | _ => Raise ValueError
        end
    | None => Raise ValueError
    end.

(** [float(s)]: white space around the numeral is ignored. *)
Definition float (s : string) : res pyfloat :=
  let '(neg, s') := sign (Str.strip s) in absfloatvalue neg s'.

End PyFloat.

(** ** The [datetime] module *)

Module Datetime.

Definition MINYEAR : Z := 1.
Definition MAXYEAR : Z := 9999.

Definition is_leap (y : Z) : bool :=
  (y mod 4 =? 0) && (negb (y mod 100 =? 0) || (y mod 400 =? 0)).

Definition days_in_month (y m : Z) : Z :=
  if m =? 2 then (if is_leap y then 29 else 28)
  else if (m =? 4) || (m =? 6) || (m =? 9) || (m =? 11) then 30
  else 31.

Definition days_before_year (y : Z) : Z :=
  let y := y - 1 in y * 365 + y / 4 - y / 100 + y / 400.

Definition DAYS_BEFORE_MONTH (m : Z) : Z :=
  nth (Z.to_nat m) [0; 0; 31; 59; 90; 120; 151; 181; 212; 243; 273; 304; 334] 0.

Definition days_before_month (y m : Z) : Z :=
  DAYS_BEFORE_MONTH m + (if (2 <? m) && is_leap y then 1 else 0).

(** [date(y, m, d)]: the constructor checks its fields. *)
Definition new_date (y m d : Z) : res date :=
  if (MINYEAR <=? y) && (y <=? MAXYEAR) && (1 <=? m) && (m <=? 12)
     && (1 <=? d) && (d <=? days_in_month y m)
  then Ok (mkDate y m d) else Raise ValueError.

(** [date.toordinal()]: 0001-01-01 is day 1. *)
Definition ymd2ord (d : date) : Z :=
  days_before_year (year d) + days_before_month (year d) (month d) + day d.

Definition DI400Y : Z := 146097.
Definition DI100Y : Z := 36524.
Definition DI4Y : Z := 1461.
Definition MAXORDINAL : Z := 3652059.

(** [date.fromordinal(n)] *)
Definition ord2ymd (n : Z) : date :=
  let n := n - 1 in
  let n400 := n / DI400Y in let n := n mod DI400Y in
  let y := n400 * 400 + 1 in
  let n100 := n / DI100Y in let n := n mod DI100Y in
  let n4 := n / DI4Y in let n := n mod DI4Y in
  let n1 := n / 365 in let n := n mod 365 in
  let y := y + n100 * 100 + n4 * 4 + n1 in
  if (n1 =? 4) || (n100 =? 4) then mkDate (y - 1) 12 31
  else
    let leapyear := (n1 =? 3) && (negb (n4 =? 24) || (n100 =? 3)) in
    let m := Z.shiftr (n + 50) 5 in
    let preceding := DAYS_BEFORE_MONTH m + (if (2 <? m) && leapyear then 1 else 0) in
    if n <? preceding then
      let m := m - 1 in
      let preceding :=
        preceding - (days_in_month 1 m + (if (m =? 2) && leapyear then 1 else 0)) in
      mkDate y m (n - preceding + 1)
    else mkDate y m (n - preceding + 1).

Definition US_PER_DAY : Z := 86400 * 1000000.

(** [timedelta(days=x)] for a float [x], in microseconds.  The days are
    split into their integer part, taken exactly, and their fractional
    part; the product of the fractional part with the microseconds of a
    day is a float product, split again; what is left of it, less than
    one microsecond, is rounded to the nearest microsecond, a half to the
    even total. *)
Definition timedelta_us (negative : bool) (m e : Z) : Z :=
  let signed (v : Z) := if negative then - v else v in
  let sum := signed (PyFloat.trunc m e * US_PER_DAY) in
  if PyFloat.frac m e =? 0 then sum
  else
    let '(pm, pe) := PyFloat.nearest (US_PER_DAY * PyFloat.frac m e) (2 ^ (- e)) in
    let y := sum + signed (PyFloat.trunc pm pe) in
    let leftover := PyFloat.frac pm pe in
    let one := 2 ^ (- pe) in
    let whole_us :=
      if 2 * leftover <? one then 0
      else if one <? 2 * leftover then 1
      else if Z.odd y then 1 else 0 in
    y + signed whole_us.

(** [timedelta(days=x).days]: a duration holds less than a thousand
    million days. *)
Definition timedelta_days (x : pyfloat) : res Z :=
  match x with
  | NaN => Raise ValueError
  | Inf _ => Raise OverflowError
  | Fin negative m e =>
      let days := timedelta_us negative m e / US_PER_DAY in
      if (-999999999 <=? days) && (days <=? 999999999) then Ok days
      else Raise OverflowError
  end.

(** [(base + timedelta(days=x)).date()] for a [base] at midnight. *)
Definition add_days (base : date) (x : pyfloat) : res date :=
  days ← timedelta_days x;
  let n := ymd2ord base + days in
  if (1 <=? n) && (n <=? MAXORDINAL) then Ok (ord2ymd n)
  else Raise OverflowError.

End Datetime.




(** ** [datetime.strptime] for the directives [%Y], [%m], [%d] *)

Module Strptime.

Inductive directive := DY | Dm | Dd | Lit (c : ascii).

Global Instance directive_eq_dec : EqDecision directive.
Proof. solve_decision. Defined.

Fixpoint parse_format (fmt : string) : list directive :=
  match fmt with
  | String "%"%char (String "Y"%char s) => DY :: parse_format s
  | String "%"%char (String "m"%char s) => Dm :: parse_format s
  | String "%"%char (String "d"%char s) => Dd :: parse_format s
  | String c s => Lit c :: parse_format s
  | EmptyString => []
  end.

(** A character class is a range of character codes; an alternative of a
    directive's pattern is a sequence of classes. *)
Definition cls := (N * N)%type.
Definition in_cls (k : cls) (c : ascii) : bool :=
  (fst k <=? Str.code c)%N && (Str.code c <=? snd k)%N.

Definition one (c : ascii) : cls := (Str.code c, Str.code c).
Definition rng (a b : ascii) : cls := (Str.code a, Str.code b).
Definition digit : cls := rng "0" "9".

(** The patterns of the three directives, alternatives in the order of
    the regular expression:
    [%Y] is [\d\d\d\d], [%m] is [1[0-2]|0[1-9]|[1-9]] and
    [%d] is [3[01]|[12]\d|0[1-9]|[1-9]| [1-9]]. *)
Definition alternatives (d : directive) : list (list cls) :=
  match d with
  | DY => [[digit; digit; digit; digit]]
  | Dm => [[one "1"; rng "0" "2"]; [one "0"; rng "1" "9"]; [rng "1" "9"]]
  | Dd => [[one "3"; rng "0" "1"]; [rng "1" "2"; digit]; [one "0"; rng "1" "9"];
           [rng "1" "9"]; [one " "; rng "1" "9"]]
  | Lit c => [[one c]]
  end.

(** Match one alternative at the head of [s]: the text matched and the
    rest. *)
Fixpoint match_alt (a : list cls) (s : string) : option (string * string) :=
  match a, s with
  | [], _ => Some (EmptyString, s)
  | k :: a', String c s' =>
      if in_cls k c then
        match match_alt a' s' with
        | Some (m, rest) => Some (String c m, rest)
        | None => None
        end
      else None
  | _ :: _, EmptyString => None
  end.

(** The groups found so far. *)
Record found := mkFound { fY : string; fm : string; fd : string }.

Definition set_group (d : directive) (m : string) (f : found) : found :=
  match d with
  | DY => mkFound m (fm f) (fd f)
  | Dm => mkFound (fY f) m (fd f)
  | Dd => mkFound (fY f) (fm f) m
  | Lit _ => f
  end.

(** The alternatives of one directive tried left to right at the head of
    [s]; [k] matches what follows an alternative's text, and when it
    fails the next alternative is tried. *)
Fixpoint first_alt {R} (alts : list (list cls)) (s : string)
    (k : string → string → option R) : option R :=
  match alts with
  | [] => None
  | a :: alts' =>
      match match_alt a s with
      | Some (m, rest) =>
          match k m rest with
          | Some r => Some r
          | None => first_alt alts' s k
          end
      | None => first_alt alts' s k
      end
  end.

(** [re.match]: the first match in backtracking order; the unmatched
    rest of the text is returned. *)
Fixpoint re_match (ds : list directive) (s : string) (f : found)
  : option (found * string) :=
  match ds with
  | [] => Some (f, s)
  | d :: ds' =>
      first_alt (alternatives d) s
                (λ m rest, re_match ds' rest (set_group d m f))
  end.

(** [int(s)] on a group: digits, possibly after one blank. *)
Fixpoint int_go (acc : Z) (s : string) : Z :=
  match s with
  | String c s' =>
      if Str.is_digit c then int_go (10 * acc + PyFloat.digit_val c) s'
      else int_go acc s'
  | EmptyString => acc
  end.
Definition int (s : string) : Z := int_go 0 s.

(** [datetime.strptime(s, fmt).date()]: a text that does not match, a
    match that leaves text over and a date that does not exist all raise
    [ValueError]. *)
Definition strptime (s fmt : string) : res date :=
  match re_match (parse_format fmt) s (mkFound "" "" "") with
  | Some (f, EmptyString) => Datetime.new_date (int (fY f)) (int (fm f)) (int (fd f))
  | _ => Raise ValueError
  end.

End Strptime.

(** ** Data utils *)

(** The columns [_std_columns] asks for. *)
Definition need : list string :=
  ["number"; "Sample_ID"; "Specie"; "Farm_Name"; "Disease"; "Test_Date";
   "CT_Value"; "Result"].

(** [c.strip().replace(" ", "_")] *)
Definition std_name (c : string) : string := Str.replace " " "_" (Str.strip c).

(** [need - set(df.columns)], in the order of the error message. *)
Definition miss (columns : list string) : list string :=
  sorted (filter (λ n, n ∉ columns) need).

(** [_std_columns] on the header of the frame: the renamed header, or
    [ValueError] when a column is missing. *)
Definition _std_columns (columns : list string) : res (list string) :=
  let columns := std_name <$> columns in
  if decide (miss columns = []) then Ok columns else Raise ValueError.

Definition date_formats : list string :=
  ["%Y.%m.%d"; "%Y-%m-%d"; "%Y/%m/%d"; "%m/%d/%Y"; "%d/%m/%Y"].

(** The loop of [_parse_date_any] over the formats still to be tried;
    [otherwise] is what follows the loop. *)
Fixpoint try_formats (s : string) (fmts : list string) (otherwise : res date)
  : res date :=
  match fmts with
  | [] => otherwise
  | fmt :: fmts' =>
      try_except (Strptime.strptime s fmt) (try_formats s fmts' otherwise)
  end.

(** [# excel serial?] *)
Definition excel_serial (s : string) : res date :=
  let base := mkDate 1899 12 30 in
  try_except (x ← PyFloat.float s; Datetime.add_days base x) (Raise ValueError).

Definition _parse_date_any (s : string) : res date :=
  let s := Str.strip s in
  try_formats s date_formats (excel_serial s).

Definition ct_sentinels : list string := [""; "na"; "none"; "nan"; "no ct"; "n/a"].

Definition _to_float_ct (x : string) : res pyfloat :=
  let s := Str.lower (Str.strip x) in
  if decide (s ∈ ct_sentinels) then Ok np_nan
  else try_except (PyFloat.float s) (Ok np_nan).

(** [Series.replace(d)]: a value equal to a key of [d] becomes the value
    stored under that key, any other value is kept. *)
Fixpoint series_replace (d : list (string * string)) (v : string) : string :=
  match d with
  | [] => v
  | (k, w) :: d' => if decide (v = k) then w else series_replace d' v
  end.

(** The [Result] column of both loaders. *)
Definition normalize_result (s : string) : string :=
  series_replace [("Re-Analysis", "Re-analysis"); ("Re-Analysis", "Re-analysis")]
                 (Str.title (Str.strip s)).

(** One line of the input table: the cells under the eight names
    [_std_columns] asks for.  A blank [number] cell is [None]; the cells
    of [Test_Date], [CT_Value] and [Result] are the texts [str] makes of
    them. *)
Record raw_row := mkRaw {
  raw_number : option Z;
  raw_Sample_ID : string;
  raw_Specie : string;
  raw_Farm_Name : string;
  raw_Disease : string;
  raw_Test_Date : string;
  raw_CT_Value : string;
  raw_Result : string
}.

(** The [Test_Date] cell on the sample path. *)
Definition sample_date (x : string) : res date :=
  Strptime.strptime (Str.replace "." "-" x) "%Y-%m-%d".

(** The derived columns of one row, given the parser of its date.  The
    loaders fill the columns one after the other, the date column first;
    as it is the only one whose filling can raise, the rows are taken one
    at a time here. *)
Definition load_row (parse_date : string → res date) (r : raw_row) : res row :=
  d ← parse_date (raw_Test_Date r);
  ct ← _to_float_ct (raw_CT_Value r);
  let res := normalize_result (raw_Result r) in
  mret (mkRow (raw_number r) (raw_Sample_ID r) (raw_Specie r) (raw_Farm_Name r)
              (raw_Disease r) d (raw_CT_Value r) res ct
              (bool_decide (res = "Positive"))).

Fixpoint load_rows (parse_date : string → res date) (l : list raw_row)
  : res frame :=
  match l with
  | [] => mret []
  | r :: l' =>
      x ← load_row parse_date r;
      xs ← load_rows parse_date l';
      mret (x :: xs)
  end.

Definition cmp_then (c : comparison) (k : comparison) : comparison :=
  match c with Eq => k | _ => c end.

Definition date_compare (a b : date) : comparison :=
  cmp_then (year a ?= year b) (cmp_then (month a ?= month b) (day a ?= day b)).

Definition not_gt (c : comparison) : bool :=
  match c with Gt => false | _ => true end.

(** The order of [sort_values(['Test_Date','Farm_Name','Disease','Sample_ID'])]:
    the keys one after the other, the three text columns compared as
    texts. *)
Definition by_date_farm (a b : row) : Prop :=
  not_gt (cmp_then (date_compare (Test_Date a) (Test_Date b))
         (cmp_then (String.compare (Farm_Name a) (Farm_Name b))
         (cmp_then (String.compare (Disease a) (Disease b))
                   (String.compare (Sample_ID a) (Sample_ID b))))).

Global Instance by_date_farm_dec : RelDecision by_date_farm.
Proof. intros a b. unfold by_date_farm. apply _. Defined.

(** [sort_values] on several columns is a stable sort: rows with the
    same keys keep their order. *)
Fixpoint insert_sorted {A} (R : relation A) `{!RelDecision R} (x : A) (l : list A)
  : list A :=
  match l with
  | [] => [x]
  | y :: l' => if decide (R x y) then x :: l else y :: insert_sorted R x l'
  end.

Definition sort_values {A} (R : relation A) `{!RelDecision R} (l : list A) : list A :=
  foldr (insert_sorted R) [] l.

(** What [read_csv] and [read_excel] hand on: the names of the columns
    and the lines under them. *)
Record table := mkTable {
  header : list string;
  lines : list raw_row
}.

Definition load_sample (RAW : table) : res frame :=
  _ ← _std_columns (header RAW);
  df ← load_rows sample_date (lines RAW);
  mret (sort_values by_date_farm df).

Definition read_any_file (uploaded : table) : res frame :=
  _ ← _std_columns (header uploaded);
  df ← load_rows _parse_date_any (lines uploaded);
  mret (sort_values by_date_farm df).

(** ** KPIs *)

(** [int(s.sum())] on a boolean column. *)
Definition bool_sum (l : list bool) : nat := length (filter (λ b : bool, b) l).

(** The float of a count: exact below 2^53, where the quotient of two
    counts is the quotient of their floats. *)
Definition float_of_count (n : nat) : PrimFloat.float :=
  PrimFloat.of_uint63 (Uint63.of_Z (Z.of_nat n)).

Record summary := mkSummary {
  total : nat;
  pos : nat;
  neg : nat;
  rea : nat;
  rate : PrimFloat.float
}.

(** The five numbers of the KPI row; the overview cards and the report
    compute theirs by the same expressions on their own frame. *)
Definition kpis (df : frame) : summary :=
  let total := length df in
  let pos := bool_sum (is_positive <$> df) in
  let neg := bool_sum ((λ r, bool_decide (Result r = "Negative")) <$> df) in
  let rea := bool_sum ((λ r, bool_decide (Str.lower (Result r) = "re-analysis")) <$> df) in
  let rate :=
    if decide (total = 0%nat) then 0%float
    else (float_of_count pos / float_of_count total * 100)%float in
  mkSummary total pos neg rea rate.

(** ** Overview cards *)

Definition farms (fdf : frame) : list string := sorted (unique (Farm_Name <$> fdf)).


(** ** Farm report *)

(** [list.index] *)
Fixpoint index_of (x : string) (l : list string) : option nat :=
  match l with
  | [] => None
  | y :: l' => if decide (x = y) then Some 0%nat else S <$> index_of x l'
  end.

Definition default_idx (farm : string) (farms : list string) : option nat :=
  if decide (farm ≠ ALL ∧ farm ∈ farms) then index_of farm farms
  else match farms with [] => None | _ => Some 0%nat end.

(** [st.selectbox(label, options, index)]: the option the user picked,
    else the option at [index], else nothing. *)
Definition selectbox (options : list string) (index : option nat)
    (picked : option nat) : option string :=
  match picked with
  | Some i => options !! i
  | None => i ← index; options !! i
  end.

(** [groupby(['Disease','Result'])['number'].count()]: the pairs that
    occur, in key order, each with the number of its rows whose [number]
    is not blank. *)
Definition pair_le (a b : string * string) : Prop :=
  not_gt (cmp_then (String.compare a.1 b.1) (String.compare a.2 b.2)).

Global Instance pair_le_dec : RelDecision pair_le.
Proof. intros a b. unfold pair_le. apply _. Defined.

Definition group_counts (rep : frame) : list (string * string * nat) :=
  let keys := (λ r, (Disease r, Result r)) <$> rep in
  (λ k, (k, length (filter (λ r, (Disease r, Result r) = k ∧ is_Some (number r)) rep)))
    <$> merge_sort pair_le (unique keys).

(** The pivot table: its column labels and, per disease, one count per
    column. *)
Record pivot_table := mkPivot {
  columns : list string;
  index : list (string * list nat)
}.

Definition lookup_count (d r : string) (g : list (string * string * nat))
  : option nat :=
  (λ e, e.2.2) <$> list_find (λ e, e.1 = (d, r)) g.

(** [pivot_table(index='Disease', columns='Result', values='number',
    aggfunc='count', fill_value=0)] *)
Definition pivot (rep : frame) : pivot_table :=
  let g := group_counts rep in
  let fill_value := 0%nat in
  let cols := sorted (unique ((λ e, e.1.2) <$> g)) in
  let idx := sorted (unique ((λ e, e.1.1) <$> g)) in
  mkPivot cols
    ((λ d, (d, (λ r, default fill_value (lookup_count d r g)) <$> cols)) <$> idx).

(** The order of [sort_values(['Disease','Test_Date','Sample_ID'])], the
    text columns compared as texts. *)
Definition by_disease_date (a b : row) : Prop :=
  not_gt (cmp_then (String.compare (Disease a) (Disease b))
         (cmp_then (date_compare (Test_Date a) (Test_Date b))
                   (String.compare (Sample_ID a) (Sample_ID b)))).

Global Instance by_disease_date_dec : RelDecision by_disease_date.
Proof. intros a b. unfold by_disease_date. apply _. Defined.

Record report := mkReport {
  rep_name : string;
  rep_summary : summary;
  rep_last_date : option date;
  rep_pivot : pivot_table;
  rep_view : frame
}.

Definition make_farm_report (rep_farm : string) (fdf : frame) : report :=
  let rep := filter (λ r, Farm_Name r = rep_farm) fdf in
  let sub := sort_values by_disease_date rep in
  mkReport rep_farm (kpis sub) (dates_max (Test_Date <$> sub)) (pivot rep) sub.

(** The report section of the page: the farm chosen among [farms], and
    the report when a farm is chosen ([if rep_farm:]). *)
Definition rep_farm (DF : frame) (sel : selection) (picked : option nat)
  : option string :=
  let farms := farms (fdf DF sel) in
  selectbox farms (default_idx (farm sel) farms) picked.

Definition farm_report (DF : frame) (sel : selection) (picked : option nat)
  : option report :=
  match rep_farm DF sel picked with
  | Some fm => if decide (fm = "") then None else Some (make_farm_report fm (fdf DF sel))
  | None => None
  end.

(** ** Sample Data (embedded) *)

(** [RAW] as [read_csv] hands it on. *)
Definition RAW : table :=
  mkTable
  ["number"; "Sample ID"; "Specie"; "Farm Name"; "Disease"; "Test Date";
   "CT Value"; "Result"]
  [
    mkRaw (Some 1) "2025-001" "Swine" "Abcede" "ASF" "2025.10.28" "No Ct" "Negative";
    mkRaw (Some 2) "2025-002" "Swine" "Abcede" "ASF" "2025.10.28" "No Ct" "Negative";
    mkRaw (Some 3) "2025-003" "Swine" "Abcede" "ASF" "2025.10.28" "No Ct" "Negative";
    mkRaw (Some 4) "2025-004" "Swine" "Abcede" "ASF" "2025.10.28" "No Ct" "Negative";
    mkRaw (Some 5) "2025-005" "Swine" "Abcede" "ASF" "2025.10.28" "No Ct" "Negative";
    mkRaw (Some 6) "2025-006" "Swine" "Abcede" "ASF" "2025.10.28" "No Ct" "Negative";
    mkRaw (Some 7) "2025-007" "Broiler" "CJOY" "IBD" "2025.10.30" "31.5" "Positive";
    mkRaw (Some 8) "2025-008" "Broiler" "CJOY" "IBD" "2025.10.30" "33.9" "Re-analysis";
    mkRaw (Some 9) "2025-009" "Broiler" "CJOY" "Reovirus" "2025.10.30" "29.2" "Positive";
    mkRaw (Some 10) "2025-010" "Broiler" "CJOY" "Reovirus" "2025.10.30" "35.6" "Re-analysis";
    mkRaw (Some 11) "2025-011" "Broiler" "CJOY" "IBD" "2025.10.30" "No Ct" "Negative";
    mkRaw (Some 12) "2025-012" "Broiler" "CJOY" "IBD" "2025.10.30" "30.7" "Positive";
    mkRaw (Some 13) "2025-013" "Broiler" "CJOY" "IBD" "2025.11.02" "34" "Re-analysis";
    mkRaw (Some 14) "2025-014" "Broiler" "CJOY" "IBD" "2025.11.02" "31.8" "Positive";
    mkRaw (Some 15) "2025-015" "Broiler" "CJOY" "IBD" "2025.11.02" "30.4" "Positive";
    mkRaw (Some 16) "2025-016" "Broiler" "CJOY" "IBD" "2025.11.02" "33.7" "Re-analysis";
    mkRaw (Some 17) "2025-017" "Broiler" "CJOY" "Reovirus" "2025.11.02" "29.5" "Positive";
    mkRaw (Some 18) "2025-018" "Broiler" "CJOY" "Reovirus" "2025.11.02" "34.8" "Re-analysis";
    mkRaw (Some 19) "2025-019" "Broiler" "CJOY" "IBD" "2025.11.03" "31.2" "Positive";
    mkRaw (Some 20) "2025-020" "Broiler" "CJOY" "IBD" "2025.11.03" "34.7" "Re-analysis";
    mkRaw (Some 21) "2025-021" "Broiler" "CJOY" "Reovirus" "2025.11.03" "29.4" "Positive";
    mkRaw (Some 22) "2025-022" "Broiler" "CJOY" "Reovirus" "2025.11.03" "35.3" "Re-analysis";
    mkRaw (Some 23) "2025-023" "Swine" "Creekview" "PRRS" "2025.10.28" "28.7" "Positive";
    mkRaw (Some 24) "2025-024" "Swine" "Creekview" "PRRS" "2025.10.28" "31.4" "Positive";
    mkRaw (Some 25) "2025-025" "Swine" "Creekview" "PRRS" "2025.10.28" "34.9" "Re-analysis";
    mkRaw (Some 26) "2025-026" "Swine" "Creekview" "ASF" "2025.10.28" "No Ct" "Negative";
    mkRaw (Some 27) "2025-027" "Swine" "Creekview" "PRRS" "2025.11.02" "28.9" "Positive";
    mkRaw (Some 28) "2025-028" "Swine" "Creekview" "PRRS" "2025.11.02" "35.5" "Re-analysis";
    mkRaw (Some 29) "2025-029" "Swine" "Creekview" "PRRS" "2025.11.02" "27.9" "Positive";
    mkRaw (Some 30) "2025-030" "Swine" "Creekview" "PRRS" "2025.11.02" "35.4" "Re-analysis";
    mkRaw (Some 31) "2025-031" "Swine" "Creekview" "PED" "2025.11.03" "30.2" "Positive";
    mkRaw (Some 32) "2025-032" "Swine" "Creekview" "PED" "2025.11.03" "34.6" "Re-analysis";
    mkRaw (Some 33) "2025-033" "Swine" "Creekview" "PED" "2025.11.03" "28.1" "Positive";
    mkRaw (Some 34) "2025-034" "Swine" "Creekview" "PED" "2025.11.03" "34.5" "Re-analysis";
    mkRaw (Some 35) "2025-035" "Swine" "Diamond Field" "ASF" "2025.10.28" "No Ct" "Negative";
    mkRaw (Some 36) "2025-036" "Swine" "Diamond Field" "ASF" "2025.10.28" "No Ct" "Negative";
    mkRaw (Some 37) "2025-037" "Swine" "Diamond Field" "ASF" "2025.10.28" "No Ct" "Negative";
    mkRaw (Some 38) "2025-038" "Swine" "Diamond Field" "ASF" "2025.10.28" "No Ct" "Negative";
    mkRaw (Some 39) "2025-039" "Swine" "Diamond Field" "PRRS" "2025.10.28" "No Ct" "Negative";
    mkRaw (Some 40) "2025-040" "Swine" "Diamond Field" "PRRS" "2025.10.28" "No Ct" "Negative";
    mkRaw (Some 41) "2025-041" "Swine" "Diamond Field" "PRRS" "2025.10.28" "No Ct" "Negative";
    mkRaw (Some 42) "2025-042" "Swine" "Diamond Field" "PRRS" "2025.10.28" "No Ct" "Negative";
    mkRaw (Some 43) "2025-043" "Swine" "FC Farm" "PED" "2025.11.09" "29.3" "Positive";
    mkRaw (Some 44) "2025-044" "Swine" "FC Farm" "PED" "2025.11.09" "26.8" "Positive";
    mkRaw (Some 45) "2025-045" "Swine" "FC Farm" "PED" "2025.11.09" "No Ct" "Negative";
    mkRaw (Some 46) "2025-046" "Swine" "FC Farm" "PED" "2025.11.09" "No Ct" "Negative";
    mkRaw (Some 47) "2025-047" "Swine" "FC Farm" "PED" "2025.11.09" "34.5" "Re-analysis";
    mkRaw (Some 48) "2025-048" "Swine" "FC Farm" "PED" "2025.11.09" "No Ct" "Negative";
    mkRaw (Some 49) "2025-049" "Swine" "FC Farm" "PED" "2025.11.09" "32.1" "Positive";
    mkRaw (Some 50) "2025-050" "Swine" "FC Farm" "PED" "2025.11.09" "35.8" "Re-analysis";
    mkRaw (Some 51) "2025-051" "Layer" "FC Farm" "IBD" "2025.11.10" "30.2" "Positive";
    mkRaw (Some 52) "2025-052" "Layer" "FC Farm" "IBD" "2025.11.10" "32.7" "Positive";
    mkRaw (Some 53) "2025-053" "Layer" "FC Farm" "IBD" "2025.11.10" "32.5" "Positive";
    mkRaw (Some 54) "2025-054" "Layer" "FC Farm" "IBD" "2025.11.10" "33.3" "Re-analysis";
    mkRaw (Some 55) "2025-055" "Swine" "FC Farm" "PED" "2025.11.10" "28.5" "Positive";
    mkRaw (Some 56) "2025-056" "Swine" "FC Farm" "PED" "2025.11.10" "35.1" "Re-analysis";
    mkRaw (Some 57) "2025-057" "Layer" "FC Farm" "IBD" "2025.11.10" "33.8" "Re-analysis";
    mkRaw (Some 58) "2025-058" "Layer" "FC Farm" "IBD" "2025.11.10" "32.9" "Positive";
    mkRaw (Some 59) "2025-059" "Layer" "FML Agriventures Corp" "IBD" "2025.11.11" "34.2" "Re-analysis";
    mkRaw (Some 60) "2025-060" "Layer" "FML Agriventures Corp" "IBD" "2025.11.11" "30.6" "Positive";
    mkRaw (Some 61) "2025-061" "Layer" "FML Agriventures Corp" "IBD" "2025.11.11" "35" "Re-analysis";
    mkRaw (Some 62) "2025-062" "Layer" "FML Agriventures Corp" "IBD" "2025.11.11" "35.2" "Re-analysis";
    mkRaw (Some 63) "2025-063" "Layer" "FML Agriventures Corp" "IBD" "2025.11.11" "35.4" "Re-analysis";
    mkRaw (Some 64) "2025-064" "Layer" "Guansing Farm" "Reovirus" "2025.11.12" "31.6" "Positive";
    mkRaw (Some 65) "2025-065" "Layer" "Guansing Farm" "Reovirus" "2025.11.12" "28.4" "Positive";
    mkRaw (Some 66) "2025-066" "Layer" "Guansing Farm" "Reovirus" "2025.11.12" "33.4" "Re-analysis";
    mkRaw (Some 67) "2025-067" "Layer" "Guansing Farm" "Reovirus" "2025.11.12" "31.4" "Positive";
    mkRaw (Some 68) "2025-068" "Layer" "Guansing Farm" "Reovirus" "2025.11.12" "31.1" "Positive";
    mkRaw (Some 69) "2025-069" "Layer" "Keena Farm" "IBD" "2025.11.19" "33.1" "Re-analysis";
    mkRaw (Some 70) "2025-070" "Layer" "Keena Farm" "IBD" "2025.11.19" "33" "Re-analysis";
    mkRaw (Some 71) "2025-071" "Layer" "Keena Farm" "IBD" "2025.11.19" "34.1" "Re-analysis";
    mkRaw (Some 72) "2025-072" "Layer" "Keena Farm" "IBD" "2025.11.19" "34.3" "Re-analysis";
    mkRaw (Some 73) "2025-073" "Layer" "Keena Farm" "IBD" "2025.11.19" "34.2" "Re-analysis";
    mkRaw (Some 74) "2025-074" "Layer" "Miler Farm" "Reovirus" "2025.11.20" "29.8" "Positive";
    mkRaw (Some 75) "2025-075" "Layer" "Miler Farm" "Reovirus" "2025.11.20" "35.3" "Re-analysis";
    mkRaw (Some 76) "2025-076" "Layer" "Miler Farm" "Reovirus" "2025.11.20" "31.9" "Positive";
    mkRaw (Some 77) "2025-077" "Layer" "Miler Farm" "Reovirus" "2025.11.20" "32.5" "Positive";
    mkRaw (Some 78) "2025-078" "Layer" "Miler Farm" "Reovirus" "2025.11.20" "32.3" "Positive";
    mkRaw (Some 79) "2025-079" "Swine" "MM Farm" "ASF" "2025.11.21" "No Ct" "Negative";
    mkRaw (Some 80) "2025-080" "Layer" "MM Farm" "Reovirus" "2025.11.21" "28.9" "Positive";
    mkRaw (Some 81) "2025-081" "Swine" "MM Farm" "ASF" "2025.11.21" "No Ct" "Negative";
    mkRaw (Some 82) "2025-082" "Layer" "MM Farm" "Reovirus" "2025.11.21" "34.1" "Re-analysis";
    mkRaw (Some 83) "2025-083" "Swine" "MM Farm" "ASF" "2025.11.21" "No Ct" "Negative";
    mkRaw (Some 84) "2025-084" "Layer" "MM Farm" "Reovirus" "2025.11.21" "29.7" "Positive";
    mkRaw (Some 85) "2025-085" "Swine" "MM Farm" "ASF" "2025.11.21" "No Ct" "Negative";
    mkRaw (Some 86) "2025-086" "Layer" "MM Farm" "Reovirus" "2025.11.21" "30" "Positive";
    mkRaw (Some 87) "2025-087" "Swine" "MM Farm" "ASF" "2025.11.21" "No Ct" "Negative";
    mkRaw (Some 88) "2025-088" "Layer" "MM Farm" "Reovirus" "2025.11.21" "30.5" "Positive";
    mkRaw (Some 89) "2025-089" "Swine" "MM Farm" "ASF" "2025.11.22" "No Ct" "Negative";
    mkRaw (Some 90) "2025-090" "Swine" "Porkland" "PRRS" "2025.11.25" "33.5" "Re-analysis";
    mkRaw (Some 91) "2025-091" "Swine" "Porkland" "PRRS" "2025.11.25" "29.9" "Positive";
    mkRaw (Some 92) "2025-092" "Swine" "Porkland" "PRRS" "2025.11.25" "30.3" "Positive";
    mkRaw (Some 93) "2025-093" "Swine" "Porkland" "PRRS" "2025.11.25" "30.8" "Positive";
    mkRaw (Some 94) "2025-094" "Swine" "Porkland" "PRRS" "2025.11.25" "28.9" "Positive";
    mkRaw (Some 95) "2025-095" "Swine" "Porkland" "PRRS" "2025.11.25" "29.7" "Positive";
    mkRaw (Some 96) "2025-096" "Layer" "Ramos Farm" "Reovirus" "2025.11.26" "35.2" "Re-analysis";
    mkRaw (Some 97) "2025-097" "Layer" "Ramos Farm" "Reovirus" "2025.11.26" "35.7" "Re-analysis";
    mkRaw (Some 98) "2025-098" "Layer" "Ramos Farm" "Reovirus" "2025.11.26" "35.6" "Re-analysis";
    mkRaw (Some 99) "2025-099" "Layer" "Ramos Farm" "Reovirus" "2025.11.26" "35.1" "Re-analysis";
    mkRaw (Some 100) "2025-100" "Layer" "Ramos Farm" "Reovirus" "2025.11.26" "34.9" "Re-analysis";
    mkRaw (Some 101) "2025-101" "Swine" "Sinag" "ASF" "2025.11.27" "No Ct" "Negative";
    mkRaw (Some 102) "2025-102" "Swine" "Sinag" "ASF" "2025.11.27" "No Ct" "Negative";
    mkRaw (Some 103) "2025-103" "Swine" "Sinag" "ASF" "2025.11.27" "No Ct" "Negative";
    mkRaw (Some 104) "2025-104" "Swine" "Sinag" "ASF" "2025.11.27" "No Ct" "Negative";
    mkRaw (Some 105) "2025-105" "Swine" "Sinag" "ASF" "2025.11.27" "No Ct" "Negative";
    mkRaw (Some 106) "2025-106" "Swine" "Sinag" "ASF" "2025.11.27" "No Ct" "Negative";
    mkRaw (Some 107) "2025-107" "Layer" "SLC Agri" "Reovirus" "2025.11.28" "No Ct" "Negative";
    mkRaw (Some 108) "2025-108" "Layer" "SLC Agri" "Reovirus" "2025.11.28" "31.2" "Positive";
    mkRaw (Some 109) "2025-109" "Layer" "SLC Agri" "Reovirus" "2025.11.28" "28.5" "Positive";
    mkRaw (Some 110) "2025-110" "Layer" "SLC Agri" "Reovirus" "2025.11.28" "29.9" "Positive";
    mkRaw (Some 111) "2025-111" "Layer" "SLC Agri" "Reovirus" "2025.11.28" "29.7" "Positive";
    mkRaw (Some 112) "2025-112" "Swine" "Southern Swine Paradise" "ASF" "2025.11.29" "No Ct" "Negative";
    mkRaw (Some 113) "2025-113" "Swine" "Southern Swine Paradise" "ASF" "2025.11.29" "No Ct" "Negative";
    mkRaw (Some 114) "2025-114" "Swine" "Southern Swine Paradise" "ASF" "2025.11.29" "No Ct" "Negative";
    mkRaw (Some 115) "2025-115" "Swine" "Southern Swine Paradise" "ASF" "2025.11.29" "No Ct" "Negative";
    mkRaw (Some 116) "2025-116" "Swine" "Southern Swine Paradise" "ASF" "2025.11.29" "No Ct" "Negative";
    mkRaw (Some 117) "2025-117" "Swine" "Southern Swine Paradise" "ASF" "2025.11.29" "No Ct" "Negative";
    mkRaw (Some 118) "2025-118" "Layer" "Veriño’s Farm" "IBD" "2025.11.30" "No Ct" "Negative";
    mkRaw (Some 119) "2025-119" "Layer" "Veriño’s Farm" "IBD" "2025.11.30" "No Ct" "Negative";
    mkRaw (Some 120) "2025-120" "Layer" "Veriño’s Farm" "IBD" "2025.11.30" "No Ct" "Negative";
    mkRaw (Some 121) "2025-121" "Layer" "Veriño’s Farm" "IBD" "2025.11.30" "No Ct" "Negative";
    mkRaw (Some 122) "2025-122" "Layer" "Veriño’s Farm" "IBD" "2025.11.30" "No Ct" "Negative"
  ].

(** The frame the page works on when nothing is uploaded. *)
Definition sample_frame : frame :=
  match load_sample RAW with Ok df => df | Raise _ => [] end.

(** The three CJOY lines of the sample tested on 2025-10-30 for IBD: one
    positive, one to be re-analysed, one negative without a CT. *)
Definition cjoy_lines : table :=
  mkTable (header RAW)
  [ mkRaw (Some 7) "2025-007" "Broiler" "CJOY" "IBD" "2025.10.30" "31.5" "Positive";
    mkRaw (Some 8) "2025-008" "Broiler" "CJOY" "IBD" "2025.10.30" "33.9" "Re-analysis";
    mkRaw (Some 11) "2025-011" "Broiler" "CJOY" "IBD" "2025.10.30" "No Ct" "Negative" ].

(** The period default as the specification words it: the bounds of the
    set narrowed by specie, farm, disease and result. *)
Definition dmin_of_four (DF : frame) (sel : selection) : option date :=
  dates_min (Test_Date <$> df4 DF sel).
Definition dmax_of_four (DF : frame) (sel : selection) : option date :=
  dates_max (Test_Date <$> df4 DF sel).

(** ** The texts a format accepts *)

(** Whether the whole of [m] matches the alternative [a]. *)
Fixpoint fullmatch (a : list Strptime.cls) (m : string) : bool :=
  match a, m with
  | [], EmptyString => true
  | k :: a', String c m' => Strptime.in_cls k c && fullmatch a' m'
  | _, _ => false
  end.

(** [m] is a text of the directive [d]. *)
Definition piece (d : Strptime.directive) (m : string) : Prop :=
  ∃ a, a ∈ Strptime.alternatives d ∧ fullmatch a m = true.

(** The pieces [ms] one after the other, then [rest]. *)
Fixpoint join (ms : list string) (rest : string) : string :=
  match ms with
  | [] => rest
  | m :: ms' => m +:+ join ms' rest
  end.

(** A separator the sample path reads as a dash. *)
Definition dot_or_dash (c : ascii) : Prop := c = "."%char ∨ c = "-"%char.

(** What [replace('.', '-')] does to one character, and to the groups
    found. *)
Definition dashed (c : ascii) : ascii := if Ascii.eqb c "." then "-"%char else c.

Definition dashed_found (f : Strptime.found) : Strptime.found :=
  Strptime.mkFound (Str.replace "." "-" (Strptime.fY f))
                   (Str.replace "." "-" (Strptime.fm f))
                   (Str.replace "." "-" (Strptime.fd f)).

(** A class of the dotted format and the class that stands for it in the
    dashed format: they agree on every character but the dash, once the
    dots are dashes. *)
Definition cls_rel (k k' : Strptime.cls) : Prop :=
  ∀ c, c ≠ "-"%char → Strptime.in_cls k c = Strptime.in_cls k' (dashed c).

Definition dir_rel (d d' : Strptime.directive) : Prop :=
  Forall2 (Forall2 cls_rel) (Strptime.alternatives d) (Strptime.alternatives d')
  ∧ ∀ m f, Strptime.set_group d' (Str.replace "." "-" m) (dashed_found f)
           = dashed_found (Strptime.set_group d m f).

(** The formats of the upload path that separate with slashes. *)
Definition slash_formats : list string := ["%Y/%m/%d"; "%m/%d/%Y"; "%d/%m/%Y"].

(** What the loaders establish for the derived column [is_positive]. *)
Definition derived (r : row) : Prop :=
  is_positive r = bool_decide (Result r = "Positive").

Global Instance derived_dec r : Decision (derived r).
Proof. unfold derived. apply _. Defined.

(** ** The trend chart and the download *)

(** [groupby(['Test_Date','Disease'])['is_positive'].sum()] of the trend
    chart: one point per date and disease, in key order, with the number
    of positives. *)
Definition date_disease_le (a b : date * string) : Prop :=
  not_gt (cmp_then (date_compare a.1 b.1) (String.compare a.2 b.2)).

Global Instance date_disease_le_dec : RelDecision date_disease_le.
Proof. intros a b. unfold date_disease_le. apply _. Defined.

Definition line_df (fdf : frame) : list (date * string * nat) :=
  let keys := (λ r, (Test_Date r, Disease r)) <$> fdf in
  (λ k, (k, bool_sum (is_positive
                        <$> filter (λ r, (Test_Date r, Disease r) = k) fdf)))
    <$> merge_sort date_disease_le (unique keys).

(** A text made of decimal digits only. *)
Fixpoint all_digits (s : string) : bool :=
  match s with
  | EmptyString => true
  | String c s' => Str.is_digit c && all_digits s'
  end.

(** [len(s)] *)
Definition len (s : string) : Z := Z.of_nat (String.length s).

(** The name of the downloaded report. *)
Definition file_name (rep_farm : string) : string :=
  Str.replace " " "_" rep_farm +:+ "_report.html".

(** * Properties *)

(** ** Sorted distinct values *)

Section Distinct.

Lemma elem_of_unique {A} `{EqDecision A} (l : list A) (x : A) :
  x ∈ unique l ↔ x ∈ l.
Proof.
  induction l as [|y l IH]; simpl; [done|].
  rewrite !elem_of_cons, list_elem_of_filter, IH.
  destruct (decide (x = y)); naive_solver.
Qed.

Lemma NoDup_unique {A} `{EqDecision A} (l : list A) : NoDup (unique l).
Proof.
  induction l as [|y l IH]; simpl; constructor.
  - rewrite list_elem_of_filter. naive_solver.
  - by apply NoDup_filter.
Qed.

Lemma sorted_perm (l : list string) : sorted l ≡ₚ l.
Proof. apply merge_sort_Permutation. Qed.

Lemma sorted_sorted (l : list string) : StronglySorted String.le (sorted l).
Proof. apply (StronglySorted_merge_sort _). Qed.

(** What [sorted(col.unique().tolist())] is for a column [f] of [df]. *)
Lemma distinct_values_spec (f : row → string) (df : frame) :
  let opts := sorted (unique (f <$> df)) in
  StronglySorted String.le opts ∧ NoDup opts
  ∧ ∀ v, v ∈ opts ↔ ∃ r, r ∈ df ∧ f r = v.
Proof.
  simpl. split; [apply sorted_sorted|]. split.
  - rewrite sorted_perm. apply NoDup_unique.
  - intros v. rewrite sorted_perm, elem_of_unique, list_elem_of_fmap.
    naive_solver.
Qed.

End Distinct.

(** ** Stable sorting *)

Section StableSort.
Context {A : Type} (R : relation A) `{!RelDecision R}.

Lemma insert_sorted_Permutation x l : insert_sorted R x l ≡ₚ x :: l.
Proof.
  induction l as [|y l IH]; [done|]. simpl. case_decide; [done|].
  rewrite IH. apply Permutation_swap.
Qed.

Lemma sort_values_Permutation l : sort_values R l ≡ₚ l.
Proof.
  induction l as [|x l IH]; [done|]. unfold sort_values. simpl.
  rewrite insert_sorted_Permutation. by constructor.
Qed.

Lemma HdRel_insert_sorted `{!Total R} y x l :
  ¬ R x y → HdRel R y l → HdRel R y (insert_sorted R x l).
Proof.
  intros Hxy Hl. assert (R y x) as Hyx by (destruct (stdpp.base.total R x y); tauto).
  destruct l as [|z l]; simpl; [by constructor|].
  case_decide; constructor; [done|]. by inversion Hl.
Qed.

Lemma Sorted_insert_sorted `{!Total R} x l :
  Sorted R l → Sorted R (insert_sorted R x l).
Proof.
  induction 1 as [|y l Hl IH Hhd]; simpl.
  - repeat constructor.
  - case_decide.
    + constructor; [by constructor|by constructor].
    + constructor; [done|]. by apply HdRel_insert_sorted.
Qed.

Lemma Sorted_sort_values `{!Total R} l : Sorted R (sort_values R l).
Proof.
  induction l as [|x l IH]; [constructor|]. by apply Sorted_insert_sorted.
Qed.

End StableSort.

(** ** The cascade *)

Section CascadeFacts.
Variable DF : frame.
Variable sel : selection.

Lemma elem_of_df1 r :
  r ∈ df1 DF sel ↔ r ∈ DF ∧ (specie sel = ALL ∨ Specie r = specie sel).
Proof.
  unfold df1. case_decide; [naive_solver|].
  rewrite list_elem_of_filter. naive_solver.
Qed.

Lemma elem_of_df2 r :
  r ∈ df2 DF sel ↔
  r ∈ DF ∧ (specie sel = ALL ∨ Specie r = specie sel)
         ∧ (farm sel = ALL ∨ Farm_Name r = farm sel).
Proof.
  unfold df2. case_decide.
  - rewrite elem_of_df1. naive_solver.
  - rewrite list_elem_of_filter, elem_of_df1. naive_solver.
Qed.

(** The mask of the page selects what the three last stages select one
    after the other. *)
Lemma fdf_staged : fdf DF sel = df5 DF sel.
Proof.
  unfold fdf, df5, df4, df3, mask, disease_ok, result_ok.
  destruct (decide (disease sel = ALL)) as [Hd|Hd],
           (decide (result sel = ALL)) as [Hr|Hr];
    rewrite ?(bool_decide_eq_true_2 _ Hd), ?(bool_decide_eq_false_2 _ Hd),
            ?(bool_decide_eq_true_2 _ Hr), ?(bool_decide_eq_false_2 _ Hr);
    rewrite ?list_filter_filter; apply list_filter_iff; intros r; simpl;
    rewrite ?andb_True, ?bool_decide_spec, ?andb_true_r; naive_solver.
Qed.

End CascadeFacts.

(** C4. Narrowing is monotonic: each of the five stages (specie, farm,
    disease, result, period) keeps a sub-list of the rows the stage
    before it kept, in their order; the frame [fdf] the page filters in
    one mask is the set after the last stage; and a stage whose selection
    is "All" keeps every row it is given. *)
Theorem narrowing_monotonic (DF : frame) (sel : selection) :
  (df1 DF sel `sublist_of` DF
   ∧ df2 DF sel `sublist_of` df1 DF sel
   ∧ df3 DF sel `sublist_of` df2 DF sel
   ∧ df4 DF sel `sublist_of` df3 DF sel
   ∧ df5 DF sel `sublist_of` df4 DF sel)
  ∧ fdf DF sel = df5 DF sel
  ∧ (specie sel = ALL → df1 DF sel = DF)
  ∧ (farm sel = ALL → df2 DF sel = df1 DF sel)
  ∧ (disease sel = ALL → df3 DF sel = df2 DF sel)
  ∧ (result sel = ALL → df4 DF sel = df3 DF sel).
Proof.
  split; [|split; [apply fdf_staged|]].
  - unfold df5, df4, df3, df2, df1.
    repeat split; repeat case_decide; try congruence; try reflexivity;
      apply sublist_filter.
  - unfold df4, df3, df2, df1.
    repeat split; intros ?; repeat case_decide; congruence.
Qed.

Lemma narrowing_monotonic_witness :
  df1 sample_frame (mkSel ALL ALL ALL ALL None) = sample_frame.
Proof.
  destruct (narrowing_monotonic sample_frame (mkSel ALL ALL ALL ALL None))
    as (_ & _ & H & _).
  apply H. reflexivity.
Defined.



(** ** The period default *)

Section DateOrder.

Ltac date_order :=
  unfold date_le, date_leb;
  repeat match goal with d : date |- _ => destruct d end; simpl;
  rewrite ?orb_true_iff, ?andb_true_iff, ?orb_false_iff, ?andb_false_iff,
          ?Z.ltb_lt, ?Z.eqb_eq, ?Z.leb_le, ?Z.ltb_ge, ?Z.leb_gt, ?Z.eqb_neq.

Lemma date_le_refl a : date_le a a.
Proof. date_order. lia. Qed.

Lemma date_le_trans a b c : date_le a b → date_le b c → date_le a c.
Proof. date_order. lia. Qed.

Lemma date_le_total a b : date_le a b ∨ date_le b a.
Proof. date_order. lia. Qed.

Lemma date_leb_false a b : date_leb a b = false → date_le b a.
Proof.
  intros H. destruct (date_le_total a b) as [H'|H']; [|done].
  unfold date_le in H'. congruence.
Qed.

Lemma date_min_le_l a b : date_le (date_min a b) a.
Proof.
  unfold date_min. destruct (date_leb a b) eqn:E.
  - apply date_le_refl.
  - by apply date_leb_false.
Qed.

Lemma date_min_le_r a b : date_le (date_min a b) b.
Proof. unfold date_min. destruct (date_leb a b) eqn:E; [done|apply date_le_refl]. Qed.

Lemma date_max_ge_l a b : date_le a (date_max a b).
Proof. unfold date_max. destruct (date_leb a b) eqn:E; [done|apply date_le_refl]. Qed.

Lemma date_max_ge_r a b : date_le b (date_max a b).
Proof.
  unfold date_max. destruct (date_leb a b) eqn:E.
  - apply date_le_refl.
  - by apply date_leb_false.
Qed.

Lemma foldl_date_min l d :
  foldl date_min d l ∈ d :: l
  ∧ ∀ x, x ∈ d :: l → date_le (foldl date_min d l) x.
Proof.
  revert d. induction l as [|y l IH]; intros d; simpl.
  - split; [set_solver|]. intros x ->%list_elem_of_singleton. apply date_le_refl.
  - destruct (IH (date_min d y)) as [Hin Hle]. split.
    + apply elem_of_cons in Hin as [->|Hin]; [|set_solver].
      unfold date_min. destruct (date_leb d y); set_solver.
    + intros x Hx.
      assert (date_le (foldl date_min (date_min d y) l) (date_min d y)) as Hm
        by (apply Hle; set_solver).
      apply elem_of_cons in Hx as [->|Hx].
      { eapply date_le_trans; [exact Hm|apply date_min_le_l]. }
      apply elem_of_cons in Hx as [->|Hx].
      { eapply date_le_trans; [exact Hm|apply date_min_le_r]. }
      apply Hle. set_solver.
Qed.

Lemma foldl_date_max l d :
  foldl date_max d l ∈ d :: l
  ∧ ∀ x, x ∈ d :: l → date_le x (foldl date_max d l).
Proof.
  revert d. induction l as [|y l IH]; intros d; simpl.
  - split; [set_solver|]. intros x ->%list_elem_of_singleton. apply date_le_refl.
  - destruct (IH (date_max d y)) as [Hin Hle]. split.
    + apply elem_of_cons in Hin as [->|Hin]; [|set_solver].
      unfold date_max. destruct (date_leb d y); set_solver.
    + intros x Hx.
      assert (date_le (date_max d y) (foldl date_max (date_max d y) l)) as Hm
        by (apply Hle; set_solver).
      apply elem_of_cons in Hx as [->|Hx].
      { eapply date_le_trans; [apply date_max_ge_l|exact Hm]. }
      apply elem_of_cons in Hx as [->|Hx].
      { eapply date_le_trans; [apply date_max_ge_r|exact Hm]. }
      apply Hle. set_solver.
Qed.

(** The minimum of a date column is one of its dates and bounds them
    all; it is undefined on the empty column only. *)
Lemma dates_min_spec (df : frame) :
  match dates_min (Test_Date <$> df) with
  | Some d => (∃ r, r ∈ df ∧ Test_Date r = d)
              ∧ ∀ r, r ∈ df → date_le d (Test_Date r)
  | None => df = []
  end.
Proof.
  destruct df as [|r0 df]; simpl; [done|].
  pose proof (foldl_date_min (Test_Date <$> df) (Test_Date r0)) as [Hin Hle].
  split.
  - change (Test_Date r0 :: (Test_Date <$> df)) with (Test_Date <$> r0 :: df) in Hin.
    apply list_elem_of_fmap in Hin as (r & Heq & Hr).
    exists r. split; [done|]. symmetry. exact Heq.
  - intros r Hr. apply Hle.
    change (Test_Date r0 :: (Test_Date <$> df)) with (Test_Date <$> r0 :: df).
    by apply list_elem_of_fmap_2.
Qed.

Lemma dates_max_spec (df : frame) :
  match dates_max (Test_Date <$> df) with
  | Some d => (∃ r, r ∈ df ∧ Test_Date r = d)
              ∧ ∀ r, r ∈ df → date_le (Test_Date r) d
  | None => df = []
  end.
Proof.
  destruct df as [|r0 df]; simpl; [done|].
  pose proof (foldl_date_max (Test_Date <$> df) (Test_Date r0)) as [Hin Hle].
  split.
  - change (Test_Date r0 :: (Test_Date <$> df)) with (Test_Date <$> r0 :: df) in Hin.
    apply list_elem_of_fmap in Hin as (r & Heq & Hr).
    exists r. split; [done|]. symmetry. exact Heq.
  - intros r Hr. apply Hle.
    change (Test_Date r0 :: (Test_Date <$> df)) with (Test_Date <$> r0 :: df).
    by apply list_elem_of_fmap_2.
Qed.

End DateOrder.

(** With Swine, Creekview and PED selected in the sample, the period
    offered starts on 2025-10-28, the first Creekview test, although the
    first PED test there is of 2025-11-03: the default is not the bound of
    the set narrowed by all four selections. *)
Lemma period_default_not_of_four :
  let sel := mkSel "Swine" "Creekview" "PED" ALL None in
  dmin sample_frame sel = Some (mkDate 2025 10 28)
  ∧ dmin_of_four sample_frame sel = Some (mkDate 2025 11 3)
  ∧ dmin sample_frame sel ≠ dmin_of_four sample_frame sel.
Proof. vm_compute. split; [done|]. split; [done|]. discriminate. Qed.

(** C1 (amended). The period offered by default runs from the earliest to
    the latest test date of the frame narrowed by specie and farm only:
    both bounds are dates of that frame and enclose all its dates, they
    are undefined when that frame is empty, and they do not depend on the
    disease, result or period selected. *)
Theorem period_default_of_specie_farm (DF : frame) (sel : selection) :
  (∀ r, r ∈ df2 DF sel ↔
        r ∈ DF ∧ (specie sel = ALL ∨ Specie r = specie sel)
               ∧ (farm sel = ALL ∨ Farm_Name r = farm sel))
  ∧ match dmin DF sel with
    | Some d => (∃ r, r ∈ df2 DF sel ∧ Test_Date r = d)
                ∧ ∀ r, r ∈ df2 DF sel → date_le d (Test_Date r)
    | None => df2 DF sel = []
    end
  ∧ match dmax DF sel with
    | Some d => (∃ r, r ∈ df2 DF sel ∧ Test_Date r = d)
                ∧ ∀ r, r ∈ df2 DF sel → date_le (Test_Date r) d
    | None => df2 DF sel = []
    end
  ∧ ∀ dis res per,
      let sel' := mkSel (specie sel) (farm sel) dis res per in
      dmin DF sel' = dmin DF sel ∧ dmax DF sel' = dmax DF sel.
Proof.
  split; [apply elem_of_df2|].
  split; [apply dates_min_spec|].
  split; [apply dates_max_spec|].
  intros dis res per. by destruct sel.
Qed.

Lemma period_default_of_specie_farm_witness :
  let sel := mkSel "Swine" "Creekview" "PED" ALL None in
  ∃ d, dmin sample_frame sel = Some d
       ∧ ∀ r, r ∈ df2 sample_frame sel → date_le d (Test_Date r).
Proof.
  intros sel.
  destruct (period_default_of_specie_farm sample_frame sel) as (_ & H & _).
  destruct (dmin sample_frame sel) as [d|] eqn:E.
  - exists d. split; [reflexivity|apply H].
  - exfalso. revert E. vm_compute. discriminate.
Defined.


(** ** KPIs *)

Lemma bool_sum_fmap {A} (f : A → bool) (P : A → Prop) `{!∀ x, Decision (P x)}
    (l : list A) :
  (∀ x, x ∈ l → (f x = true ↔ P x)) →
  bool_sum (f <$> l) = length (filter P l).
Proof.
  unfold bool_sum. induction l as [|x l IH]; intros Hf; [done|].
  rewrite fmap_cons, !filter_cons.
  assert (f x = true ↔ P x) as Hx by (apply Hf; set_solver).
  assert (bool_sum (f <$> l) = length (filter P l)) as IH'
    by (apply IH; intros y Hy; apply Hf; set_solver).
  unfold bool_sum in IH'.
  destruct (f x) eqn:E; repeat case_decide; simpl; rewrite ?IH';
    try done; exfalso; naive_solver.
Qed.

Lemma load_row_derived parse_date raw r :
  load_row parse_date raw = Ok r → derived r.
Proof.
  unfold load_row. destruct (parse_date _); [|done]. simpl.
  destruct (_to_float_ct _); [|done]. simpl.
  intros [= <-]. reflexivity.
Qed.

Lemma load_rows_derived parse_date raws df :
  load_rows parse_date raws = Ok df → Forall derived df.
Proof.
  revert df. induction raws as [|raw raws IH]; simpl; intros df.
  - intros [= <-]. constructor.
  - destruct (load_row parse_date raw) as [r|] eqn:E; [|done]. simpl.
    destruct (load_rows parse_date raws) as [rs|]; [|done]. simpl.
    intros [= <-]. constructor; [by eapply load_row_derived|by apply IH].
Qed.

(** Both loaders hand on frames whose [is_positive] column is derived. *)
(** A loader that returns has accepted the header and read every line. *)
Lemma loader_inv parse_date (raws : table) df :
  (_ ← _std_columns (header raws);
   rows ← load_rows parse_date (lines raws);
   mret (sort_values by_date_farm rows)) = Ok df →
  ∃ columns rows,
    _std_columns (header raws) = Ok columns
    ∧ load_rows parse_date (lines raws) = Ok rows
    ∧ df = sort_values by_date_farm rows.
Proof.
  destruct (_std_columns _) as [columns|]; [|done]. simpl.
  destruct (load_rows _ _) as [rows|]; [|done]. simpl.
  intros [= <-]. by exists columns, rows.
Qed.

Lemma loaded_derived raws df :
  load_sample raws = Ok df ∨ read_any_file raws = Ok df → Forall derived df.
Proof.
  unfold load_sample, read_any_file.
  intros [H|H]; apply loader_inv in H as (columns & rows & _ & Hrows & ->);
    rewrite sort_values_Permutation; by eapply load_rows_derived.
Qed.

Lemma fdf_subseteq DF sel r : r ∈ fdf DF sel → r ∈ DF.
Proof.
  intros Hr. apply list_elem_of_filter in Hr as [_ Hr].
  apply elem_of_df2 in Hr. tauto.
Qed.

Lemma derived_fdf DF sel : Forall derived DF → Forall derived (fdf DF sel).
Proof.
  rewrite !Forall_forall. intros H r Hr. apply H. by eapply fdf_subseteq.
Qed.

(** C5. On a subset of a loaded frame the summary counts the rows
    ([total]), the rows whose result is exactly "Positive", exactly
    "Negative", and "re-analysis" once lower-cased; the rate is
    [pos / total * 100] in floating point when there is a row and [0.0]
    otherwise.  The three CJOY rows (Positive with CT 31.5, Re-analysis
    with CT 33.9, Negative with "No Ct") give 3, 1, 1, 1 and a rate that
    prints as 33.3.  As floats, 31.5 is 8866461766385664 * 2^-48 and 33.9
    is 4771000855245619 * 2^-47. *)
Theorem kpis_spec :
  (∀ raws DF sel,
     load_sample raws = Ok DF ∨ read_any_file raws = Ok DF →
     Forall derived DF ∧ Forall derived (fdf DF sel))
  ∧ (∀ df, Forall derived df →
     total (kpis df) = length df
     ∧ pos (kpis df) = length (filter (λ r, Result r = "Positive") df)
     ∧ neg (kpis df) = length (filter (λ r, Result r = "Negative") df)
     ∧ rea (kpis df)
       = length (filter (λ r, Str.lower (Result r) = "re-analysis") df)
     ∧ (length df = 0%nat → rate (kpis df) = 0%float)
     ∧ (length df ≠ 0%nat →
        rate (kpis df)
        = (float_of_count (pos (kpis df)) / float_of_count (total (kpis df))
           * 100)%float))
  ∧ ∃ df, load_sample cjoy_lines = Ok df
          ∧ (λ r, (Farm_Name r, Result r, CT_Value r, CT_Value_Num r)) <$> df
            = [("CJOY", "Positive", "31.5", Fin false 8866461766385664 (-48));
               ("CJOY", "Re-analysis", "33.9", Fin false 4771000855245619 (-47));
               ("CJOY", "Negative", "No Ct", NaN)]
          ∧ total (kpis df) = 3%nat ∧ pos (kpis df) = 1%nat
          ∧ neg (kpis df) = 1%nat ∧ rea (kpis df) = 1%nat
          ∧ PrimFloat.ltb 33.25 (rate (kpis df)) = true
          ∧ PrimFloat.ltb (rate (kpis df)) 33.34375 = true.
Proof.
  split; [|split].
  - intros raws DF sel H. apply loaded_derived in H.
    split; [done|by apply derived_fdf].
  - intros df Hd. rewrite Forall_forall in Hd.
    split; [reflexivity|]. split; [|split; [|split; [|split]]].
    + apply bool_sum_fmap. intros r Hr. rewrite (Hd r Hr).
      apply bool_decide_eq_true.
    + apply bool_sum_fmap. intros r _. apply bool_decide_eq_true.
    + apply bool_sum_fmap. intros r _. apply bool_decide_eq_true.
    + intros H0. unfold kpis. simpl. by rewrite decide_True.
    + intros H0. unfold kpis. simpl. by rewrite decide_False.
  - eexists. split; [vm_compute; reflexivity|]. vm_compute. done.
Qed.

(** The whole sample: 122 tests, 44 positive. *)
Lemma kpis_spec_witness :
  total (kpis sample_frame) = 122%nat
  ∧ pos (kpis sample_frame)
    = length (filter (λ r, Result r = "Positive") sample_frame).
Proof.
  destruct kpis_spec as (_ & H & _).
  destruct (H sample_frame) as (Ht & Hp & _).
  - apply (bool_decide_unpack _). vm_compute. exact I.
  - split; [rewrite Ht; reflexivity|exact Hp].
Defined.

(** ** Farm report *)

Lemma selectbox_elem_of options index picked fm :
  selectbox options index picked = Some fm → fm ∈ options.
Proof.
  unfold selectbox. destruct picked as [i|]; [|destruct index as [i|]]; simpl;
    try done; apply list_elem_of_lookup_2.
Qed.

Lemma index_of_lookup x l i : index_of x l = Some i → l !! i = Some x.
Proof.
  revert i. induction l as [|y l IH]; intros i; simpl; [done|].
  case_decide as E; [intros [= <-]; by subst|].
  destruct (index_of x l) as [j|]; simpl; [|done].
  intros [= <-]. by apply IH.
Qed.

Lemma index_of_elem_of x l : x ∈ l → is_Some (index_of x l).
Proof.
  induction l as [|y l IH]; simpl; [by intros ?%elem_of_nil|].
  intros [->|Hx]%elem_of_cons; case_decide; try done.
  destruct (IH Hx) as [j ->]. done.
Qed.

Lemma elem_of_farms (df : frame) fm :
  fm ∈ farms df ↔ ∃ r, r ∈ df ∧ Farm_Name r = fm.
Proof. apply (distinct_values_spec Farm_Name df). Qed.

Lemma total_make_farm_report fm (df : frame) :
  total (rep_summary (make_farm_report fm df))
  = length (filter (λ r, Farm_Name r = fm) df).
Proof. simpl. by rewrite sort_values_Permutation. Qed.

(** In the sample Abcede has six rows, all negative.  With the farm box
    on Abcede and the result box on Positive no row is left, no farm is
    offered for the report and no report is built, whatever the user
    does: there is no report with total 0. *)
Lemma no_report_when_filtered_out :
  let sel := mkSel ALL "Abcede" ALL "Positive" None in
  length (filter (λ r, Farm_Name r = "Abcede") sample_frame) = 6%nat
  ∧ filter (λ r, Farm_Name r = "Abcede") (fdf sample_frame sel) = []
  ∧ farms (fdf sample_frame sel) = []
  ∧ ∀ picked, farm_report sample_frame sel picked = None.
Proof.
  intros sel.
  assert (farms (fdf sample_frame sel) = []) as Hf by (vm_compute; reflexivity).
  split; [vm_compute; reflexivity|]. split; [vm_compute; reflexivity|].
  split; [exact Hf|].
  intros picked. unfold farm_report, rep_farm. rewrite Hf.
  destruct picked as [[|i]|]; reflexivity.
Qed.

(** C2 (amended). The report section raises no error.  The farms offered
    for the report are the farms with a row under the current filters;
    the farm chosen is one of them, by default the farm of the farm box
    when it is offered.  A report is built exactly when a farm with a
    non-empty name is chosen; its total is the number of that farm's rows
    under the filters, which is at least 1, and the farm has rows in the
    base frame.  When no farm has a row under the filters no report is
    built. *)
Theorem farm_report_spec (DF : frame) (sel : selection) (picked : option nat) :
  (∀ fm, fm ∈ farms (fdf DF sel) ↔ ∃ r, r ∈ fdf DF sel ∧ Farm_Name r = fm)
  ∧ (∀ fm, rep_farm DF sel picked = Some fm → fm ∈ farms (fdf DF sel))
  ∧ (picked = None → farm sel ≠ ALL → farm sel ∈ farms (fdf DF sel) →
     rep_farm DF sel picked = Some (farm sel))
  ∧ (∀ rpt, farm_report DF sel picked = Some rpt →
       rep_farm DF sel picked = Some (rep_name rpt)
       ∧ rep_name rpt ≠ ""
       ∧ total (rep_summary rpt)
         = length (filter (λ r, Farm_Name r = rep_name rpt) (fdf DF sel))
       ∧ (1 ≤ total (rep_summary rpt))%nat
       ∧ ∃ r, r ∈ DF ∧ Farm_Name r = rep_name rpt)
  ∧ (farm_report DF sel picked = None ↔
     rep_farm DF sel picked = None ∨ rep_farm DF sel picked = Some "")
  ∧ (farms (fdf DF sel) = [] → farm_report DF sel picked = None).
Proof.
  split; [intros fm; apply elem_of_farms|].
  split; [intros fm; apply selectbox_elem_of|].
  split.
  { intros -> Hall Hin. unfold rep_farm, default_idx, selectbox.
    rewrite decide_True by done.
    destruct (index_of_elem_of _ _ Hin) as [i Hi]. rewrite Hi. simpl.
    by apply index_of_lookup. }
  split.
  { intros rpt. unfold farm_report.
    destruct (rep_farm DF sel picked) as [fm|] eqn:E; [|done].
    case_decide as Hne; [done|]. intros [= <-].
    assert (fm ∈ farms (fdf DF sel)) as Hin by by eapply selectbox_elem_of.
    apply elem_of_farms in Hin as (r & Hr & Hfm).
    split; [done|]. split; [done|].
    rewrite total_make_farm_report. simpl. split; [done|]. split.
    - assert (r ∈ filter (λ r, Farm_Name r = fm) (fdf DF sel)) as Hr'
        by by apply list_elem_of_filter.
      destruct (filter _ (fdf DF sel)); [by apply elem_of_nil in Hr'|simpl; lia].
    - exists r. split; [by eapply fdf_subseteq|done]. }
  split.
  { unfold farm_report. destruct (rep_farm DF sel picked) as [fm|]; [|naive_solver].
    case_decide; naive_solver. }
  intros Hf. unfold farm_report, rep_farm. rewrite Hf.
  destruct picked as [[|i]|]; unfold default_idx; simpl; try case_decide; done.
Qed.

(** CJOY in the sample, everything on "All": the report counts its 16
    rows. *)
Lemma farm_report_spec_witness :
  let sel := mkSel ALL "CJOY" ALL ALL None in
  rep_farm sample_frame sel None = Some "CJOY"
  ∧ ∃ rpt, farm_report sample_frame sel None = Some rpt
           ∧ (1 ≤ total (rep_summary rpt))%nat.
Proof.
  intros sel.
  destruct (farm_report_spec sample_frame sel None) as (_ & _ & Hd & Hr & _).
  split.
  - apply Hd; [reflexivity|discriminate|].
    apply (bool_decide_unpack _). vm_compute. exact I.
  - destruct (farm_report sample_frame sel None) as [rpt|] eqn:E.
    + exists rpt. split; [reflexivity|]. apply (Hr rpt). reflexivity.
    + exfalso. revert E. vm_compute. discriminate.
Defined.

(** ** The disease by result pivot *)

Section Counting.
Context {A : Type}.
Implicit Types (P Q : A → Prop) (l : list A).

Lemma filter_ext_in P Q `{!∀ x, Decision (P x), !∀ x, Decision (Q x)} l :
  (∀ x, x ∈ l → (P x ↔ Q x)) → filter P l = filter Q l.
Proof.
  induction l as [|x l IH]; intros Hext; [done|].
  rewrite !filter_cons, IH by (intros y Hy; apply Hext; set_solver).
  assert (P x ↔ Q x) by (apply Hext; set_solver).
  repeat case_decide; try done; exfalso; tauto.
Qed.

Lemma filter_none P `{!∀ x, Decision (P x)} l :
  (∀ x, x ∈ l → ¬ P x) → filter P l = [].
Proof.
  induction l as [|x l IH]; intros Hno; [done|].
  rewrite filter_cons, IH by (intros y Hy; apply Hno; set_solver).
  case_decide; [|done]. exfalso. apply (Hno x); [set_solver|done].
Qed.

Lemma count_split P Q `{!∀ x, Decision (P x), !∀ x, Decision (Q x)} l :
  (∀ x, P x → Q x → False) →
  length (filter (λ x, P x ∨ Q x) l)
  = (length (filter P l) + length (filter Q l))%nat.
Proof.
  intros Hdisj. induction l as [|x l IH]; [done|].
  rewrite !filter_cons.
  repeat case_decide; simpl; rewrite ?IH; try lia; exfalso; naive_solver.
Qed.

End Counting.


Section Pivot.
Variable rep : frame.

Let key (r : row) : string * string := (Disease r, Result r).









End Pivot.




(** ** White space and letter case around a cell *)

Section Padding.

Implicit Types (l r x t : string).

Lemma string_app_cons c s t : String c s +:+ t = String c (s +:+ t).
Proof. reflexivity. Qed.

Lemma is_blank_cons c s :
  Str.is_blank (String c s) = true ↔ Str.is_space c = true ∧ Str.is_blank s = true.
Proof. simpl. apply andb_true_iff. Qed.

Lemma lstrip_blank l : Str.is_blank l = true → Str.lstrip l = "".
Proof.
  induction l as [|c l IH]; [done|]. intros [Hc Hl]%is_blank_cons.
  simpl. rewrite Hc. by apply IH.
Qed.

Lemma rstrip_blank r : Str.is_blank r = true → Str.rstrip r = "".
Proof.
  induction r as [|c r IH]; [done|]. intros [Hc Hr]%is_blank_cons.
  simpl. by rewrite IH, Hc.
Qed.

Lemma lstrip_blank_app l t : Str.is_blank l = true → Str.lstrip (l +:+ t) = Str.lstrip t.
Proof.
  induction l as [|c l IH]; [done|]. intros [Hc Hl]%is_blank_cons.
  rewrite string_app_cons. simpl. rewrite Hc. by apply IH.
Qed.

Lemma rstrip_app_blank t r : Str.is_blank r = true → Str.rstrip (t +:+ r) = Str.rstrip t.
Proof.
  intros Hr. induction t as [|c t IH]; [by apply rstrip_blank|].
  rewrite string_app_cons. simpl. by rewrite IH.
Qed.

Lemma strip_app_blank x r : Str.is_blank r = true → Str.strip (x +:+ r) = Str.strip x.
Proof.
  intros Hr. unfold Str.strip. induction x as [|c x IH].
  - change ("" +:+ r) with r. by rewrite lstrip_blank.
  - rewrite string_app_cons. simpl. destruct (Str.is_space c); [done|].
    rewrite <- string_app_cons. by apply rstrip_app_blank.
Qed.

(** Blanks before and after a text do not change what is left once it is
    trimmed. *)
Lemma strip_padded l x r :
  Str.is_blank l = true → Str.is_blank r = true →
  Str.strip (l +:+ x +:+ r) = Str.strip x.
Proof.
  intros Hl Hr. unfold Str.strip. rewrite lstrip_blank_app by done.
  by apply strip_app_blank.
Qed.

Ltac by_cases c := destruct c as [[] [] [] [] [] [] [] []]; reflexivity.

Lemma is_space_upper c : Str.is_space (Str.to_upper c) = Str.is_space c.
Proof. by_cases c. Qed.
Lemma to_lower_upper c : Str.to_lower (Str.to_upper c) = Str.to_lower c.
Proof. by_cases c. Qed.

Lemma lower_upper x : Str.lower (Str.upper x) = Str.lower x.
Proof. induction x as [|c x IH]; [done|]. simpl. by rewrite IH, to_lower_upper. Qed.

Lemma lstrip_upper x : Str.lstrip (Str.upper x) = Str.upper (Str.lstrip x).
Proof.
  induction x as [|c x IH]; [done|]. simpl. rewrite is_space_upper.
  by destruct (Str.is_space c).
Qed.

Lemma rstrip_upper x : Str.rstrip (Str.upper x) = Str.upper (Str.rstrip x).
Proof.
  induction x as [|c x IH]; [done|]. simpl. rewrite IH, is_space_upper.
  destruct (Str.rstrip x); simpl; [|done]. by destruct (Str.is_space c).
Qed.

Lemma strip_upper x : Str.strip (Str.upper x) = Str.upper (Str.strip x).
Proof. unfold Str.strip. by rewrite lstrip_upper, rstrip_upper. Qed.

End Padding.

(** ** CT values *)

Lemma to_float_ct_returns x : ∃ v, _to_float_ct x = Ok v.
Proof.
  unfold _to_float_ct. case_decide; [eauto|].
  destruct (PyFloat.float _); simpl; eauto.
Qed.

Lemma to_float_ct_strip x y : Str.strip x = Str.strip y → _to_float_ct x = _to_float_ct y.
Proof. unfold _to_float_ct. by intros ->. Qed.

(** C8. The CT cell is trimmed and lower-cased: blanks before and after
    it, and the case of its ASCII letters, do not change what is read.
    One of the six sentinel tokens gives the absent value [nan]; any
    other text is handed to [float], whose value is returned, and whose
    failure gives [nan] too: the function returns for every input. *)
Theorem to_float_ct_total (x : string) :
  let s := Str.lower (Str.strip x) in
  ct_sentinels = [""; "na"; "none"; "nan"; "no ct"; "n/a"]
  ∧ (s ∈ ct_sentinels → _to_float_ct x = Ok np_nan)
  ∧ (s ∉ ct_sentinels → ∀ v, PyFloat.float s = Ok v → _to_float_ct x = Ok v)
  ∧ (s ∉ ct_sentinels → ∀ e, PyFloat.float s = Raise e →
     _to_float_ct x = Ok np_nan)
  ∧ (∃ v, _to_float_ct x = Ok v)
  ∧ (∀ l r, Str.is_blank l = true → Str.is_blank r = true →
            _to_float_ct (l +:+ x +:+ r) = _to_float_ct x)
  ∧ (Str.is_ascii x = true → _to_float_ct (Str.upper x) = _to_float_ct x).
Proof.
  intros s.
  split; [reflexivity|].
  split; [intros H; unfold _to_float_ct; fold s; by rewrite decide_True|].
  split; [intros H v Hv; unfold _to_float_ct; fold s; by rewrite decide_False, Hv|].
  split; [intros H e He; unfold _to_float_ct; fold s; by rewrite decide_False, He|].
  split; [apply to_float_ct_returns|].
  split.
  - intros l r Hl Hr. apply to_float_ct_strip. by apply strip_padded.
  - intros _. unfold _to_float_ct. by rewrite strip_upper, lower_upper.
Qed.

(** A sentinel with a blank before it, a numeral, a text that is no
    numeral, a numeral between blanks, two numerals with a blank between
    them, a sentinel in capitals and a numeral with its exponent in
    capitals; 31.5 is 8866461766385664 * 2^-48 and 10 is
    5629499534213120 * 2^-49. *)
Lemma to_float_ct_total_witness :
  _to_float_ct " No Ct" = Ok np_nan
  ∧ _to_float_ct "31.5" = Ok (Fin false 8866461766385664 (-48))
  ∧ _to_float_ct "3x.5" = Ok np_nan
  ∧ _to_float_ct " 31.5 " = Ok (Fin false 8866461766385664 (-48))
  ∧ _to_float_ct "3 1" = Ok np_nan
  ∧ _to_float_ct "N/A" = Ok np_nan
  ∧ _to_float_ct "1E1" = Ok (Fin false 5629499534213120 (-49)).
Proof.
  split; [|split; [|split; [|split; [|split; [|split]]]]].
  - destruct (to_float_ct_total " No Ct") as (_ & H & _).
    apply H. apply (bool_decide_unpack _). vm_compute. exact I.
  - destruct (to_float_ct_total "31.5") as (_ & _ & H & _).
    apply H; [|reflexivity].
    apply (bool_decide_unpack _). vm_compute. exact I.
  - destruct (to_float_ct_total "3x.5") as (_ & _ & _ & H & _).
    apply H with (e := ValueError); [|reflexivity].
    apply (bool_decide_unpack _). vm_compute. exact I.
  - destruct (to_float_ct_total "31.5") as (_ & _ & _ & _ & _ & H & _).
    etrans; [exact (H " " " " eq_refl eq_refl)|reflexivity].
  - destruct (to_float_ct_total "3 1") as (_ & _ & _ & H & _).
    apply H with (e := ValueError); [|reflexivity].
    apply (bool_decide_unpack _). vm_compute. exact I.
  - destruct (to_float_ct_total "n/a") as (_ & _ & _ & _ & _ & _ & H).
    etrans; [exact (H eq_refl)|reflexivity].
  - destruct (to_float_ct_total "1e1") as (_ & _ & _ & _ & _ & _ & H).
    etrans; [exact (H eq_refl)|reflexivity].
Defined.

(** A row fails to load only on its date. *)
Lemma load_row_raises parse_date raw e :
  load_row parse_date raw = Raise e → parse_date (raw_Test_Date raw) = Raise e.
Proof.
  unfold load_row. destruct (parse_date _) as [d|e']; simpl; [|congruence].
  destruct (to_float_ct_returns (raw_CT_Value raw)) as [v ->].
  done.
Qed.

(** ** Results *)

Section Case.

Ltac by_cases c := destruct c as [[] [] [] [] [] [] [] []]; reflexivity.

Lemma to_lower_to_upper c : Str.to_lower (Str.to_upper c) = Str.to_lower c.
Proof. by_cases c. Qed.
Lemma to_lower_idemp c : Str.to_lower (Str.to_lower c) = Str.to_lower c.
Proof. by_cases c. Qed.
Lemma to_upper_to_lower c : Str.to_upper (Str.to_lower c) = Str.to_upper c.
Proof. by_cases c. Qed.
Lemma is_cased_to_lower c : Str.is_cased (Str.to_lower c) = Str.is_cased c.
Proof. by_cases c. Qed.

Lemma lower_title_go b s : Str.lower (Str.title_go b s) = Str.lower s.
Proof.
  revert b. induction s as [|c s IH]; intros b; simpl; [done|].
  rewrite IH. destruct b; by rewrite ?to_lower_idemp, ?to_lower_to_upper.
Qed.

Lemma title_go_lower b s : Str.title_go b (Str.lower s) = Str.title_go b s.
Proof.
  revert b. induction s as [|c s IH]; intros b; simpl; [done|].
  rewrite is_cased_to_lower, IH.
  destruct b; by rewrite ?to_lower_idemp, ?to_upper_to_lower.
Qed.

(** Title-casing sees the letters only, not their case. *)
Lemma title_re_analysis t :
  Str.title t = "Re-Analysis" ↔ Str.lower t = "re-analysis".
Proof.
  unfold Str.title. split; intros H.
  - rewrite <- (lower_title_go false t), H. reflexivity.
  - rewrite <- title_go_lower, H. reflexivity.
Qed.

End Case.

(** A spelling without the hyphen, with a blank or with two hyphens is
    title-cased and kept: it is not collapsed to [Re-analysis]. *)
Lemma hyphenation_variants_kept :
  normalize_result "reanalysis" = "Reanalysis"
  ∧ normalize_result "re analysis" = "Re Analysis"
  ∧ normalize_result "Re--Analysis" = "Re--Analysis"
  ∧ normalize_result "reanalysis" ≠ "Re-analysis".
Proof. vm_compute. repeat split; discriminate. Qed.

(** C9 (amended). The result is trimmed and title-cased, and the value
    [Re-Analysis] this gives for every letter-case variant of
    "re-analysis" is replaced by the canonical [Re-analysis]: the result
    is [Re-analysis] exactly when the trimmed text is "re-analysis" up to
    letter case.  Every other value is kept as trimmed and title-cased,
    whether or not it is one of Positive, Negative and Re-analysis; no
    value is rejected. *)
Theorem normalize_result_spec (s : string) :
  let t := Str.strip s in
  (Str.lower t = "re-analysis" ↔ normalize_result s = "Re-analysis")
  ∧ (Str.lower t ≠ "re-analysis" → normalize_result s = Str.title t)
  ∧ (normalize_result s ∉ ["Positive"; "Negative"; "Re-analysis"] →
     normalize_result s = Str.title t)
  ∧ ∀ parse_date raw r,
      load_row parse_date raw = Ok r → Result r = normalize_result (raw_Result raw).
Proof.
  intros t. unfold normalize_result. fold t. simpl.
  assert (Str.lower t ≠ "re-analysis" →
          (if decide (Str.title t = "Re-Analysis") then "Re-analysis"
           else if decide (Str.title t = "Re-Analysis") then "Re-analysis"
                else Str.title t) = Str.title t) as Hkeep.
  { intros Hne. rewrite <- title_re_analysis in Hne. by rewrite !decide_False. }
  split; [split|split; [exact Hkeep|split]].
  - intros H%title_re_analysis. by rewrite decide_True.
  - intros H. destruct (decide (Str.lower t = "re-analysis")) as [|Hne]; [done|].
    rewrite (Hkeep Hne) in H. exfalso. apply Hne.
    rewrite <- (lower_title_go false t). fold (Str.title t). by rewrite H.
  - intros Hout. destruct (decide (Str.lower t = "re-analysis")) as [He|Hne];
      [|by apply Hkeep].
    apply title_re_analysis in He. rewrite decide_True in Hout by done.
    exfalso. apply Hout. set_solver.
  - intros parse_date raw r. unfold load_row.
    destruct (parse_date _); [|done]. simpl.
    destruct (_to_float_ct _); [|done]. simpl. by intros [= <-].
Qed.

Lemma normalize_result_spec_witness :
  normalize_result " RE-ANALYSIS " = "Re-analysis"
  ∧ normalize_result "weak positive" = "Weak Positive".
Proof.
  split.
  - destruct (normalize_result_spec " RE-ANALYSIS ") as (H & _).
    apply H. reflexivity.
  - destruct (normalize_result_spec "weak positive") as (_ & H & _).
    apply H. vm_compute. discriminate.
Defined.

(** ** Dates *)

Lemma try_formats_find s fmts otherwise :
  try_formats s fmts otherwise
  = match list_find (λ fmt, is_ok (Strptime.strptime s fmt)) fmts with
    | Some (_, fmt) => Strptime.strptime s fmt
    | None => otherwise
    end.
Proof.
  induction fmts as [|fmt fmts IH]; [done|].
  cbn [try_formats list_find].
  destruct (Strptime.strptime s fmt) as [d|e] eqn:E; simpl.
  - done.
  - rewrite IH. by destruct (list_find _ fmts) as [[i f]|].
Qed.

Lemma excel_serial_unfold s :
  excel_serial s
  = match PyFloat.float s with
    | Ok x =>
        match Datetime.timedelta_days x with
        | Ok days =>
            let n := Datetime.ymd2ord (mkDate 1899 12 30) + days in
            if (1 <=? n) && (n <=? Datetime.MAXORDINAL)
            then Ok (Datetime.ord2ymd n) else Raise ValueError
        | Raise _ => Raise ValueError
        end
    | Raise _ => Raise ValueError
    end.
Proof.
  unfold excel_serial, Datetime.add_days.
  destruct (PyFloat.float s) as [x|]; simpl; [|done].
  destruct (Datetime.timedelta_days x) as [days|]; simpl; [|done].
  by destruct (_ && _).
Qed.

(** ** Floats and day counts *)

Section Binary64.
Import PyFloat.

Lemma round_half_even_bounds n d :
  0 < d → n / d ≤ round_half_even n d ≤ n / d + 1.
Proof.
  intros Hd. unfold round_half_even.
  repeat match goal with |- context [if ?b then _ else _] => destruct b end; lia.
Qed.

Lemma round_half_even_1 n : round_half_even n 1 = n.
Proof. unfold round_half_even. by rewrite Z.div_1_r, Z.mod_1_r. Qed.

Lemma round_half_even_exact n d :
  0 < d → n mod d = 0 → round_half_even n d = n / d.
Proof.
  intros Hd H. unfold round_half_even. rewrite H.
  destruct (2 * 0 <? d) eqn:E; [done|]. apply Z.ltb_ge in E. lia.
Qed.

Lemma pow2_pos k : 0 ≤ k → 0 < 2 ^ k.
Proof. intros. by apply Z.pow_pos_nonneg. Qed.

Lemma pow2_split a b : 0 ≤ a → 0 ≤ b → 2 ^ (a + b) = 2 ^ a * 2 ^ b.
Proof. intros. by apply Z.pow_add_r. Qed.

(** An integer below [2^53] is a float. *)
Lemma nearest_small n :
  0 < n < 2 ^ 53 →
  nearest n 1 = (n * 2 ^ (52 - Z.log2 n), Z.log2 n - 52).
Proof.
  intros Hn. unfold nearest. change (Z.log2 1) with 0.
  pose proof (Z.log2_nonneg n) as Ha0.
  assert (Z.log2 n < 53) as Ha1 by (apply Z.log2_lt_pow2; lia).
  destruct (Z.log2_spec n ltac:(lia)) as [Hlo Hhi].
  set (a := Z.log2 n) in *.
  rewrite Z.max_l by lia. unfold scaled.
  assert ((0 <=? a - 0 - 53) = false) as -> by (apply Z.leb_gt; lia).
  cbn [fst snd]. rewrite Z.div_1_r.
  replace (- (a - 0 - 53)) with (53 - a) by lia.
  assert (2 ^ 53 = 2 ^ a * 2 ^ (53 - a)) as H53
    by (rewrite <- pow2_split by lia; f_equal; lia).
  assert (0 < 2 ^ (53 - a)) by (apply pow2_pos; lia).
  assert ((n * 2 ^ (53 - a) <? 2 ^ 53) = false) as ->
    by (apply Z.ltb_ge; rewrite H53; nia).
  replace (a - 0 - 53 + 1) with (a - 52) by lia.
  assert (2 ^ 53 = 2 ^ Z.succ a * 2 ^ (52 - a)) as H53'
    by (rewrite <- pow2_split by lia; f_equal; lia).
  assert (0 < 2 ^ (52 - a)) by (apply pow2_pos; lia).
  assert (0 < n * 2 ^ (52 - a) < 2 ^ 53) as Hm by (rewrite H53'; nia).
  destruct (0 <=? a - 52) eqn:E.
  - apply Z.leb_le in E. assert (a = 52) as Ea by lia.
    cbn [fst snd]. rewrite Ea in *. change (52 - 52) with 0 in *.
    change (2 ^ 0) with 1 in *. rewrite Z.mul_1_r in *.
    rewrite round_half_even_1.
    assert ((n =? 0) = false) as -> by (apply Z.eqb_neq; lia).
    assert ((n =? 2 ^ 53) = false) as -> by (apply Z.eqb_neq; lia).
    f_equal; lia.
  - cbn [fst snd]. replace (- (a - 52)) with (52 - a) by lia.
    rewrite round_half_even_1.
    assert ((n * 2 ^ (52 - a) =? 0) = false) as -> by (apply Z.eqb_neq; lia).
    assert ((n * 2 ^ (52 - a) =? 2 ^ 53) = false) as -> by (apply Z.eqb_neq; lia).
    reflexivity.
Qed.

(** An integer from [2^53] on is rounded to a float that is no smaller
    than [2^53]. *)
Lemma nearest_big n m e :
  2 ^ 53 ≤ n → nearest n 1 = (m, e) → 1 ≤ e ∧ 2 ^ 52 ≤ m.
Proof.
  intros Hn. unfold nearest. change (Z.log2 1) with 0.
  assert (53 ≤ Z.log2 n) as Ha by (apply Z.log2_le_pow2; lia).
  destruct (Z.log2_spec n ltac:(lia)) as [Hlo Hhi].
  set (a := Z.log2 n) in *.
  rewrite Z.max_l by lia. unfold scaled.
  assert ((0 <=? a - 0 - 53) = true) as -> by (apply Z.leb_le; lia).
  cbn [fst snd]. rewrite Z.mul_1_l.
  assert (2 ^ a = 2 ^ 53 * 2 ^ (a - 0 - 53)) as Ha53
    by (rewrite <- pow2_split by lia; f_equal; lia).
  assert (0 < 2 ^ (a - 0 - 53)) by (apply pow2_pos; lia).
  assert ((n / 2 ^ (a - 0 - 53) <? 2 ^ 53) = false) as ->.
  { apply Z.ltb_ge. apply Z.div_le_lower_bound; lia. }
  replace (a - 0 - 53 + 1) with (a - 52) by lia.
  assert ((0 <=? a - 52) = true) as -> by (apply Z.leb_le; lia).
  cbn [fst snd]. rewrite Z.mul_1_l.
  assert (2 ^ a = 2 ^ 52 * 2 ^ (a - 52)) as Ha52
    by (rewrite <- pow2_split by lia; f_equal; lia).
  assert (0 < 2 ^ (a - 52)) by (apply pow2_pos; lia).
  assert (2 ^ 52 ≤ n / 2 ^ (a - 52)) by (apply Z.div_le_lower_bound; lia).
  pose proof (round_half_even_bounds n (2 ^ (a - 52)) ltac:(lia)) as Hr.
  set (m0 := round_half_even n (2 ^ (a - 52))) in *.
  assert ((m0 =? 0) = false) as -> by (apply Z.eqb_neq; lia).
  destruct (m0 =? 2 ^ 53); intros [= <- <-]; lia.
Qed.


End Binary64.

Section Timedelta.
Import PyFloat Datetime.




(** A whole number below [2^53] is a float, and its own day count. *)
Lemma binary64_small negative n :
  0 < n < 2 ^ 53 →
  ∃ m e, binary64 negative n 1 = Fin negative m e
         ∧ trunc m e = n ∧ frac m e = 0.
Proof.
  intros Hn. unfold binary64. rewrite nearest_small by done.
  pose proof (Z.log2_nonneg n) as Ha0.
  assert (Z.log2 n < 53) as Ha1 by (apply Z.log2_lt_pow2; lia).
  assert ((971 <? Z.log2 n - 52) = false) as -> by (apply Z.ltb_ge; lia).
  eexists _, _. split; [reflexivity|]. unfold trunc, frac.
  destruct (0 <=? Z.log2 n - 52) eqn:E.
  - apply Z.leb_le in E. replace (Z.log2 n) with 52 by lia.
    change (2 ^ (52 - 52)) with 1. lia.
  - apply Z.leb_gt in E. replace (- (Z.log2 n - 52)) with (52 - Z.log2 n) by lia.
    assert (0 < 2 ^ (52 - Z.log2 n)) by (apply pow2_pos; lia).
    by rewrite Z.div_mul, Z.mod_mul by lia.
Qed.

Lemma timedelta_days_whole n :
  -999999999 ≤ n ≤ 999999999 → timedelta_days (of_int n) = Ok n.
Proof.
  intros Hn. unfold of_int.
  destruct (decide (n = 0)) as [->|Hn0]; [reflexivity|].
  destruct (binary64_small (n <? 0) (Z.abs n)) as (m & e & -> & Ht & Hf); [lia|].
  unfold timedelta_days, timedelta_us. rewrite Ht, Hf. cbn [Z.eqb].
  assert ((if n <? 0 then - (Z.abs n * US_PER_DAY) else Z.abs n * US_PER_DAY)
          = n * US_PER_DAY) as ->.
  { destruct (n <? 0) eqn:E; [apply Z.ltb_lt in E|apply Z.ltb_ge in E]; lia. }
  rewrite Z.div_mul by done.
  assert ((-999999999 <=? n) && (n <=? 999999999) = true) as ->; [|done].
  apply andb_true_iff. split; apply Z.leb_le; lia.
Qed.

(** A whole number beyond the day counts of the calendar has no day
    count within them. *)
Lemma timedelta_days_big n days :
  0 ≤ n → timedelta_days (binary64 false n 1) = Ok days →
  n ≤ 999999999 ∧ days = n.
Proof.
  intros Hn. destruct (decide (n < 2 ^ 53)) as [Hs|Hb].
  - destruct (decide (n ≤ 999999999)) as [Hle|Hgt].
    + assert (binary64 false n 1 = of_int n) as ->.
      { unfold of_int. replace (Z.abs n) with n by lia.
        by assert ((n <? 0) = false) as -> by (apply Z.ltb_ge; lia). }
      rewrite timedelta_days_whole by lia. by intros [= <-].
    + destruct (binary64_small false n) as (m & e & -> & Ht & Hf); [lia|].
      unfold timedelta_days, timedelta_us. rewrite Ht, Hf. cbn [Z.eqb].
      rewrite Z.div_mul by done.
      assert ((n <=? 999999999) = false) as -> by (apply Z.leb_gt; lia).
      by rewrite andb_false_r.
  - unfold binary64. destruct (nearest n 1) as [m e] eqn:En.
    apply nearest_big in En as [He Hm]; [|lia].
    destruct (971 <? e); [done|].
    unfold timedelta_days, timedelta_us, trunc, frac.
    assert ((0 <=? e) = true) as -> by (apply Z.leb_le; lia). cbn [Z.eqb].
    rewrite Z.div_mul by done.
    assert (2 ^ 1 ≤ 2 ^ e) by (apply Z.pow_le_mono_r; lia).
    change (2 ^ 1) with 2 in *.
    assert (2 ^ 52 = 4503599627370496) as E52 by reflexivity.
    assert ((m * 2 ^ e <=? 999999999) = false) as -> by (apply Z.leb_gt; nia).
    by rewrite andb_false_r.
Qed.

End Timedelta.

(** ** Ordinals *)

Section Ordinals.
Import Datetime.











End Ordinals.

(** ** The date parser *)

Lemma parse_date_any_find s :
  _parse_date_any s
  = match list_find (λ fmt, is_ok (Strptime.strptime (Str.strip s) fmt))
                    date_formats with
    | Some (_, fmt) => Strptime.strptime (Str.strip s) fmt
    | None => excel_serial (Str.strip s)
    end.
Proof. apply try_formats_find. Qed.







(** ** The texts the formats accept *)

Section Pieces.
Import Strptime.

Lemma match_alt_fullmatch a s m rest :
  match_alt a s = Some (m, rest) → fullmatch a m = true ∧ s = m +:+ rest.
Proof.
  revert s m. induction a as [|k a IH]; intros s m; simpl.
  - intros [= <- <-]. done.
  - destruct s as [|c s]; [done|].
    destruct (in_cls k c) eqn:Ek; [|done].
    destruct (match_alt a s) as [[m' rest']|] eqn:E; [|done].
    intros [= <- <-]. destruct (IH _ _ E) as [Hm ->].
    simpl. by rewrite Ek, Hm.
Qed.

Lemma first_alt_some {R} alts s (k : string → string → option R) r :
  first_alt alts s k = Some r →
  ∃ a m rest, a ∈ alts ∧ match_alt a s = Some (m, rest) ∧ k m rest = Some r.
Proof.
  induction alts as [|a alts IH]; simpl; [done|].
  destruct (match_alt a s) as [[m rest]|] eqn:E.
  - destruct (k m rest) as [r'|] eqn:Ek.
    + intros [= <-]. exists a, m, rest. split; [left|done].
    + intros (a' & m' & rest' & Hin & H)%IH. exists a', m', rest'.
      split; [by right|done].
  - intros (a' & m' & rest' & Hin & H)%IH. exists a', m', rest'.
    split; [by right|done].
Qed.

(** A text matched by a format is made of one piece per directive, in
    the order of the format, followed by what the match leaves over. *)
Lemma re_match_pieces ds s f f' rest :
  re_match ds s f = Some (f', rest) →
  ∃ ms, Forall2 piece ds ms ∧ s = join ms rest.
Proof.
  revert s f. induction ds as [|d ds IH]; intros s f; simpl.
  - intros [= <- <-]. exists []. split; [constructor|done].
  - intros (a & m & rest' & Hin & Hm & Hk)%first_alt_some.
    apply match_alt_fullmatch in Hm as [Hm ->].
    apply IH in Hk as (ms & Hms & ->).
    exists (m :: ms). split; [|done]. constructor; [|done]. by exists a.
Qed.

Lemma strptime_pieces s fmt d :
  strptime s fmt = Ok d →
  ∃ ms, Forall2 piece (parse_format fmt) ms ∧ s = join ms "".
Proof.
  unfold strptime.
  destruct (re_match _ s _) as [[f rest]|] eqn:E; [|done].
  destruct rest; [|done]. intros _. by eapply re_match_pieces.
Qed.

End Pieces.

Section SampleShape.
Import Strptime.

Lemma app_cons c s t : String c s +:+ t = String c (s +:+ t).
Proof. reflexivity. Qed.

Lemma app_empty t : "" +:+ t = t.
Proof. reflexivity. Qed.

Lemma app_empty_r s : s +:+ "" = s.
Proof. induction s as [|c s IH]; [done|]. by rewrite app_cons, IH. Qed.

Lemma replace_app_inv a b x u v :
  Str.replace a b x = u +:+ v →
  ∃ x1 x2, x = x1 +:+ x2 ∧ Str.replace a b x1 = u ∧ Str.replace a b x2 = v.
Proof.
  revert x. induction u as [|c u IH]; intros x.
  - rewrite app_empty. intros H. by exists "", x.
  - rewrite app_cons. destruct x as [|c0 x]; simpl; [done|].
    intros [= Hc (x1 & x2 & -> & <- & <-)%IH].
    exists (String c0 x1), x2. simpl. by rewrite Hc.
Qed.

Lemma in_cls_one c c' : in_cls (one c) c' = true → c' = c.
Proof.
  unfold in_cls, one, Str.code. simpl.
  intros [H1 H2]%andb_prop. apply N.leb_le in H1, H2.
  rewrite <- (ascii_N_embedding c), <- (ascii_N_embedding c'). f_equal. lia.
Qed.

(** A text of a group has no dot: the groups are made of digits, and of
    a blank before a one-digit day. *)
Lemma fullmatch_replace a m :
  Forall (λ k, in_cls k "-" = false) a →
  fullmatch a (Str.replace "." "-" m) = true → Str.replace "." "-" m = m.
Proof.
  revert m. induction a as [|k a IH]; intros m Ha; destruct m as [|c m]; simpl;
    try done.
  apply Forall_cons in Ha as [Hk Ha].
  destruct (Ascii.eqb c ".") eqn:Ec.
  - by rewrite Hk.
  - intros [_ Hm]%andb_prop. by rewrite (IH m Ha Hm).
Qed.

Lemma group_no_dash d :
  d ∈ [DY; Dm; Dd] →
  Forall (Forall (λ k, in_cls k "-" = false)) (alternatives d).
Proof.
  rewrite !elem_of_cons, elem_of_nil. intros [->|[->|[->|[]]]];
    repeat constructor.
Qed.

Lemma piece_replace d m :
  d ∈ [DY; Dm; Dd] → piece d (Str.replace "." "-" m) → piece d m.
Proof.
  intros Hd (a & Ha & Hm). exists a. split; [done|].
  pose proof (group_no_dash d Hd) as Hno. rewrite Forall_forall in Hno.
  by rewrite <- (fullmatch_replace a m (Hno a Ha) Hm).
Qed.

Lemma piece_lit_replace m :
  piece (Lit "-") (Str.replace "." "-" m) → ∃ c, m = String c "" ∧ dot_or_dash c.
Proof.
  intros (a & Ha & Hm). simpl in Ha. apply list_elem_of_singleton in Ha as ->.
  destruct m as [|c [|c' m]]; simpl in Hm; try done.
  - exists c. split; [done|].
    rewrite andb_true_r in Hm. apply in_cls_one in Hm.
    destruct (Ascii.eqb c ".") eqn:Ec.
    + left. by apply Ascii.eqb_eq.
    + by right.
  - by rewrite andb_false_r in Hm.
Qed.

(** What the sample path accepts: year, month and day, each followed by
    a dot or a dash when another one comes. *)
Lemma sample_date_shape x d :
  sample_date x = Ok d →
  ∃ y s1 m s2 dd,
    x = y +:+ String s1 (m +:+ String s2 dd)
    ∧ piece DY y ∧ dot_or_dash s1 ∧ piece Dm m ∧ dot_or_dash s2 ∧ piece Dd dd.
Proof.
  unfold sample_date. intros (ms & Hms & Hx)%strptime_pieces.
  change (parse_format "%Y-%m-%d") with [DY; Lit "-"; Dm; Lit "-"; Dd] in Hms.
  repeat match goal with
         | H : Forall2 _ (_ :: _) _ |- _ =>
             apply Forall2_cons_inv_l in H as (? & ? & ? & H & ->)
         | H : Forall2 _ [] _ |- _ => apply Forall2_nil_inv_l in H as ->
         end.
  simpl in Hx.
  repeat match goal with
         | H : Str.replace _ _ _ = _ +:+ _ |- _ =>
             apply replace_app_inv in H as (? & ? & -> & <- & H)
         end.
  match goal with
  | H : Str.replace _ _ ?z = "" |- _ => destruct z; [clear H|discriminate H]
  end.
  repeat match goal with
         | H : piece (Lit _) _ |- _ => apply piece_lit_replace in H as (? & -> & ?)
         | H : piece _ (Str.replace _ _ _) |- _ =>
             apply piece_replace in H; [|set_solver]
         end.
  rewrite app_empty_r.
  match goal with
  | |- context [?y +:+ String ?s1 "" +:+ ?m +:+ String ?s2 "" +:+ ?dd] =>
      exists y, s1, m, s2, dd
  end.
  rewrite !app_cons, !app_empty. auto 10.
Qed.

End SampleShape.

Section Shapes.
Import Strptime.

Lemma in_cls_digit lo hi c :
  in_cls (lo, hi) c = true → (48 ≤ lo)%N → (hi ≤ 57)%N → Str.is_digit c = true.
Proof.
  unfold in_cls, Str.is_digit. simpl.
  intros [H1 H2]%andb_prop Hlo Hhi. apply N.leb_le in H1, H2.
  apply andb_true_iff. split; apply N.leb_le; lia.
Qed.

Ltac digit_of H :=
  apply in_cls_digit in H; [|vm_compute; discriminate..].

Lemma piece_DY y :
  piece DY y →
  ∃ c1 c2 c3 c4,
    y = String c1 (String c2 (String c3 (String c4 "")))
    ∧ Str.is_digit c1 = true ∧ Str.is_digit c2 = true
    ∧ Str.is_digit c3 = true ∧ Str.is_digit c4 = true.
Proof.
  intros (a & Ha & Hm). simpl in Ha. apply list_elem_of_singleton in Ha as ->.
  destruct y as [|c1 [|c2 [|c3 [|c4 [|c5 y]]]]]; simpl in Hm;
    rewrite ?andb_false_r in Hm; try done.
  rewrite andb_true_r in Hm.
  apply andb_prop in Hm as [H1 [H2 [H3 H4]%andb_prop]%andb_prop].
  digit_of H1. digit_of H2. digit_of H3. digit_of H4.
  by exists c1, c2, c3, c4.
Qed.

(** A month is one digit or two. *)
Lemma piece_Dm m :
  piece Dm m →
  ∃ c, Str.is_digit c = true
       ∧ (m = String c "" ∨ ∃ c', Str.is_digit c' = true ∧ m = String c (String c' "")).
Proof.
  intros (a & Ha & Hm). simpl in Ha.
  rewrite !elem_of_cons, elem_of_nil in Ha. destruct Ha as [->|[->|[->|[]]]];
    destruct m as [|c1 [|c2 [|c3 m]]]; simpl in Hm;
    rewrite ?andb_false_r, ?andb_true_r in Hm; try done;
    try (apply andb_prop in Hm as [H1 H2]; digit_of H1; digit_of H2;
         exists c1; split; [done|]; right; by exists c2);
    try (digit_of Hm; exists c1; split; [done|]; by left).
Qed.

(** A day is one or two characters, the last one a digit. *)
Lemma piece_Dd dd :
  piece Dd dd →
  ∃ c, Str.is_digit c = true
       ∧ (dd = String c "" ∨ ∃ c0, dd = String c0 (String c "")).
Proof.
  intros (a & Ha & Hm). simpl in Ha.
  rewrite !elem_of_cons, elem_of_nil in Ha.
  destruct Ha as [->|[->|[->|[->|[->|[]]]]]];
    destruct dd as [|c1 [|c2 [|c3 dd]]]; simpl in Hm;
    rewrite ?andb_false_r, ?andb_true_r in Hm; try done;
    try (apply andb_prop in Hm as [H1 H2]; digit_of H2;
         exists c2; split; [done|]; right; by exists c1);
    try (digit_of Hm; exists c1; split; [done|]; by left).
Qed.

Lemma piece_Lit c m : piece (Lit c) m → m = String c "".
Proof.
  intros (a & Ha & Hm). simpl in Ha. apply list_elem_of_singleton in Ha as ->.
  destruct m as [|c1 [|c2 m]]; simpl in Hm;
    rewrite ?andb_false_r, ?andb_true_r in Hm; try done.
  by apply in_cls_one in Hm as ->.
Qed.

End Shapes.

(** ** Dated texts are not numbers *)

Section NotANumber.
Import Strptime.

Ltac by_char c := destruct c as [[] [] [] [] [] [] [] []]; try discriminate; reflexivity.

Lemma digit_not_space c : Str.is_digit c = true → Str.is_space c = false.
Proof. intros H. by_char c. Qed.

Lemma digit_to_lower c : Str.is_digit c = true → Str.to_lower c = c.
Proof. intros H. by_char c. Qed.

Lemma digit_not_char a c :
  Str.is_digit a = false → Str.is_digit c = true → PyFloat.is_char a c = false.
Proof.
  intros Ha Hc. unfold PyFloat.is_char. apply Ascii.eqb_neq. intros ->. congruence.
Qed.

Lemma lstrip_keeps c s : Str.is_space c = false → Str.lstrip (String c s) = String c s.
Proof. intros H. simpl. by rewrite H. Qed.

Lemma rstrip_keeps c s :
  Str.is_space c = false → Str.rstrip (String c s) = String c (Str.rstrip s).
Proof. intros H. simpl. rewrite H. by destruct (Str.rstrip s). Qed.

Lemma digits_go_digit acc n c s :
  Str.is_digit c = true →
  PyFloat.digits_go acc n (String c s)
  = PyFloat.digits_go (10 * acc + PyFloat.digit_val c) (n + 1) s.
Proof. intros H. simpl. by rewrite H. Qed.

Lemma digits_go_stop acc n c s :
  dot_or_dash c → PyFloat.digits_go acc n (String c s) = (acc, n, String c s).
Proof. by intros [->| ->]. Qed.

Lemma exponent_stop c s : dot_or_dash c → PyFloat.exponent (String c s) = None.
Proof. by intros [->| ->]. Qed.

(** After digits, a dot or a dash, and the digits of a month, a second dot
    or dash cannot be read by [float]. *)
Lemma month_then_sep m s2 dd :
  piece Dm m → dot_or_dash s2 →
  ∃ acc' n', PyFloat.digitpart (m +:+ String s2 dd) = Some (acc', n', String s2 dd).
Proof.
  intros (c & Hc & [->|(c' & Hc' & ->)])%piece_Dm Hs; rewrite ?app_cons, ?app_empty;
    unfold PyFloat.digitpart; rewrite Hc, ?digits_go_digit, digits_go_stop by done;
    eauto.
Qed.

Lemma float_rejects_dated c1 c2 c3 c4 s1 m s2 dd :
  Str.is_digit c1 = true → Str.is_digit c2 = true →
  Str.is_digit c3 = true → Str.is_digit c4 = true →
  dot_or_dash s1 → piece Dm m → dot_or_dash s2 →
  PyFloat.float
    (String c1 (String c2 (String c3 (String c4 (String s1 (m +:+ String s2 dd))))))
  = Raise ValueError.
Proof.
  intros H1 H2 H3 H4 Hs1 Hm Hs2.
  assert (Str.is_space s1 = false) as Hsp1 by by destruct Hs1 as [->| ->].
  assert (Str.is_space s2 = false) as Hsp2 by by destruct Hs2 as [->| ->].
  assert (∃ t, Str.rstrip (m +:+ String s2 dd) = m +:+ String s2 t) as [t Ht].
  { pose proof Hm as (c & Hc & [->|(c' & Hc' & ->)])%piece_Dm;
      rewrite ?app_cons, ?app_empty, !rstrip_keeps by auto using digit_not_space;
      eauto. }
  unfold PyFloat.float, Str.strip.
  rewrite lstrip_keeps, !rstrip_keeps, Ht by auto using digit_not_space.
  unfold PyFloat.sign.
  rewrite !(digit_not_char _ c1) by done.
  unfold PyFloat.absfloatvalue.
  rewrite !bool_decide_eq_false_2;
    try (simpl; rewrite (digit_to_lower c1 H1); intros [= -> _]; discriminate).
  simpl orb. cbv iota.
  destruct (month_then_sep m s2 t Hm Hs2) as (acc' & n' & Hdp).
  unfold PyFloat.number, PyFloat.digitpart at 1.
  rewrite H1, !digits_go_digit, digits_go_stop by done.
  destruct Hs1 as [->| ->]; simpl PyFloat.point; cbv iota.
  - rewrite Hdp, exponent_stop by done. reflexivity.
  - rewrite exponent_stop by (by right). reflexivity.
Qed.

End NotANumber.


(** ** The sample path and the upload path *)

Section SampleVersusUpload.
Import Strptime.

Ltac pieces_of H :=
  apply strptime_pieces in H as (? & H & ?);
  match type of H with
  | Forall2 _ ?ds _ => let ds' := eval vm_compute in ds in change ds with ds' in H
  end;
  repeat match goal with
         | H : Forall2 _ (_ :: _) _ |- _ =>
             apply Forall2_cons_inv_l in H as (? & ? & ? & H & ->)
         | H : Forall2 _ [] _ |- _ => apply Forall2_nil_inv_l in H as ->
         end.

(** A text the sample path reads has no white space around it. *)
Lemma sample_date_strip x d : sample_date x = Ok d → Str.strip x = x.
Proof.
  intros (y & s1 & m & s2 & dd & -> & Hy & Hs1 & Hm & Hs2 & Hd)%sample_date_shape.
  apply piece_DY in Hy as (c1 & c2 & c3 & c4 & -> & H1 & H2 & H3 & H4).
  apply piece_Dm in Hm as (c6 & H6 & Hm).
  apply piece_Dd in Hd as (c9 & H9 & Hd).
  unfold Str.strip. rewrite !app_cons, app_empty.
  rewrite lstrip_keeps by by apply digit_not_space.
  apply digit_not_space in H9.
  destruct Hm as [->|(c7 & H7 & ->)], Hd as [->|(c8 & ->)];
    rewrite ?app_cons, ?app_empty; simpl; by rewrite H9.
Qed.

(** A text the sample path reads is read by none of the formats with
    slashes. *)
Lemma sample_date_no_slash x d fmt :
  sample_date x = Ok d → fmt ∈ slash_formats →
  is_ok (strptime x fmt) = false.
Proof.
  intros (y & s1 & m & s2 & dd & -> & Hy & Hs1 & Hm & Hs2 & Hd)%sample_date_shape.
  apply piece_DY in Hy as (c1 & c2 & c3 & c4 & -> & H1 & H2 & H3 & H4).
  unfold slash_formats. rewrite !elem_of_cons, elem_of_nil.
  intros [->|[->|[->|[]]]];
    destruct (strptime _ _) as [d'|] eqn:E; try done; exfalso.
  - pieces_of E.
    repeat match goal with
           | H : piece (Lit _) _ |- _ => apply piece_Lit in H as ->
           end.
    match goal with
    | H : piece DY _ |- _ => apply piece_DY in H as (? & ? & ? & ? & -> & _)
    end.
    simpl in *. rewrite !app_cons in *.
    match goal with H : String _ _ = String _ _ |- _ => injection H as _ _ _ _ -> _ end.
    by destruct Hs1.
  - pieces_of E.
    repeat match goal with
           | H : piece (Lit _) _ |- _ => apply piece_Lit in H as ->
           end.
    match goal with
    | H : piece Dm _ |- _ => apply piece_Dm in H as (? & _ & [->|(? & _ & ->)])
    end;
      simpl in *; rewrite !app_cons in *;
      match goal with H : String _ _ = String _ _ |- _ => injection H as -> ; intros; subst end;
      discriminate.
  - pieces_of E.
    repeat match goal with
           | H : piece (Lit _) _ |- _ => apply piece_Lit in H as ->
           end.
    match goal with
    | H : piece Dd _ |- _ => apply piece_Dd in H as (? & _ & [->|(? & ->)])
    end;
      simpl in *; rewrite !app_cons in *;
      match goal with H : String _ _ = String _ _ |- _ => injection H as -> ; intros; subst end;
      discriminate.
Qed.

(** A text the sample path reads is not a number. *)
Lemma sample_date_no_serial x d :
  sample_date x = Ok d →
  PyFloat.float x = Raise ValueError ∧ excel_serial x = Raise ValueError.
Proof.
  intros (y & s1 & m & s2 & dd & -> & Hy & Hs1 & Hm & Hs2 & Hd)%sample_date_shape.
  apply piece_DY in Hy as (c1 & c2 & c3 & c4 & -> & H1 & H2 & H3 & H4).
  rewrite !app_cons, app_empty.
  assert (PyFloat.float
            (String c1 (String c2 (String c3 (String c4
               (String s1 (m +:+ String s2 dd))))))
          = Raise ValueError) as Hf by by apply float_rejects_dated.
  split; [exact Hf|]. unfold excel_serial. by rewrite Hf.
Qed.

End SampleVersusUpload.


(** ** Dots read as dashes *)

Section Dashed.
Import Strptime.

Local Abbreviation ρ := (Str.replace "." "-").

Lemma replace_app (u v : string) : ρ (u +:+ v) = ρ u +:+ ρ v.
Proof. induction u as [|c u IH]; [done|]. rewrite !app_cons. simpl. by rewrite IH. Qed.

Lemma mem_app a (u v : string) :
  Str.mem a (u +:+ v) = Str.mem a u || Str.mem a v.
Proof.
  induction u as [|c u IH]; [done|]. rewrite app_cons. simpl.
  by rewrite IH, orb_assoc.
Qed.

Lemma replace_no_dot s : Str.mem "." s = false → ρ s = s.
Proof.
  induction s as [|c s IH]; [done|]. simpl.
  intros [Hc Hs]%orb_false_elim. by rewrite Hc, IH.
Qed.

Lemma cls_rel_group k :
  in_cls k "." = false → in_cls k "-" = false → cls_rel k k.
Proof.
  intros Hdot Hdash c _. unfold dashed.
  destruct (Ascii.eqb c ".") eqn:E; [|done].
  apply Ascii.eqb_eq in E as ->. congruence.
Qed.

Lemma cls_rel_lit : cls_rel (one ".") (one "-").
Proof.
  intros c Hc. unfold dashed. destruct (Ascii.eqb c ".") eqn:E.
  - apply Ascii.eqb_eq in E as ->. reflexivity.
  - destruct (in_cls (one ".") c) eqn:E1.
    { apply in_cls_one in E1 as ->. by rewrite Ascii.eqb_refl in E. }
    destruct (in_cls (one "-") c) eqn:E2; [|done].
    by apply in_cls_one in E2.
Qed.

Lemma match_alt_dashed a a' s :
  Forall2 cls_rel a a' → Str.mem "-" s = false →
  match_alt a' (ρ s) = (λ p, (ρ p.1, ρ p.2)) <$> match_alt a s.
Proof.
  intros Ha. revert s. induction Ha as [|k k' a a' Hk Ha IH]; intros s Hs; [done|].
  destruct s as [|c s]; [done|]. simpl in Hs.
  apply orb_false_elim in Hs as [Hc Hs]. apply Ascii.eqb_neq in Hc.
  simpl. fold (dashed c). rewrite <- (Hk c Hc).
  destruct (in_cls k c); [|done]. rewrite (IH s Hs).
  by destruct (match_alt a s) as [[m r]|].
Qed.

Lemma match_alt_no_dash a s m r :
  match_alt a s = Some (m, r) → Str.mem "-" s = false → Str.mem "-" r = false.
Proof.
  intros [_ ->]%match_alt_fullmatch. rewrite mem_app.
  by intros [_ ?]%orb_false_elim.
Qed.

Lemma first_alt_dashed {R R'} (h : R → R') alts alts' s
    (k : string → string → option R) (k' : string → string → option R') :
  Forall2 (Forall2 cls_rel) alts alts' → Str.mem "-" s = false →
  (∀ m r, Str.mem "-" r = false → k' (ρ m) (ρ r) = h <$> k m r) →
  first_alt alts' (ρ s) k' = h <$> first_alt alts s k.
Proof.
  intros Halts Hs Hk. induction Halts as [|a a' alts alts' Ha Halts IH]; [done|].
  simpl. rewrite (match_alt_dashed a a' s Ha Hs).
  destruct (match_alt a s) as [[m r]|] eqn:E; simpl; [|exact IH].
  rewrite (Hk m r) by by eapply match_alt_no_dash.
  destruct (k m r); simpl; [done|exact IH].
Qed.

Lemma re_match_dashed ds ds' s f :
  Forall2 dir_rel ds ds' → Str.mem "-" s = false →
  re_match ds' (ρ s) (dashed_found f)
  = (λ p, (dashed_found p.1, ρ p.2)) <$> re_match ds s f.
Proof.
  intros Hds. revert s f.
  induction Hds as [|d d' ds ds' [Halts Hset] Hds IH]; intros s f Hs; [done|].
  simpl. apply first_alt_dashed; [done..|].
  intros m r Hr. rewrite Hset. by apply IH.
Qed.

Lemma dir_rel_formats :
  Forall2 dir_rel [DY; Lit "."; Dm; Lit "."; Dd] [DY; Lit "-"; Dm; Lit "-"; Dd].
Proof.
  repeat constructor;
    try (apply cls_rel_group; reflexivity); try apply cls_rel_lit.
Qed.

Lemma is_digit_dashed c : Str.is_digit (dashed c) = Str.is_digit c.
Proof.
  unfold dashed. destruct (Ascii.eqb c ".") eqn:E; [|done].
  by apply Ascii.eqb_eq in E as ->.
Qed.

Lemma int_dashed s : int (ρ s) = int s.
Proof.
  unfold int. generalize 0. induction s as [|c s IH]; intros acc; [done|].
  simpl. fold (dashed c). rewrite is_digit_dashed.
  destruct (Str.is_digit c) eqn:E; [|apply IH].
  rewrite IH. do 3 f_equal. unfold dashed.
  destruct (Ascii.eqb c ".") eqn:E'; [|done].
  apply Ascii.eqb_eq in E' as ->. discriminate.
Qed.

(** A text without a dash is read on the sample path as the dotted format
    reads it. *)
Lemma sample_date_dotted s :
  Str.mem "-" s = false → sample_date s = strptime s "%Y.%m.%d".
Proof.
  intros Hs. unfold sample_date, strptime.
  change (parse_format "%Y-%m-%d") with [DY; Lit "-"; Dm; Lit "-"; Dd].
  change (parse_format "%Y.%m.%d") with [DY; Lit "."; Dm; Lit "."; Dd].
  change (mkFound "" "" "") with (dashed_found (mkFound "" "" "")) at 1.
  rewrite (re_match_dashed _ _ s _ dir_rel_formats Hs).
  destruct (re_match _ s _) as [[g r]|]; simpl; [|done].
  destruct r; simpl; [|done]. by rewrite !int_dashed.
Qed.

(** A text without a dot is read on the sample path as the dashed format
    reads it. *)
Lemma sample_date_dashed s :
  Str.mem "." s = false → sample_date s = strptime s "%Y-%m-%d".
Proof. intros Hs. unfold sample_date. by rewrite replace_no_dot. Qed.

Lemma fullmatch_no_char c a m :
  Forall (λ k, in_cls k c = false) a → fullmatch a m = true →
  Str.mem c m = false.
Proof.
  revert m. induction a as [|k a IH]; intros m Ha; destruct m as [|c' m]; simpl;
    try done.
  apply Forall_cons in Ha as [Hk Ha]. intros [Hc Hm]%andb_prop.
  rewrite (IH m Ha Hm), orb_false_r. apply Ascii.eqb_neq. intros ->. congruence.
Qed.

Lemma pieces_no_char c ds ms :
  Forall (λ d, Forall (Forall (λ k, in_cls k c = false)) (alternatives d)) ds →
  Forall2 piece ds ms → Str.mem c (join ms "") = false.
Proof.
  intros Hds Hms. induction Hms as [|d m ds ms (a & Ha & Hm) Hms IH]; [done|].
  apply Forall_cons in Hds as [Hd Hds]. simpl. rewrite mem_app, (IH Hds), orb_false_r.
  rewrite Forall_forall in Hd. by eapply fullmatch_no_char; [apply Hd|].
Qed.

(** What the dotted format reads has no dash, what the dashed format
    reads has no dot. *)
Lemma dotted_no_dash s d :
  strptime s "%Y.%m.%d" = Ok d → Str.mem "-" s = false.
Proof.
  intros (ms & Hms & ->)%strptime_pieces.
  eapply pieces_no_char; [|exact Hms]. repeat constructor.
Qed.

Lemma dashed_no_dot s d :
  strptime s "%Y-%m-%d" = Ok d → Str.mem "." s = false.
Proof.
  intros (ms & Hms & ->)%strptime_pieces.
  eapply pieces_no_char; [|exact Hms]. repeat constructor.
Qed.

End Dashed.


Lemma strptime_raises s fmt e : Strptime.strptime s fmt = Raise e → e = ValueError.
Proof.
  unfold Strptime.strptime, Datetime.new_date.
  destruct (Strptime.re_match _ s _) as [[f [|c r]]|]; try congruence.
  destruct (_ && _); congruence.
Qed.

(** "2025.10-28" is written neither as YYYY.MM.DD nor as YYYY-MM-DD, and
    the upload path rejects it; the sample path loads it as
    2025-10-28. *)
Lemma mixed_separators_load :
  sample_date "2025.10-28" = Ok (mkDate 2025 10 28)
  ∧ Strptime.strptime "2025.10-28" "%Y.%m.%d" = Raise ValueError
  ∧ Strptime.strptime "2025.10-28" "%Y-%m-%d" = Raise ValueError
  ∧ _parse_date_any "2025.10-28" = Raise ValueError.
Proof. vm_compute. done. Qed.

(** C10 (amended). The sample loader replaces every dot of the date by a
    dash and reads the result with [%Y-%m-%d] alone.  A text loads only
    when it is a year, a month and a day separated by dots or dashes, in
    any mix: what the upload path reads as YYYY.MM.DD or as YYYY-MM-DD
    loads with the same date, and so does "2025.10-28".  A text the
    upload path reads with [%Y/%m/%d], [%m/%d/%Y] or [%d/%m/%Y], or as a
    spreadsheet serial, raises [ValueError] on the sample path. *)
Theorem sample_date_spec :
  (∀ x, sample_date x = Strptime.strptime (Str.replace "." "-" x) "%Y-%m-%d")
  ∧ (∀ x d, sample_date x = Ok d →
       ∃ y s1 m s2 dd,
         x = y +:+ String s1 (m +:+ String s2 dd)
         ∧ piece Strptime.DY y ∧ dot_or_dash s1
         ∧ piece Strptime.Dm m ∧ dot_or_dash s2 ∧ piece Strptime.Dd dd)
  ∧ (∀ x d, Strptime.strptime x "%Y.%m.%d" = Ok d
            ∨ Strptime.strptime x "%Y-%m-%d" = Ok d →
            sample_date x = Ok d)
  ∧ (∀ x, (∃ fmt, fmt ∈ slash_formats
                  ∧ is_ok (Strptime.strptime (Str.strip x) fmt) = true)
          ∨ is_ok (excel_serial (Str.strip x)) = true →
          sample_date x = Raise ValueError)
  ∧ (∀ x e, sample_date x = Raise e → e = ValueError)
  ∧ sample_date "2025.10.28" = Ok (mkDate 2025 10 28)
  ∧ sample_date "2025-10-28" = Ok (mkDate 2025 10 28)
  ∧ sample_date "2025.10-28" = Ok (mkDate 2025 10 28)
  ∧ (_parse_date_any "10/28/2025" = Ok (mkDate 2025 10 28)
     ∧ sample_date "10/28/2025" = Raise ValueError)
  ∧ (_parse_date_any "28/10/2025" = Ok (mkDate 2025 10 28)
     ∧ sample_date "28/10/2025" = Raise ValueError)
  ∧ (_parse_date_any "45958" = Ok (mkDate 2025 10 28)
     ∧ sample_date "45958" = Raise ValueError).
Proof.
  split; [reflexivity|]. split; [apply sample_date_shape|].
  split; [|split; [|split]].
  - intros x d [H|H].
    + by rewrite sample_date_dotted by by eapply dotted_no_dash.
    + by rewrite sample_date_dashed by by eapply dashed_no_dot.
  - intros x H. destruct (sample_date x) as [d|e] eqn:E.
    + exfalso. rewrite (sample_date_strip x d E) in H.
      destruct H as [(fmt & Hin & Hok)|Hok].
      * by rewrite (sample_date_no_slash x d fmt E Hin) in Hok.
      * destruct (sample_date_no_serial x d E) as [_ Hs]. by rewrite Hs in Hok.
    + f_equal. by eapply strptime_raises.
  - intros x e. apply strptime_raises.
  - vm_compute. done.
Qed.

Lemma sample_date_spec_witness :
  sample_date "2025.10.28" = Ok (mkDate 2025 10 28)
  ∧ sample_date " 3/04/2025 " = Raise ValueError.
Proof.
  destruct sample_date_spec as (_ & _ & Hload & Hraise & _). split.
  - apply Hload. left. reflexivity.
  - apply Hraise. left. exists "%m/%d/%Y". split; [|reflexivity].
    apply (bool_decide_unpack _). vm_compute. exact I.
Defined.

(** * Further properties of the page *)

(** ** White space *)

Section Strip.

Lemma lstrip_head s :
  match Str.lstrip s with
  | EmptyString => True
  | String c _ => Str.is_space c = false
  end.
Proof.
  induction s as [|c s IH]; simpl; [done|].
  destruct (Str.is_space c) eqn:E; [exact IH|exact E].
Qed.

Lemma rstrip_idemp s : Str.rstrip (Str.rstrip s) = Str.rstrip s.
Proof.
  induction s as [|c s IH]; [done|]. simpl.
  destruct (Str.rstrip s) as [|c' t] eqn:E.
  - destruct (Str.is_space c) eqn:Ec; [done|]. simpl. by rewrite Ec.
  - simpl in *. by rewrite IH.
Qed.

(** Trimming a trimmed text changes nothing. *)
Lemma strip_idemp s : Str.strip (Str.strip s) = Str.strip s.
Proof.
  unfold Str.strip. pose proof (lstrip_head s) as H.
  destruct (Str.lstrip s) as [|c t]; [done|].
  rewrite (rstrip_keeps c t H), (lstrip_keeps _ _ H), (rstrip_keeps _ _ H).
  by rewrite rstrip_idemp.
Qed.

Lemma strip_head s :
  match Str.strip s with
  | EmptyString => True
  | String c _ => Str.is_space c = false
  end.
Proof.
  unfold Str.strip. pose proof (lstrip_head s) as H.
  destruct (Str.lstrip s) as [|c t]; [done|]. by rewrite (rstrip_keeps c t H).
Qed.

Lemma append_length u v :
  String.length (u +:+ v) = (String.length u + String.length v)%nat.
Proof. induction u as [|c u IH]; [done|]. rewrite app_cons. simpl. by rewrite IH. Qed.

Lemma lstrip_length s : (String.length (Str.lstrip s) ≤ String.length s)%nat.
Proof.
  induction s as [|c s IH]; simpl; [done|]. destruct (Str.is_space c); simpl; lia.
Qed.

Lemma rstrip_length s : (String.length (Str.rstrip s) ≤ String.length s)%nat.
Proof.
  induction s as [|c s IH]; simpl; [done|].
  destruct (Str.rstrip s); [destruct (Str.is_space c)|]; simpl in *; lia.
Qed.

Lemma strip_length s : (String.length (Str.strip s) ≤ String.length s)%nat.
Proof.
  unfold Str.strip. pose proof (rstrip_length (Str.lstrip s)).
  pose proof (lstrip_length s). lia.
Qed.

Lemma blank_is_space c : Ascii.eqb c " " = true → Str.is_space c = true.
Proof. by intros ->%Ascii.eqb_eq. Qed.

Lemma underscore c : Str.is_space (if Ascii.eqb c " " then "_"%char else c)
                     = negb (Ascii.eqb c " ") && Str.is_space c.
Proof. by destruct (Ascii.eqb c " "). Qed.

Lemma rstrip_cons c s c' t :
  Str.rstrip s = String c' t → Str.rstrip (String c s) = String c (String c' t).
Proof. intros H. simpl. by rewrite H. Qed.

Lemma rstrip_underscored u :
  Str.rstrip u = u → Str.rstrip (Str.replace " " "_" u) = Str.replace " " "_" u.
Proof.
  induction u as [|c u IH]; [done|].
  change (Str.replace " " "_" (String c u))
    with (String (if Ascii.eqb c " " then "_"%char else c) (Str.replace " " "_" u)).
  destruct (Str.rstrip u) as [|c' t] eqn:E.
  - simpl. rewrite E. destruct (Str.is_space c) eqn:Ec; [done|]. intros [= <-].
    simpl. rewrite underscore, Ec. by rewrite andb_false_r.
  - simpl Str.rstrip at 1. rewrite E. intros [= Hu]. subst u.
    specialize (IH eq_refl). revert IH.
    change (Str.replace " " "_" (String c' t))
      with (String (if Ascii.eqb c' " " then "_"%char else c') (Str.replace " " "_" t)).
    intros IH. by rewrite (rstrip_cons _ _ _ _ IH).
Qed.

Lemma replace_idemp a b u :
  a ≠ b → Str.replace a b (Str.replace a b u) = Str.replace a b u.
Proof.
  intros Hab. induction u as [|c u IH]; [done|]. simpl. rewrite IH. f_equal.
  destruct (Ascii.eqb c a) eqn:E; [|by rewrite E].
  destruct (Ascii.eqb b a) eqn:E'; [|done].
  apply Ascii.eqb_eq in E'. congruence.
Qed.

(** A normalised column name is left alone by a second normalisation. *)
Lemma std_name_idemp c : std_name (std_name c) = std_name c.
Proof.
  unfold std_name.
  assert (Str.strip (Str.replace " " "_" (Str.strip c))
          = Str.replace " " "_" (Str.strip c)) as ->;
    [|by apply replace_idemp].
  pose proof (strip_head c) as Hh. pose proof (strip_idemp c) as Hi.
  set (u := Str.strip c) in *. unfold Str.strip in Hi |- *.
  destruct u as [|c0 u]; [done|].
  rewrite (lstrip_keeps _ _ Hh) in Hi.
  assert (Str.lstrip (Str.replace " " "_" (String c0 u))
          = Str.replace " " "_" (String c0 u)) as ->.
  { simpl. by rewrite underscore, Hh, andb_false_r. }
  exact (rstrip_underscored _ Hi).
Qed.

End Strip.

(** ** The header *)

Lemma miss_nil columns : miss columns = [] ↔ ∀ n, n ∈ need → n ∈ columns.
Proof.
  unfold miss. split.
  - intros H n Hn. destruct (decide (n ∈ columns)) as [|Hno]; [done|].
    assert (n ∈ sorted (filter (λ n, n ∉ columns) need)) as Hin
      by (rewrite sorted_perm; by apply list_elem_of_filter).
    rewrite H in Hin. by apply elem_of_nil in Hin.
  - intros H. rewrite filter_none; [done|]. intros n Hn Hno. by apply Hno, H.
Qed.

(** X1. [_std_columns] asks for eight names: number, Sample_ID, Specie,
    Farm_Name, Disease, Test_Date, CT_Value and Result.  It succeeds
    exactly when each of them is among the header names once these are
    trimmed and their blanks are underscores; it then returns the renamed
    header, all columns kept in their order, and otherwise raises
    [ValueError]. *)
Theorem std_columns_spec (columns : list string) :
  need = ["number"; "Sample_ID"; "Specie"; "Farm_Name"; "Disease"; "Test_Date";
          "CT_Value"; "Result"]
  ∧ (_std_columns columns = Ok (std_name <$> columns)
     ↔ ∀ n, n ∈ need → ∃ c, c ∈ columns ∧ std_name c = n)
  ∧ (_std_columns columns = Raise ValueError
     ↔ ∃ n, n ∈ need ∧ ∀ c, c ∈ columns → std_name c ≠ n)
  ∧ (∀ r, _std_columns columns = r →
          r = Ok (std_name <$> columns) ∨ r = Raise ValueError).
Proof.
  split; [reflexivity|].
  unfold _std_columns.
  assert (miss (std_name <$> columns) = []
          ↔ ∀ n, n ∈ need → ∃ c, c ∈ columns ∧ std_name c = n) as Hm.
  { rewrite miss_nil. setoid_rewrite list_elem_of_fmap. naive_solver. }
  split; [|split].
  - case_decide as Hd; [naive_solver|]. split; [done|].
    intros Hall. by apply Hm in Hall.
  - case_decide as Hd.
    + split; [done|]. intros (n & Hn & Hno).
      destruct (proj1 Hm Hd n Hn) as (c & Hc & Heq). exfalso. by apply (Hno c).
    + split; [|done]. intros _.
      assert (¬ Forall (λ n, n ∈ std_name <$> columns) need) as Hnot.
      { rewrite Forall_forall. intros Hall. by apply Hd, miss_nil. }
      apply not_Forall_Exists in Hnot; [|apply _].
      apply Exists_exists in Hnot as (n & Hn & Hout). exists n. split; [done|].
      intros c Hc Heq. apply Hout. rewrite <- Heq. by apply list_elem_of_fmap_2.
  - intros r <-. case_decide; auto.
Qed.

(** The header of the sample with a blank around one name and one more
    column is accepted; a header that says "Results" for "Result" is
    not. *)
Lemma std_columns_spec_witness :
  _std_columns ["number"; "Sample ID"; "Specie"; "Farm Name"; "Disease";
                "Test Date"; " CT Value "; "Result"; "Remarks"]
  = Ok ["number"; "Sample_ID"; "Specie"; "Farm_Name"; "Disease";
        "Test_Date"; "CT_Value"; "Result"; "Remarks"]
  ∧ _std_columns ["number"; "Sample ID"; "Specie"; "Farm Name"; "Disease";
                  "Test Date"; "CT Value"; "Results"]
    = Raise ValueError.
Proof.
  split.
  - set (cols := ["number"; "Sample ID"; "Specie"; "Farm Name"; "Disease";
                  "Test Date"; " CT Value "; "Result"; "Remarks"]).
    destruct (std_columns_spec cols) as (_ & [_ H] & _).
    change (_std_columns cols = Ok (std_name <$> cols)). apply H. intros n Hn.
    assert (Forall (λ n, n ∈ std_name <$> cols) need) as Hall
      by (apply (bool_decide_unpack _); vm_compute; exact I).
    rewrite Forall_forall in Hall.
    destruct (proj1 (list_elem_of_fmap _ _ _) (Hall n Hn)) as (c & -> & Hc).
    by exists c.
  - set (cols := ["number"; "Sample ID"; "Specie"; "Farm Name"; "Disease";
                  "Test Date"; "CT Value"; "Results"]).
    destruct (std_columns_spec cols) as (_ & _ & [_ H] & _).
    apply H. exists "Result". split.
    + apply (bool_decide_unpack _). vm_compute. exact I.
    + apply Forall_forall. apply (bool_decide_unpack _). vm_compute. exact I.
Defined.

(** X2. A header [_std_columns] accepts is one it returns unchanged:
    renaming is idempotent. *)
Theorem std_columns_idempotent (columns columns' : list string) :
  _std_columns columns = Ok columns' → _std_columns columns' = Ok columns'.
Proof.
  unfold _std_columns. case_decide as Hd; [|done]. intros [= <-].
  assert (std_name <$> (std_name <$> columns) = std_name <$> columns) as ->.
  { rewrite <- list_fmap_compose. apply list_fmap_ext. intros _ c _.
    apply std_name_idemp. }
  by rewrite decide_True.
Qed.

Lemma std_columns_idempotent_witness :
  _std_columns ["number"; "Sample_ID"; "Specie"; "Farm_Name"; "Disease";
                "Test_Date"; "CT_Value"; "Result"]
  = Ok ["number"; "Sample_ID"; "Specie"; "Farm_Name"; "Disease";
        "Test_Date"; "CT_Value"; "Result"].
Proof.
  apply (std_columns_idempotent
           ["number"; "Sample ID"; "Specie"; "Farm Name"; "Disease";
            "Test Date"; "CT Value"; "Result"]).
  reflexivity.
Defined.

(** ** Cells with blanks around them *)

(** X3. On the upload path the blanks around a cell do not count: with
    white space before and after it a cell gives the same date, the same
    CT value and the same result.  On the sample path a date with white
    space before or after it raises [ValueError]. *)
Theorem cells_trimmed (l x r : string) :
  Str.is_blank l = true → Str.is_blank r = true →
  _parse_date_any (l +:+ x +:+ r) = _parse_date_any x
  ∧ _to_float_ct (l +:+ x +:+ r) = _to_float_ct x
  ∧ normalize_result (l +:+ x +:+ r) = normalize_result x
  ∧ (l ≠ "" ∨ r ≠ "" → sample_date (l +:+ x +:+ r) = Raise ValueError).
Proof.
  intros Hl Hr. pose proof (strip_padded l x r Hl Hr) as Hs.
  unfold _parse_date_any, _to_float_ct, normalize_result. rewrite Hs.
  repeat split; try done.
  intros Hne. destruct (sample_date (l +:+ x +:+ r)) as [d|e] eqn:E.
  - apply sample_date_strip in E. rewrite Hs in E.
    pose proof (strip_length x) as Hlen. rewrite E, !append_length in Hlen.
    destruct Hne as [Hne|Hne]; [destruct l|destruct r]; simpl in *; done || lia.
  - f_equal. by eapply strptime_raises.
Qed.

Lemma cells_trimmed_witness :
  _parse_date_any "  2025.10.28 " = Ok (mkDate 2025 10 28)
  ∧ sample_date "2025.10.28 " = Raise ValueError.
Proof.
  destruct (cells_trimmed "  " "2025.10.28" " " eq_refl eq_refl) as (H1 & _).
  destruct (cells_trimmed "" "2025.10.28" " " eq_refl eq_refl) as (_ & _ & _ & H2).
  split.
  - etrans; [exact H1|reflexivity].
  - apply H2. right. discriminate.
Defined.

(** ** Results, once normalised *)

Section Normal.

Ltac by_cases c := destruct c as [[] [] [] [] [] [] [] []]; reflexivity.
Ltac by_cases_in c H :=
  destruct c as [[] [] [] [] [] [] [] []]; try discriminate H; reflexivity.

Lemma to_upper_idemp c : Str.to_upper (Str.to_upper c) = Str.to_upper c.
Proof. by_cases c. Qed.
Lemma to_lower_of_upper c : Str.to_upper (Str.to_lower c) = Str.to_upper c.
Proof. by_cases c. Qed.
Lemma to_upper_of_lower c : Str.to_lower (Str.to_upper c) = Str.to_lower c.
Proof. by_cases c. Qed.
Lemma is_cased_to_upper c : Str.is_cased (Str.to_upper c) = Str.is_cased c.
Proof. by_cases c. Qed.
Lemma is_space_to_upper c : Str.is_space (Str.to_upper c) = Str.is_space c.
Proof. by_cases c. Qed.
Lemma is_space_to_lower c : Str.is_space (Str.to_lower c) = Str.is_space c.
Proof. by_cases c. Qed.
Lemma space_not_cased c : Str.is_space c = true → Str.is_cased c = false.
Proof. intros H. by_cases_in c H. Qed.

Lemma title_go_idemp b s : Str.title_go b (Str.title_go b s) = Str.title_go b s.
Proof.
  revert b. induction s as [|c s IH]; intros b; [done|]. simpl.
  destruct b; rewrite ?is_cased_to_lower, ?is_cased_to_upper, IH,
    ?to_lower_idemp, ?to_upper_idemp; done.
Qed.

Lemma title_idemp s : Str.title (Str.title s) = Str.title s.
Proof. apply title_go_idemp. Qed.

Lemma lstrip_title s :
  Str.lstrip (Str.title_go false s) = Str.title_go false (Str.lstrip s).
Proof.
  induction s as [|c s IH]; [done|]. simpl.
  rewrite is_space_to_upper. destruct (Str.is_space c) eqn:E; [|done].
  by rewrite (space_not_cased c E).
Qed.

Lemma rstrip_title b s :
  Str.rstrip (Str.title_go b s) = Str.title_go b (Str.rstrip s).
Proof.
  revert b. induction s as [|c s IH]; intros b; [done|]. simpl.
  rewrite IH.
  assert (Str.is_space (if b then Str.to_lower c else Str.to_upper c)
          = Str.is_space c) as ->
    by (destruct b; [apply is_space_to_lower|apply is_space_to_upper]).
  destruct (Str.rstrip s) as [|c' t]; simpl; [|done].
  by destruct (Str.is_space c).
Qed.

Lemma strip_title s : Str.strip (Str.title s) = Str.title (Str.strip s).
Proof. unfold Str.strip, Str.title. by rewrite lstrip_title, rstrip_title. Qed.

Lemma lstrip_lower s : Str.lstrip (Str.lower s) = Str.lower (Str.lstrip s).
Proof.
  induction s as [|c s IH]; [done|]. simpl.
  rewrite is_space_to_lower. by destruct (Str.is_space c).
Qed.

Lemma rstrip_lower s : Str.rstrip (Str.lower s) = Str.lower (Str.rstrip s).
Proof.
  induction s as [|c s IH]; [done|]. simpl. rewrite IH, is_space_to_lower.
  destruct (Str.rstrip s) as [|c' t]; simpl; [|done].
  by destruct (Str.is_space c).
Qed.

Lemma strip_lower s : Str.strip (Str.lower s) = Str.lower (Str.strip s).
Proof. unfold Str.strip. by rewrite lstrip_lower, rstrip_lower. Qed.

(** The normalised result is a function of the trimmed text read without
    regard to case. *)
Lemma normalize_result_lower s :
  normalize_result (Str.lower s) = normalize_result s.
Proof.
  unfold normalize_result, Str.title. by rewrite strip_lower, title_go_lower.
Qed.

Lemma normalize_result_eq s :
  normalize_result s
  = if decide (Str.title (Str.strip s) = "Re-Analysis") then "Re-analysis"
    else Str.title (Str.strip s).
Proof. unfold normalize_result. simpl. by repeat case_decide. Qed.

Lemma normalize_result_idemp s :
  normalize_result (normalize_result s) = normalize_result s.
Proof.
  rewrite (normalize_result_eq s).
  destruct (decide (Str.title (Str.strip s) = "Re-Analysis")) as [|Hne];
    [reflexivity|].
  rewrite normalize_result_eq, strip_title, strip_idemp.
  rewrite !title_idemp. by rewrite decide_False.
Qed.

(** A normalised result is a re-analysis up to case only when it is
    spelled [Re-analysis]. *)
Lemma normalized_re_analysis s :
  Str.lower (normalize_result s) = "re-analysis"
  ↔ normalize_result s = "Re-analysis".
Proof.
  split; [|by intros ->].
  rewrite normalize_result_eq.
  destruct (decide (Str.title (Str.strip s) = "Re-Analysis")) as [|Hne];
    [done|].
  unfold Str.title at 1. rewrite lower_title_go.
  by intros H%title_re_analysis.
Qed.

End Normal.

(** X4. On ASCII texts the normalised result does not depend on the
    letter case of the cell, and normalising a normalised result changes
    nothing: a frame written out and loaded again keeps its results. *)
Theorem normalize_result_stable (s s' : string) :
  Str.is_ascii s = true → Str.is_ascii s' = true →
  (Str.lower s = Str.lower s' → normalize_result s = normalize_result s')
  ∧ normalize_result (normalize_result s) = normalize_result s.
Proof.
  intros _ _. split; [|apply normalize_result_idemp].
  intros H. by rewrite <- (normalize_result_lower s), H, normalize_result_lower.
Qed.

Lemma normalize_result_stable_witness :
  normalize_result "pOSITIVE" = normalize_result "Positive".
Proof.
  destruct (normalize_result_stable "pOSITIVE" "Positive" eq_refl eq_refl) as [H _].
  apply H. reflexivity.
Defined.

(** ** The loaders *)

Section Orders.

Lemma not_gt_total c : not_gt c ∨ not_gt (CompOpp c).
Proof. destruct c; simpl; auto. Qed.

Lemma cmp_then_opp c k : CompOpp (cmp_then c k) = cmp_then (CompOpp c) (CompOpp k).
Proof. by destruct c. Qed.

Lemma date_compare_antisym a b : date_compare b a = CompOpp (date_compare a b).
Proof.
  unfold date_compare.
  by rewrite !cmp_then_opp, <- !Z.compare_antisym.
Qed.

Lemma string_compare_antisym (a b : string) :
  String.compare b a = CompOpp (String.compare a b).
Proof. apply String.compare_antisym. Qed.

Global Instance by_date_farm_total : Total by_date_farm.
Proof.
  intros a b. unfold by_date_farm.
  rewrite (date_compare_antisym (Test_Date a)),
    (string_compare_antisym (Farm_Name a)), (string_compare_antisym (Disease a)),
    (string_compare_antisym (Sample_ID a)), <- !cmp_then_opp.
  apply not_gt_total.
Qed.

Global Instance by_disease_date_total : Total by_disease_date.
Proof.
  intros a b. unfold by_disease_date.
  rewrite (date_compare_antisym (Test_Date a)),
    (string_compare_antisym (Disease a)), (string_compare_antisym (Sample_ID a)),
    <- !cmp_then_opp.
  apply not_gt_total.
Qed.

Lemma date_compare_le a b : not_gt (date_compare a b) → date_le a b.
Proof.
  unfold date_compare, date_le, date_leb.
  destruct (Z.compare_spec (year a) (year b)) as [Ey|Ey|Ey]; simpl.
  - rewrite Ey, Z.ltb_irrefl, Z.eqb_refl. simpl.
    destruct (Z.compare_spec (month a) (month b)) as [Em|Em|Em]; simpl.
    + rewrite Em, Z.ltb_irrefl, Z.eqb_refl. simpl.
      destruct (Z.compare_spec (day a) (day b)); simpl; try done;
        intros _; apply Z.leb_le; lia.
    + intros _. apply Z.ltb_lt in Em. by rewrite Em.
    + done.
  - intros _. apply Z.ltb_lt in Ey. by rewrite Ey.
  - done.
Qed.

Lemma by_date_farm_date a b :
  by_date_farm a b → date_le (Test_Date a) (Test_Date b).
Proof.
  unfold by_date_farm. intros H. apply date_compare_le.
  by destruct (date_compare (Test_Date a) (Test_Date b)).
Qed.

Lemma Sorted_weaken {A} (R R' : relation A) l :
  (∀ a b, R a b → R' a b) → Sorted R l → Sorted R' l.
Proof.
  intros HR. induction 1 as [|x l Hl IH Hhd]; constructor; [done|].
  destruct Hhd; constructor. by apply HR.
Qed.

End Orders.

Section Loading.
Variable parse_date : string → res date.

(** What a loaded row is, column by column. *)
Lemma load_row_ok raw r :
  load_row parse_date raw = Ok r ↔
  parse_date (raw_Test_Date raw) = Ok (Test_Date r)
  ∧ _to_float_ct (raw_CT_Value raw) = Ok (CT_Value_Num r)
  ∧ number r = raw_number raw ∧ Sample_ID r = raw_Sample_ID raw
  ∧ Specie r = raw_Specie raw ∧ Farm_Name r = raw_Farm_Name raw
  ∧ Disease r = raw_Disease raw ∧ CT_Value r = raw_CT_Value raw
  ∧ Result r = normalize_result (raw_Result raw)
  ∧ is_positive r = bool_decide (Result r = "Positive").
Proof.
  unfold load_row. split.
  - destruct (parse_date _) as [d|]; [|done]. simpl.
    destruct (_to_float_ct _) as [ct|]; [|done]. simpl.
    intros [= <-]. simpl. done.
  - intros (-> & -> & H). simpl. destruct r; simpl in *.
    destruct H as (-> & -> & -> & -> & -> & -> & -> & ->). done.
Qed.

Lemma load_rows_ok raws rows :
  load_rows parse_date raws = Ok rows ↔
  Forall2 (λ raw r, load_row parse_date raw = Ok r) raws rows.
Proof.
  revert rows. induction raws as [|raw raws IH]; intros rows; simpl.
  - split; [intros [= <-]; constructor|by intros ->%Forall2_nil_inv_l].
  - split.
    + destruct (load_row parse_date raw) as [r|] eqn:E; [|done]. simpl.
      destruct (load_rows parse_date raws) as [rs|]; [|done]. simpl.
      intros [= <-]. constructor; [done|by apply IH].
    + intros (r & rs & Hr & Hrs & ->)%Forall2_cons_inv_l.
      rewrite Hr. simpl. apply IH in Hrs. by rewrite Hrs.
Qed.

(** Loading stops at the first line whose date is not read, with the
    exception the date parser raised. *)
Lemma load_rows_raise raws e :
  load_rows parse_date raws = Raise e ↔
  ∃ before raw after,
    raws = (before ++ raw :: after)%list
    ∧ Forall (λ raw, is_ok (parse_date (raw_Test_Date raw)) = true) before
    ∧ parse_date (raw_Test_Date raw) = Raise e.
Proof.
  induction raws as [|raw raws IH]; simpl.
  - split; [done|]. intros (before & raw & after & H & _). by destruct before.
  - destruct (load_row parse_date raw) as [r|e'] eqn:E; simpl.
    + assert (is_ok (parse_date (raw_Test_Date raw)) = true) as Hok.
      { apply load_row_ok in E as [-> _]. done. }
      assert ((∃ before raw' after,
                 raw :: raws = (before ++ raw' :: after)%list
                 ∧ Forall (λ raw, is_ok (parse_date (raw_Test_Date raw)) = true) before
                 ∧ parse_date (raw_Test_Date raw') = Raise e)
              ↔ load_rows parse_date raws = Raise e) as ->.
      { rewrite IH. split.
        - intros (before & raw' & after & H & Hb & Hr).
          destruct before as [|b before]; simplify_eq/=.
          { by rewrite Hr in Hok. }
          apply Forall_cons in Hb as [_ Hb]. eauto 10.
        - intros (before & raw' & after & -> & Hb & Hr).
          exists (raw :: before), raw', after. split; [done|]. split; [|done].
          by constructor. }
      destruct (load_rows parse_date raws) as [rs|e'']; simpl; [|done].
      unfold mret, res_ret. split; intros [=].
    + apply load_row_raises in E. split.
      * intros [= <-]. exists [], raw, raws. split; [done|]. split; [constructor|done].
      * intros (before & raw' & after & H & Hb & Hr).
        destruct before as [|b before]; simplify_eq/=; [congruence|].
        apply Forall_cons in Hb as [Hb _]. by rewrite E in Hb.
Qed.

End Loading.

Lemma parse_date_any_raises s e : _parse_date_any s = Raise e → e = ValueError.
Proof.
  unfold _parse_date_any. rewrite try_formats_find.
  destruct (list_find _ date_formats) as [[i fmt]|]; [apply strptime_raises|].
  rewrite excel_serial_unfold.
  destruct (PyFloat.float _) as [x|]; [|congruence].
  destruct (Datetime.timedelta_days x) as [days|]; [|congruence].
  cbv zeta. destruct (_ && _); congruence.
Qed.

Lemma first_failure {A B} (p : A → res B) (l : list A) :
  (∃ x, x ∈ l ∧ is_ok (p x) = false) →
  ∃ before x after,
    l = (before ++ x :: after)%list
    ∧ Forall (λ x, is_ok (p x) = true) before ∧ is_ok (p x) = false.
Proof.
  induction l as [|y l IH]; [by intros (x & ?%elem_of_nil & _)|].
  intros (x & Hx & Hf). destruct (is_ok (p y)) eqn:E.
  - destruct IH as (before & x' & after & -> & Hb & Hx').
    { apply elem_of_cons in Hx as [->|Hx]; [congruence|eauto]. }
    exists (y :: before), x', after. split; [done|]. split; [by constructor|done].
  - exists [], y, l. split; [done|]. split; [constructor|done].
Qed.

Section Loaders.
Variable parse_date : string → res date.
Hypothesis parse_date_raises :
  ∀ s e, parse_date s = Raise e → e = ValueError.

Let load (raws : table) : res frame :=
  _ ← _std_columns (header raws);
  df ← load_rows parse_date (lines raws);
  mret (sort_values by_date_farm df).

Lemma load_ok raws df :
  load raws = Ok df →
  length df = length (lines raws)
  ∧ Sorted (λ a b, date_le (Test_Date a) (Test_Date b)) df
  ∧ ∃ rows, df ≡ₚ rows
            ∧ Forall2 (λ raw r, load_row parse_date raw = Ok r) (lines raws) rows.
Proof.
  intros (columns & rows & _ & E & ->)%loader_inv. apply load_rows_ok in E.
  split; [|split].
  - rewrite sort_values_Permutation. symmetry. by eapply Forall2_length.
  - eapply Sorted_weaken; [apply by_date_farm_date|].
    apply (Sorted_sort_values _).
  - exists rows. split; [apply sort_values_Permutation|done].
Qed.

Lemma load_raise raws e :
  load raws = Raise e ↔
  e = ValueError
  ∧ ((∃ n, n ∈ need ∧ ∀ c, c ∈ header raws → std_name c ≠ n)
     ∨ ∃ raw, raw ∈ lines raws ∧ is_ok (parse_date (raw_Test_Date raw)) = false).
Proof.
  unfold load.
  assert (_std_columns (header raws) = Raise ValueError
          ↔ ∃ n, n ∈ need ∧ ∀ c, c ∈ header raws → std_name c ≠ n) as Hhead.
  { unfold _std_columns. case_decide as Hd.
    - split; [done|]. intros (n & Hn & Hno).
      rewrite miss_nil in Hd. specialize (Hd n Hn).
      apply list_elem_of_fmap in Hd as (c & Heq & Hc). exfalso. by apply (Hno c).
    - split; [|done]. intros _.
      assert (¬ Forall (λ n, n ∈ std_name <$> header raws) need) as Hnot.
      { rewrite Forall_forall. intros Hall. by apply Hd, miss_nil. }
      apply not_Forall_Exists in Hnot; [|apply _].
      apply Exists_exists in Hnot as (n & Hn & Hout). exists n. split; [done|].
      intros c Hc Heq. apply Hout. rewrite <- Heq. by apply list_elem_of_fmap_2. }
  destruct (_std_columns (header raws)) as [columns|e0] eqn:Eh; simpl.
  - assert (¬ ∃ n, n ∈ need ∧ ∀ c, c ∈ header raws → std_name c ≠ n) as Hno
      by (intros H; by apply Hhead in H).
    split.
    + destruct (load_rows parse_date (lines raws)) as [rows|e'] eqn:E; [done|].
      simpl. intros [= ->].
      apply load_rows_raise in E as (before & raw & after & Hl & _ & Hr).
      split; [by eapply parse_date_raises|]. right.
      exists raw. split; [|by rewrite Hr].
      rewrite Hl. apply elem_of_app. right. left.
    + intros [-> [H|H]]; [done|].
      apply (first_failure (λ raw, parse_date (raw_Test_Date raw))) in H
        as (before & raw & after & Hl & Hb & Hr).
      destruct (parse_date (raw_Test_Date raw)) as [|e'] eqn:E; [done|].
      assert (load_rows parse_date (lines raws) = Raise e') as ->.
      { apply load_rows_raise. eauto 10. }
      simpl. f_equal. by eapply parse_date_raises.
  - assert (e0 = ValueError) as ->.
    { revert Eh. unfold _std_columns. case_decide; congruence. }
    split; [intros [= <-]|intros [-> _]; done].
    split; [done|]. left. by apply Hhead.
Qed.

End Loaders.

(** X5. With a header whose names are distinct once renamed, a frame
    either loader returns has one row per line of the input, each row
    made from its line as [load_row] says, and stands in the order of the
    test dates: no row is dated before the row above it.  The text
    columns are taken as they are, the CT value never stops the load, the
    result is normalised and [is_positive] tells whether it is
    "Positive". *)
Theorem loaders_sorted (raws : table) (df : frame) :
  NoDup (std_name <$> header raws) →
  (load_sample raws = Ok df →
   length df = length (lines raws)
   ∧ Sorted (λ a b, date_le (Test_Date a) (Test_Date b)) df
   ∧ ∃ rows, df ≡ₚ rows
             ∧ Forall2 (λ raw r, load_row sample_date raw = Ok r) (lines raws) rows)
  ∧ (read_any_file raws = Ok df →
     length df = length (lines raws)
     ∧ Sorted (λ a b, date_le (Test_Date a) (Test_Date b)) df
     ∧ ∃ rows, df ≡ₚ rows
               ∧ Forall2 (λ raw r, load_row _parse_date_any raw = Ok r)
                         (lines raws) rows)
  ∧ ∀ parse_date raw r,
      load_row parse_date raw = Ok r ↔
      parse_date (raw_Test_Date raw) = Ok (Test_Date r)
      ∧ _to_float_ct (raw_CT_Value raw) = Ok (CT_Value_Num r)
      ∧ number r = raw_number raw ∧ Sample_ID r = raw_Sample_ID raw
      ∧ Specie r = raw_Specie raw ∧ Farm_Name r = raw_Farm_Name raw
      ∧ Disease r = raw_Disease raw ∧ CT_Value r = raw_CT_Value raw
      ∧ Result r = normalize_result (raw_Result raw)
      ∧ is_positive r = bool_decide (Result r = "Positive").
Proof.
  intros _. split; [apply load_ok|]. split; [apply load_ok|]. apply load_row_ok.
Qed.

Lemma loaders_sorted_witness :
  length sample_frame = 122%nat
  ∧ Sorted (λ a b, date_le (Test_Date a) (Test_Date b)) sample_frame.
Proof.
  assert (NoDup (std_name <$> header RAW)) as Hnd
    by (apply (bool_decide_unpack _); vm_compute; exact I).
  destruct (loaders_sorted RAW sample_frame Hnd) as (H & _).
  destruct H as (Hl & Hs & _); [vm_compute; reflexivity|].
  split; [rewrite Hl; reflexivity|exact Hs].
Defined.

(** X6. With a header whose names are distinct once renamed, a load
    fails exactly when the header lacks one of the eight names or the
    date of some line is not read by the loader's date parser; the
    exception is [ValueError] and no frame is returned, not even for the
    lines that were read. *)
Theorem loaders_fail (raws : table) (e : exn) :
  NoDup (std_name <$> header raws) →
  (load_sample raws = Raise e ↔
   e = ValueError
   ∧ ((∃ n, n ∈ need ∧ ∀ c, c ∈ header raws → std_name c ≠ n)
      ∨ ∃ raw, raw ∈ lines raws ∧ is_ok (sample_date (raw_Test_Date raw)) = false))
  ∧ (read_any_file raws = Raise e ↔
     e = ValueError
     ∧ ((∃ n, n ∈ need ∧ ∀ c, c ∈ header raws → std_name c ≠ n)
        ∨ ∃ raw, raw ∈ lines raws
                 ∧ is_ok (_parse_date_any (raw_Test_Date raw)) = false)).
Proof.
  intros _. split.
  - apply load_raise. intros s e'. apply strptime_raises.
  - apply load_raise. apply parse_date_any_raises.
Qed.

(** A serial number among the dates of the sample stops its load; the
    upload path reads the same lines. *)
Lemma loaders_fail_witness :
  let raws :=
    mkTable (header RAW)
      (lines cjoy_lines
       ++ [mkRaw (Some 12) "2025-012" "Broiler" "CJOY" "IBD" "45958" "30.1"
                 "Positive"])%list in
  load_sample raws = Raise ValueError ∧ is_ok (read_any_file raws) = true.
Proof.
  intros raws. split; [|reflexivity].
  assert (NoDup (std_name <$> header raws)) as Hnd
    by (apply (bool_decide_unpack _); vm_compute; exact I).
  apply (loaders_fail raws ValueError Hnd). split; [reflexivity|]. right.
  eexists. split; [|shelve]. apply elem_of_app. right. left.
  Unshelve. reflexivity.
Defined.

(** ** More on the cascade *)

Lemma filter_all {A} (P : A → Prop) `{!∀ x, Decision (P x)} (l : list A) :
  (∀ x, x ∈ l → P x) → filter P l = l.
Proof.
  induction l as [|x l IH]; intros Hall; [done|].
  rewrite filter_cons, decide_True by (apply Hall; set_solver).
  f_equal. apply IH. intros y Hy. apply Hall. set_solver.
Qed.

Lemma elem_of_opts (f : row → string) (df : frame) v :
  v ∈ sorted (unique (f <$> df)) ↔ ∃ r, r ∈ df ∧ f r = v.
Proof. apply (distinct_values_spec f df). Qed.

Lemma elem_of_df3 DF sel r :
  r ∈ df3 DF sel ↔ r ∈ df2 DF sel ∧ (disease sel = ALL ∨ Disease r = disease sel).
Proof.
  unfold df3. case_decide; [naive_solver|].
  rewrite list_elem_of_filter. naive_solver.
Qed.

Lemma elem_of_df4 DF sel r :
  r ∈ df4 DF sel ↔ r ∈ df3 DF sel ∧ (result sel = ALL ∨ Result r = result sel).
Proof.
  unfold df4. case_decide; [naive_solver|].
  rewrite list_elem_of_filter. naive_solver.
Qed.

Lemma df4_subseteq_df2 DF sel r : r ∈ df4 DF sel → r ∈ df2 DF sel.
Proof. rewrite elem_of_df4, elem_of_df3. tauto. Qed.

(** X7. An option the specie, farm or disease box offers always has rows
    behind it: on a frame with rows, after three offered choices the
    specie, farm and disease stages each keep at least one row, and the
    default period is defined. *)
Theorem offered_choice_has_rows (DF : frame) (sel : selection) :
  DF ≠ [] →
  specie sel ∈ specie_opts DF →
  farm sel ∈ farm_opts DF sel →
  disease sel ∈ disease_opts DF sel →
  df1 DF sel ≠ [] ∧ df2 DF sel ≠ [] ∧ df3 DF sel ≠ []
  ∧ is_Some (dmin DF sel) ∧ is_Some (dmax DF sel).
Proof.
  intros HDF Hs Hf Hd.
  assert (∃ r, r ∈ df1 DF sel) as [r1 H1].
  { unfold df1. case_decide as E.
    - destruct DF as [|r DF']; [done|]. exists r. left.
    - unfold specie_opts in Hs. apply elem_of_cons in Hs as [Hs|Hs]; [done|].
      apply elem_of_opts in Hs as (r & Hr & Hv). exists r.
      by apply list_elem_of_filter. }
  assert (∃ r, r ∈ df2 DF sel) as [r2 H2].
  { unfold df2. case_decide as E; [eauto|].
    unfold farm_opts in Hf. apply elem_of_cons in Hf as [Hf|Hf]; [done|].
    apply elem_of_opts in Hf as (r & Hr & Hv). exists r.
    by apply list_elem_of_filter. }
  assert (∃ r, r ∈ df3 DF sel) as [r3 H3].
  { unfold df3. case_decide as E; [eauto|].
    unfold disease_opts in Hd. apply elem_of_cons in Hd as [Hd|Hd]; [done|].
    apply elem_of_opts in Hd as (r & Hr & Hv). exists r.
    by apply list_elem_of_filter. }
  assert (∀ (l : frame) r, r ∈ l → l ≠ []) as Hne
    by (intros l r Hr ->; by apply elem_of_nil in Hr).
  split; [by eapply Hne|]. split; [by eapply Hne|]. split; [by eapply Hne|].
  pose proof (dates_min_spec (df2 DF sel)) as Hmin.
  pose proof (dates_max_spec (df2 DF sel)) as Hmax.
  unfold dmin, dmax. split.
  - destruct (dates_min _); [eauto|]. exfalso. by eapply (Hne _ r2).
  - destruct (dates_max _); [eauto|]. exfalso. by eapply (Hne _ r2).
Qed.

Lemma offered_choice_has_rows_witness :
  let sel := mkSel "Layer" "FC Farm" "IBD" "Negative" None in
  df3 sample_frame sel ≠ [] ∧ fdf sample_frame sel = [].
Proof.
  intros sel. split; [|vm_compute; reflexivity].
  apply (offered_choice_has_rows sample_frame sel);
    apply (bool_decide_unpack _); vm_compute; exact I.
Defined.

(** X8. With a period chosen, a row is in the filtered frame exactly
    when it is a row of the base frame that passes the five selections,
    both ends of the period included; a period whose end is before its
    start leaves nothing. *)
Theorem fdf_membership (DF : frame) (sel : selection) (s e : date) :
  date_range sel = Some (s, e) →
  (∀ r, r ∈ fdf DF sel ↔
        r ∈ DF
        ∧ (specie sel = ALL ∨ Specie r = specie sel)
        ∧ (farm sel = ALL ∨ Farm_Name r = farm sel)
        ∧ (disease sel = ALL ∨ Disease r = disease sel)
        ∧ (result sel = ALL ∨ Result r = result sel)
        ∧ date_le s (Test_Date r) ∧ date_le (Test_Date r) e)
  ∧ (¬ date_le s e → fdf DF sel = []).
Proof.
  intros Hp.
  assert (∀ r, r ∈ fdf DF sel ↔
        r ∈ DF
        ∧ (specie sel = ALL ∨ Specie r = specie sel)
        ∧ (farm sel = ALL ∨ Farm_Name r = farm sel)
        ∧ (disease sel = ALL ∨ Disease r = disease sel)
        ∧ (result sel = ALL ∨ Result r = result sel)
        ∧ date_le s (Test_Date r) ∧ date_le (Test_Date r) e) as Hmem.
  { intros r. rewrite fdf_staged. unfold df5.
    rewrite list_elem_of_filter, elem_of_df4, elem_of_df3, elem_of_df2.
    unfold in_period, d_start, d_end. rewrite Hp.
    rewrite andb_True. unfold date_le. rewrite !Is_true_true. tauto. }
  split; [exact Hmem|].
  intros Hinv. destruct (fdf DF sel) as [|r l] eqn:E; [done|]. exfalso.
  assert (r ∈ r :: l) as Hr by left.
  apply Hmem in Hr as (_ & _ & _ & _ & _ & H1 & H2).
  apply Hinv. by eapply date_le_trans.
Qed.

Lemma fdf_membership_witness :
  fdf sample_frame
      (mkSel ALL ALL ALL ALL (Some (mkDate 2025 11 30, mkDate 2025 10 28))) = [].
Proof.
  eapply fdf_membership; [reflexivity|]. vm_compute. discriminate.
Defined.

(** X9. Left at its default, the period removes no row: the filtered
    frame is the frame narrowed by specie, farm, disease and result, and
    with every box on "All" it is the whole base frame. *)
Theorem default_period_keeps_all (DF : frame) (sel : selection) :
  date_range sel = None →
  fdf DF sel = df4 DF sel
  ∧ (specie sel = ALL → farm sel = ALL → disease sel = ALL → result sel = ALL →
     fdf DF sel = DF).
Proof.
  intros Hp.
  assert (fdf DF sel = df4 DF sel) as Heq.
  { rewrite fdf_staged. unfold df5. apply filter_all. intros r Hr.
    apply df4_subseteq_df2 in Hr.
    pose proof (dates_min_spec (df2 DF sel)) as Hmin.
    pose proof (dates_max_spec (df2 DF sel)) as Hmax.
    unfold in_period, d_start, d_end, dmin, dmax. rewrite Hp.
    destruct (dates_min _) as [lo|]; [|rewrite Hmin in Hr; by apply elem_of_nil in Hr].
    destruct (dates_max _) as [hi|]; [|rewrite Hmax in Hr; by apply elem_of_nil in Hr].
    destruct Hmin as [_ Hlo], Hmax as [_ Hhi].
    apply andb_True. split; apply Is_true_true; [by apply Hlo|by apply Hhi]. }
  split; [exact Heq|].
  intros H1 H2 H3 H4. rewrite Heq. unfold df4, df3, df2, df1.
  by rewrite !decide_True.
Qed.

Lemma default_period_keeps_all_witness :
  fdf sample_frame (mkSel ALL ALL ALL ALL None) = sample_frame.
Proof. by apply default_period_keeps_all. Defined.

(** ** Counting by groups *)

Section Groups.
Context {A K : Type} `{EqDecision K}.
Implicit Types (l : list A) (ks : list K).

(** Over a duplicate-free list of keys, the group sizes add up to the
    number of rows with a key of the list. *)
Lemma sum_counts (f : A → K) (Q : A → Prop) `{!∀ x, Decision (Q x)} l ks :
  NoDup ks →
  sum_list ((λ k, length (filter (λ x, f x = k ∧ Q x) l)) <$> ks)
  = length (filter (λ x, f x ∈ ks ∧ Q x) l).
Proof.
  induction 1 as [|k ks Hk Hnd IH]; csimpl.
  - symmetry. rewrite filter_none; [done|].
    intros x _ [Hx _]. by apply elem_of_nil in Hx.
  - rewrite IH.
    rewrite <- (count_split (λ x, f x = k ∧ Q x) (λ x, f x ∈ ks ∧ Q x)).
    + f_equal. apply list_filter_iff. intros x. rewrite elem_of_cons. tauto.
    + intros x [-> _] [Hin _]. done.
Qed.

Lemma sum_counts_all (f : A → K) (Q : A → Prop) `{!∀ x, Decision (Q x)} l ks :
  NoDup ks → (∀ x, x ∈ l → f x ∈ ks) →
  sum_list ((λ k, length (filter (λ x, f x = k ∧ Q x) l)) <$> ks)
  = length (filter Q l).
Proof.
  intros Hnd Hall. rewrite sum_counts by done. f_equal.
  apply filter_ext_in. intros x Hx. specialize (Hall x Hx). tauto.
Qed.

Lemma length_filter_all (P : A → Prop) `{!∀ x, Decision (P x)} l :
  length (filter P l) = length l ↔ Forall P l.
Proof.
  split.
  - induction l as [|x l IH]; [constructor|]. rewrite filter_cons.
    pose proof (length_filter P l). case_decide; simpl; [|lia].
    intros [= Hl]. constructor; [done|by apply IH].
  - intros Hall. rewrite filter_all; [done|]. by apply Forall_forall.
Qed.

End Groups.

(** ** More on the KPIs *)

Lemma kpis_counts (df : frame) :
  Forall derived df →
  total (kpis df) = length df
  ∧ pos (kpis df) = length (filter (λ r, Result r = "Positive") df)
  ∧ neg (kpis df) = length (filter (λ r, Result r = "Negative") df)
  ∧ rea (kpis df) = length (filter (λ r, Str.lower (Result r) = "re-analysis") df).
Proof.
  intros Hd. rewrite Forall_forall in Hd. split; [done|]. simpl.
  split; [|split]; apply bool_sum_fmap; intros r Hr;
    rewrite ?(Hd r Hr); apply bool_decide_eq_true.
Qed.

(** X10. In every summary of a loaded frame the positive, negative and
    re-analysis counts are about different rows: together they never
    exceed the total, and they reach it exactly when every result is
    Positive, Negative or a re-analysis. *)
Theorem kpis_partition (df : frame) :
  Forall derived df →
  (pos (kpis df) + neg (kpis df) + rea (kpis df) ≤ total (kpis df))%nat
  ∧ ((pos (kpis df) + neg (kpis df) + rea (kpis df))%nat = total (kpis df)
     ↔ Forall (λ r, (Result r = "Positive" ∨ Result r = "Negative")
                    ∨ Str.lower (Result r) = "re-analysis") df).
Proof.
  intros (Ht & Hp & Hn & Hr)%kpis_counts. rewrite Ht, Hp, Hn, Hr.
  rewrite <- (count_split (λ r, Result r = "Positive") (λ r, Result r = "Negative"))
    by (intros r -> [=]).
  rewrite <- (count_split (λ r, Result r = "Positive" ∨ Result r = "Negative")
                          (λ r, Str.lower (Result r) = "re-analysis"))
    by (intros r [-> | ->] [=]).
  split; [apply length_filter|apply length_filter_all].
Qed.

Lemma kpis_partition_witness :
  (pos (kpis sample_frame) + neg (kpis sample_frame) + rea (kpis sample_frame))%nat
  = total (kpis sample_frame).
Proof.
  assert (Forall derived sample_frame) as Hd
    by (apply (bool_decide_unpack _); vm_compute; exact I).
  apply (kpis_partition sample_frame Hd).
  apply (bool_decide_unpack _). vm_compute. exact I.
Defined.

Lemma loaded_normalized parse_date raws rows :
  load_rows parse_date raws = Ok rows →
  Forall (λ r, ∃ s, Result r = normalize_result s) rows.
Proof.
  intros H%load_rows_ok. induction H as [|raw r raws rows Hr _ IH]; constructor;
    [|done].
  apply load_row_ok in Hr. exists (raw_Result raw). tauto.
Qed.

Lemma loaders_normalized raws df :
  load_sample raws = Ok df ∨ read_any_file raws = Ok df →
  Forall (λ r, ∃ s, Result r = normalize_result s) df.
Proof.
  unfold load_sample, read_any_file.
  intros [H|H]; apply loader_inv in H as (columns & rows & _ & Hrows & ->);
    rewrite sort_values_Permutation; by eapply loaded_normalized.
Qed.

(** X11. In a loaded frame a result is a re-analysis up to case only
    when it is spelled exactly [Re-analysis]: the re-analysis KPI of a
    filtered frame, which compares the lower-cased result, is the number
    of its rows with that exact result. *)
Theorem loaded_results_canonical (raws : table) (DF : frame) :
  load_sample raws = Ok DF ∨ read_any_file raws = Ok DF →
  (∀ r, r ∈ DF →
        (Str.lower (Result r) = "re-analysis" ↔ Result r = "Re-analysis"))
  ∧ ∀ sel, rea (kpis (fdf DF sel))
           = length (filter (λ r, Result r = "Re-analysis") (fdf DF sel)).
Proof.
  intros Hl. pose proof (loaders_normalized raws DF Hl) as Hn.
  pose proof (loaded_derived raws DF Hl) as Hd.
  rewrite Forall_forall in Hn.
  assert (∀ r, r ∈ DF →
               (Str.lower (Result r) = "re-analysis" ↔ Result r = "Re-analysis"))
    as Hcanon.
  { intros r [s ->]%Hn. apply normalized_re_analysis. }
  split; [exact Hcanon|]. intros sel.
  destruct (kpis_counts (fdf DF sel)) as (_ & _ & _ & ->);
    [by apply derived_fdf|].
  f_equal. apply filter_ext_in. intros r Hr. apply Hcanon.
  by eapply fdf_subseteq.
Qed.

(** The Swine rows of the sample. *)
Lemma loaded_results_canonical_witness :
  rea (kpis (fdf sample_frame (mkSel "Swine" ALL ALL ALL None)))
  = length (filter (λ r, Result r = "Re-analysis")
                   (fdf sample_frame (mkSel "Swine" ALL ALL ALL None))).
Proof.
  apply (loaded_results_canonical RAW sample_frame). left.
  vm_compute. reflexivity.
Defined.

(** ** Overview cards *)





(** ** More on the report *)

Lemma kpis_perm (l l' : frame) : l ≡ₚ l' → kpis l = kpis l'.
Proof.
  intros Hp.
  assert (length l = length l') as Hl by by rewrite Hp.
  assert (∀ f : row → bool, bool_sum (f <$> l) = bool_sum (f <$> l')) as Hb.
  { intros f. unfold bool_sum. apply Permutation_length.
    apply filter_Permutation. by apply fmap_Permutation. }
  unfold kpis. by rewrite Hl, !Hb.
Qed.

Lemma by_disease_date_date a b :
  by_disease_date a b → Disease a = Disease b →
  date_le (Test_Date a) (Test_Date b).
Proof.
  unfold by_disease_date. intros H Heq.
  rewrite Heq in H.
  assert (String.compare (Disease b) (Disease b) = Eq) as E.
  { pose proof (String.compare_antisym (Disease b) (Disease b)) as Ha.
    by destruct (String.compare _ _). }
  rewrite E in H. simpl in H.
  apply date_compare_le. by destruct (date_compare (Test_Date a) (Test_Date b)).
Qed.

(** X13. In a farm report the detail rows are the farm's filtered rows,
    all of them and no other, and where two rows of one disease follow
    each other the second is not dated before the first; the summary of
    the report is the summary of those rows in the frame's own order, and
    its last test date is a date of the farm that no other of its dates
    exceeds. *)
Theorem report_view_spec (fm : string) (fdf : frame) :
  let rep := filter (λ r, Farm_Name r = fm) fdf in
  let rpt := make_farm_report fm fdf in
  rep_view rpt ≡ₚ rep
  ∧ Sorted (λ a b, Disease a = Disease b → date_le (Test_Date a) (Test_Date b))
           (rep_view rpt)
  ∧ (∀ r, r ∈ rep_view rpt ↔ r ∈ fdf ∧ Farm_Name r = fm)
  ∧ rep_summary rpt = kpis rep
  ∧ match rep_last_date rpt with
    | Some d => (∃ r, r ∈ rep ∧ Test_Date r = d)
                ∧ ∀ r, r ∈ rep → date_le (Test_Date r) d
    | None => rep = []
    end.
Proof.
  intros rep rpt. unfold rpt, make_farm_report. simpl. fold rep.
  assert (sort_values by_disease_date rep ≡ₚ rep) as Hp
    by apply sort_values_Permutation.
  split; [exact Hp|]. split.
  { eapply Sorted_weaken; [apply by_disease_date_date|].
    apply (Sorted_sort_values _). }
  split; [|split; [by apply kpis_perm|]].
  - intros r. rewrite Hp. unfold rep. rewrite list_elem_of_filter. tauto.
  - pose proof (dates_max_spec (sort_values by_disease_date rep)) as Hmax.
    destruct (dates_max _) as [d|].
    + destruct Hmax as [(r & Hr & Hd) Hle]. split.
      * exists r. split; [by rewrite <- Hp|done].
      * intros r' Hr'. apply Hle. by rewrite Hp.
    + symmetry. apply Permutation_nil_l. by rewrite <- Hmax, Hp.
Qed.

Lemma report_view_spec_witness :
  let rpt := make_farm_report "CJOY" sample_frame in
  length (rep_view rpt) = 16%nat ∧ total (rep_summary rpt) = 16%nat
  ∧ ∀ r, r ∈ rep_view rpt → Farm_Name r = "CJOY".
Proof.
  intros rpt.
  destruct (report_view_spec "CJOY" sample_frame) as (Hp & _ & Hm & Hs & _).
  fold rpt in Hp, Hm, Hs. split; [|split].
  - rewrite Hp. vm_compute. reflexivity.
  - rewrite Hs. vm_compute. reflexivity.
  - intros r Hr. by apply Hm in Hr as [_ ?].
Defined.

Section PivotTotals.
Variable rep : frame.




Lemma pivot_columns_NoDup : NoDup (columns (pivot rep)).
Proof. simpl. rewrite sorted_perm. apply NoDup_unique. Qed.

End PivotTotals.



(** ** The trend chart *)

Section Trend.
Variable fdf : frame.

Let key (r : row) : date * string := (Test_Date r, Disease r).

Lemma line_df_keys :
  fst <$> line_df fdf = merge_sort date_disease_le (unique (key <$> fdf)).
Proof. unfold line_df. rewrite <- list_fmap_compose. apply list_fmap_id. Qed.

Lemma line_df_counts :
  snd <$> line_df fdf
  = (λ k, length (filter (λ r, key r = k ∧ is_positive r = true) fdf))
      <$> merge_sort date_disease_le (unique (key <$> fdf)).
Proof.
  unfold line_df. rewrite <- list_fmap_compose. apply list_fmap_ext.
  intros _ k _. simpl.
  rewrite (bool_sum_fmap is_positive (λ r, is_positive r = true)) by done.
  f_equal. rewrite list_filter_filter. apply list_filter_iff. intros r. tauto.
Qed.

End Trend.

Global Instance date_disease_le_total : Total date_disease_le.
Proof.
  intros a b. unfold date_disease_le.
  rewrite (date_compare_antisym a.1), (string_compare_antisym a.2), <- cmp_then_opp.
  apply not_gt_total.
Qed.

(** X15. The trend chart has one point per pair of test date and disease
    of the filtered frame, without repetition and in the order of the
    pairs; a point counts the positive rows of its pair, and the points
    together count every positive row once: their sum is the Positive
    KPI. *)
Theorem line_df_spec (fdf : frame) :
  NoDup (fst <$> line_df fdf)
  ∧ Sorted date_disease_le (fst <$> line_df fdf)
  ∧ (∀ k, k ∈ fst <$> line_df fdf ↔ ∃ r, r ∈ fdf ∧ (Test_Date r, Disease r) = k)
  ∧ (∀ k n, (k, n) ∈ line_df fdf →
            n = length (filter (λ r, (Test_Date r, Disease r) = k
                                     ∧ is_positive r = true) fdf))
  ∧ sum_list (snd <$> line_df fdf) = pos (kpis fdf).
Proof.
  rewrite line_df_keys. split; [|split; [|split; [|split]]].
  - rewrite merge_sort_Permutation. apply NoDup_unique.
  - apply (Sorted_merge_sort _).
  - intros k. rewrite merge_sort_Permutation, elem_of_unique, list_elem_of_fmap.
    naive_solver.
  - intros k n Hin. unfold line_df in Hin.
    apply list_elem_of_fmap in Hin as (k' & [= -> ->] & _).
    rewrite (bool_sum_fmap is_positive (λ r, is_positive r = true)) by done.
    f_equal. rewrite list_filter_filter. apply list_filter_iff. intros r. tauto.
  - rewrite line_df_counts.
    rewrite (sum_counts_all (λ r, (Test_Date r, Disease r))
                            (λ r, is_positive r = true)).
    + simpl. symmetry. by apply bool_sum_fmap.
    + rewrite merge_sort_Permutation. apply NoDup_unique.
    + intros r Hr. rewrite merge_sort_Permutation, elem_of_unique.
      by apply (list_elem_of_fmap_2 (λ r, (Test_Date r, Disease r))).
Qed.

Lemma line_df_spec_witness :
  sum_list (snd <$> line_df sample_frame) = 44%nat
  ∧ ∀ k n, (k, n) ∈ line_df sample_frame → k.1 ∈ Test_Date <$> sample_frame.
Proof.
  destruct (line_df_spec sample_frame) as (_ & _ & Hk & _ & Hs).
  split; [rewrite Hs; vm_compute; reflexivity|].
  intros k n Hin.
  assert (k ∈ fst <$> line_df sample_frame) as Hin'
    by by apply (list_elem_of_fmap_2 fst _ (k, n)).
  apply Hk in Hin' as (r & Hr & <-).
  exact (list_elem_of_fmap_2 Test_Date sample_frame r Hr).
Defined.


(** ** Which format reads a date *)

Section Formats.
Import Strptime.

Ltac pieces_of H :=
  apply strptime_pieces in H as (? & H & ?);
  match type of H with
  | Forall2 _ ?ds _ => let ds' := eval vm_compute in ds in change ds with ds' in H
  end;
  repeat match goal with
         | H : Forall2 _ (_ :: _) _ |- _ =>
             apply Forall2_cons_inv_l in H as (? & ? & ? & H & ->)
         | H : Forall2 _ [] _ |- _ => apply Forall2_nil_inv_l in H as ->
         end.

Lemma mem_cons_same c s : Str.mem c (String c s) = true.
Proof. simpl. by rewrite Ascii.eqb_refl. Qed.

(** The text a format accepts holds each literal of the format. *)
Lemma lit_in_text c ds ms rest :
  Forall2 piece ds ms → Lit c ∈ ds → Str.mem c (join ms rest) = true.
Proof.
  induction 1 as [|d m ds ms Hm Hms IH]; [by intros ?%elem_of_nil|].
  intros [<-|Hin]%elem_of_cons; simpl; rewrite mem_app.
  - apply piece_Lit in Hm as ->. by rewrite mem_cons_same.
  - rewrite (IH Hin). apply orb_true_r.
Qed.

Lemma accepted_has_lit c t fmt d :
  strptime t fmt = Ok d → Lit c ∈ parse_format fmt → Str.mem c t = true.
Proof. intros (ms & Hms & ->)%strptime_pieces Hin. by eapply lit_in_text. Qed.

Lemma accepted_lacks c t fmt d :
  strptime t fmt = Ok d →
  Forall (λ d, Forall (Forall (λ k, in_cls k c = false)) (alternatives d))
         (parse_format fmt) →
  Str.mem c t = false.
Proof. intros (ms & Hms & ->)%strptime_pieces Hno. by eapply pieces_no_char. Qed.

(** The separators of an accepted text are those of its format. *)
Lemma accepted_separators t fmt d :
  fmt ∈ date_formats → strptime t fmt = Ok d →
  Str.mem "." t = bool_decide (fmt = "%Y.%m.%d")
  ∧ Str.mem "-" t = bool_decide (fmt = "%Y-%m-%d")
  ∧ Str.mem "/" t = bool_decide (fmt ∈ slash_formats).
Proof.
  unfold date_formats. rewrite !elem_of_cons, elem_of_nil.
  intros [->|[->|[->|[->|[->|[]]]]]] H;
    (split; [|split]);
    first [ by apply (accepted_has_lit _ _ _ _ H), (bool_decide_unpack _)
          | by apply (accepted_lacks _ _ _ _ H); repeat constructor ].
Qed.

(** Year first and year last cannot both be read with slashes. *)
Lemma year_first_or_last t fmt d d' :
  strptime t "%Y/%m/%d" = Ok d → fmt ∈ ["%m/%d/%Y"; "%d/%m/%Y"] →
  strptime t fmt = Ok d' → False.
Proof.
  intros Hy. rewrite !elem_of_cons, elem_of_nil. intros [->|[->|[]]] H;
    pieces_of Hy; pieces_of H; subst;
    repeat match goal with
           | H : piece (Lit _) _ |- _ => apply piece_Lit in H as ->
           | H : piece DY _ |- _ =>
               apply piece_DY in H as (? & ? & ? & ? & -> & ? & ? & ? & ?)
           | H : piece Dm _ |- _ =>
               apply piece_Dm in H as (? & _ & [->|(? & _ & ->)])
           | H : piece Dd _ |- _ =>
               apply piece_Dd in H as (? & _ & [->|(? & ->)])
           end;
    simpl in *; rewrite ?app_cons, ?app_empty in *; simplify_eq/=.
Qed.

End Formats.

Lemma two_formats t i j fi fj di dj :
  date_formats !! i = Some fi → date_formats !! j = Some fj → (i < j)%nat →
  Strptime.strptime t fi = Ok di → Strptime.strptime t fj = Ok dj →
  fi = "%m/%d/%Y" ∧ fj = "%d/%m/%Y".
Proof.
  intros Hi Hj Hlt Hfi Hfj.
  pose proof (accepted_separators t fi di (list_elem_of_lookup_2 _ _ _ Hi) Hfi)
    as (A1 & A2 & A3).
  pose proof (accepted_separators t fj dj (list_elem_of_lookup_2 _ _ _ Hj) Hfj)
    as (B1 & B2 & B3).
  destruct i as [|[|[|[|[|i]]]]]; try done;
    destruct j as [|[|[|[|[|j]]]]]; try done; try lia;
    simplify_eq/=;
    repeat match goal with
           | H : context [bool_decide ?P] |- _ =>
               let b := eval vm_compute in (bool_decide P) in
               change (bool_decide P) with b in H
           end;
    try congruence.
  - exfalso. eapply (year_first_or_last t "%m/%d/%Y"); [done| |done].
    rewrite !elem_of_cons. auto.
  - exfalso. eapply (year_first_or_last t "%d/%m/%Y"); [done| |done].
    rewrite !elem_of_cons. auto.
  - done.
Qed.

(** X16. Of the five date formats only month-first and day-first with
    slashes can read the same text.  A text that any other format reads
    is given the date of that format, whatever the order of the list; a
    text both slash formats read is given the month-first date, and the
    day-first reading is used only when the month-first one fails. *)
Theorem formats_exclusive :
  (∀ t i j fi fj di dj,
     date_formats !! i = Some fi → date_formats !! j = Some fj → (i < j)%nat →
     Strptime.strptime t fi = Ok di → Strptime.strptime t fj = Ok dj →
     fi = "%m/%d/%Y" ∧ fj = "%d/%m/%Y")
  ∧ (∀ s fmt d,
       fmt ∈ date_formats → fmt ≠ "%d/%m/%Y" →
       Strptime.strptime (Str.strip s) fmt = Ok d → _parse_date_any s = Ok d)
  ∧ (∀ s d,
       Strptime.strptime (Str.strip s) "%d/%m/%Y" = Ok d →
       is_ok (Strptime.strptime (Str.strip s) "%m/%d/%Y") = false →
       _parse_date_any s = Ok d).
Proof.
  split; [apply two_formats|]. split.
  - intros s fmt d Hin Hne Hd. rewrite parse_date_any_find.
    apply list_elem_of_lookup_1 in Hin as [i Hi].
    assert (list_find (λ fmt, is_ok (Strptime.strptime (Str.strip s) fmt))
                      date_formats = Some (i, fmt)) as ->; [|done].
    apply list_find_Some. split; [done|]. split; [by rewrite Hd|].
    intros j y Hj Hlt Hy.
    destruct (Strptime.strptime (Str.strip s) y) as [dy|] eqn:Ey; [|done].
    by destruct (two_formats _ _ _ _ _ _ _ Hj Hi Hlt Ey Hd) as [_ ?].
  - intros s d Hd Hm. rewrite parse_date_any_find.
    assert (list_find (λ fmt, is_ok (Strptime.strptime (Str.strip s) fmt))
                      date_formats = Some (4%nat, "%d/%m/%Y")) as ->; [|done].
    apply list_find_Some. split; [done|]. split; [by rewrite Hd|].
    intros j y Hj Hlt Hy.
    destruct (Strptime.strptime (Str.strip s) y) as [dy|] eqn:Ey; [|done].
    destruct (two_formats _ j 4%nat _ _ _ _ Hj eq_refl Hlt Ey Hd) as [-> _].
    by rewrite Ey in Hm.
Qed.

Lemma formats_exclusive_witness :
  _parse_date_any "13/04/2025" = Ok (mkDate 2025 4 13)
  ∧ _parse_date_any " 2025/1/5" = Ok (mkDate 2025 1 5).
Proof.
  destruct formats_exclusive as (_ & Hone & Hday). split.
  - apply Hday; reflexivity.
  - apply (Hone _ "%Y/%m/%d"); [|discriminate|reflexivity].
    apply (bool_decide_unpack _). vm_compute. exact I.
Defined.

(** ** Cells made of digits *)

Section Numerals.
Import Strptime.

Implicit Types (a b s : string).

Lemma all_digits_cons c s :
  all_digits (String c s) = true ↔ Str.is_digit c = true ∧ all_digits s = true.
Proof. simpl. apply andb_true_iff. Qed.

Lemma digits_rstrip_app a s : all_digits a = true → Str.rstrip (a +:+ s) = a +:+ Str.rstrip s.
Proof.
  induction a as [|c a IH]; [done|]. intros [Hc Ha]%all_digits_cons.
  rewrite !app_cons, rstrip_keeps by by apply digit_not_space. by rewrite IH.
Qed.

Lemma digits_rstrip a : all_digits a = true → Str.rstrip a = a.
Proof.
  intros Ha. pose proof (digits_rstrip_app a "" Ha) as Hr.
  change (Str.rstrip "") with "" in Hr. by rewrite app_empty_r in Hr.
Qed.

Lemma digits_lower_app a s : all_digits a = true → Str.lower (a +:+ s) = a +:+ Str.lower s.
Proof.
  induction a as [|c a IH]; [done|]. intros [Hc Ha]%all_digits_cons.
  rewrite !app_cons. simpl. by rewrite digit_to_lower, IH.
Qed.

Lemma digits_go_app acc n a c s :
  all_digits a = true → Str.is_digit c = false → PyFloat.is_char "_" c = false →
  PyFloat.digits_go acc n (a +:+ String c s)
  = (int_go acc a, n + len a, String c s).
Proof.
  revert acc n. induction a as [|c' a IH]; intros acc n Ha Hc Hu.
  - rewrite app_empty. simpl. rewrite Hc, Hu. unfold len. simpl.
    by rewrite Z.add_0_r.
  - apply all_digits_cons in Ha as [Hc' Ha]. rewrite app_cons, digits_go_digit by done.
    rewrite IH by done. simpl. rewrite Hc'. unfold len. simpl String.length.
    do 2 f_equal. lia.
Qed.

Lemma digits_go_end acc n a :
  all_digits a = true →
  PyFloat.digits_go acc n a = (int_go acc a, n + len a, "").
Proof.
  revert acc n. induction a as [|c' a IH]; intros acc n Ha.
  - unfold len. simpl. by rewrite Z.add_0_r.
  - apply all_digits_cons in Ha as [Hc' Ha]. rewrite digits_go_digit by done.
    rewrite IH by done. simpl. rewrite Hc'. unfold len. simpl String.length.
    do 2 f_equal. lia.
Qed.

Lemma int_go_nonneg acc s : 0 ≤ acc → 0 ≤ int_go acc s.
Proof.
  revert acc. induction s as [|c s IH]; intros acc Hacc; [done|]. simpl.
  destruct (Str.is_digit c) eqn:E; [|by apply IH]. apply IH.
  unfold Str.is_digit in E. apply andb_prop in E as [E _]. apply N.leb_le in E.
  unfold PyFloat.digit_val. lia.
Qed.

Lemma digits_no_char c s :
  Str.is_digit c = false → all_digits s = true → Str.mem c s = false.
Proof.
  intros Hc. induction s as [|c' s IH]; [done|].
  intros [Hc' Hs]%all_digits_cons. simpl. rewrite (IH Hs), orb_false_r.
  apply Ascii.eqb_neq. intros ->. congruence.
Qed.

(** Digits, a point or nothing, digits or nothing: what [float] reads
    after the sign. *)
Lemma not_special c s :
  Str.is_digit c = true →
  bool_decide (Str.lower (String c s) = "inf")
  || bool_decide (Str.lower (String c s) = "infinity") = false
  ∧ bool_decide (Str.lower (String c s) = "nan") = false.
Proof.
  intros Hc. rewrite !bool_decide_eq_false_2; [done|..];
    simpl; rewrite (digit_to_lower c Hc); intros [= -> _]; discriminate.
Qed.

Lemma float_digits a :
  all_digits a = true → a ≠ "" →
  PyFloat.float a = Ok (PyFloat.binary64 false (int a) 1).
Proof.
  intros Ha Hne. destruct a as [|c a]; [done|]. clear Hne.
  pose proof Ha as [Hc Ha']%all_digits_cons.
  unfold PyFloat.float, Str.strip.
  rewrite lstrip_keeps by by apply digit_not_space.
  rewrite digits_rstrip by done.
  unfold PyFloat.sign. rewrite !(digit_not_char _ c) by done.
  unfold PyFloat.absfloatvalue.
  destruct (not_special c a Hc) as [-> ->].
  unfold PyFloat.number, PyFloat.digitpart. rewrite Hc, digits_go_end by done.
  cbn [PyFloat.point PyFloat.exponent]. unfold PyFloat.of_decimal.
  change (0 - 0) with 0. change (0 <=? 0) with true. cbv iota.
  change (10 ^ 0) with 1. by rewrite Z.mul_1_r.
Qed.

Lemma float_decimal a b :
  all_digits a = true → a ≠ "" → all_digits b = true → b ≠ "" →
  PyFloat.float (a +:+ String "." b)
  = Ok (PyFloat.binary64 false (int a * 10 ^ len b + int b) (10 ^ len b)).
Proof.
  intros Ha Hne Hb Hnb. destruct a as [|c a]; [done|]. clear Hne.
  destruct b as [|c' b]; [done|]. clear Hnb.
  pose proof Ha as [Hc Ha']%all_digits_cons.
  pose proof Hb as [Hc' Hb']%all_digits_cons.
  unfold PyFloat.float, Str.strip. rewrite app_cons.
  rewrite lstrip_keeps by by apply digit_not_space.
  rewrite <- app_cons, digits_rstrip_app, rstrip_keeps by done.
  rewrite (digits_rstrip (String c' b)) by done.
  rewrite app_cons.
  unfold PyFloat.sign. rewrite !(digit_not_char _ c) by done.
  unfold PyFloat.absfloatvalue.
  destruct (not_special c (a +:+ String "." (String c' b)) Hc) as [-> ->].
  rewrite <- app_cons.
  unfold PyFloat.number, PyFloat.digitpart at 1. rewrite app_cons, Hc, <- app_cons.
  rewrite digits_go_app by done.
  change (PyFloat.point (String "." (String c' b))) with (Some (String c' b)).
  unfold PyFloat.digitpart. rewrite Hc', digits_go_end by done.
  cbn [PyFloat.exponent]. unfold PyFloat.of_decimal.
  assert (0 < len (String c' b)) as Hlen by (unfold len; simpl; lia).
  rewrite Z.add_0_l. change (int_go 0 (String c a)) with (int (String c a)).
  change (int_go 0 (String c' b)) with (int (String c' b)).
  assert ((0 <=? 0 - len (String c' b)) = false) as -> by (apply Z.leb_gt; lia).
  by replace (- (0 - len (String c' b))) with (len (String c' b)) by lia.
Qed.

Lemma binary64_of_int n : 0 ≤ n → PyFloat.binary64 false n 1 = PyFloat.of_int n.
Proof.
  intros Hn. unfold PyFloat.of_int. replace (Z.abs n) with n by lia.
  by assert ((n <? 0) = false) as -> by (apply Z.ltb_ge; lia).
Qed.

End Numerals.

Section DigitCells.
Import Strptime.

Lemma digits_lower a : all_digits a = true → Str.lower a = a.
Proof.
  intros Ha. pose proof (digits_lower_app a "" Ha) as Hl.
  change (Str.lower "") with "" in Hl. by rewrite app_empty_r in Hl.
Qed.

Lemma digit_first_no_sentinel c s :
  Str.is_digit c = true → String c s ∉ ct_sentinels.
Proof.
  intros Hc. unfold ct_sentinels. rewrite !elem_of_cons, elem_of_nil.
  intros [H|[H|[H|[H|[H|[H|[]]]]]]]; try discriminate H;
    injection H as -> _; discriminate Hc.
Qed.

Lemma digits_no_format s fmt d :
  all_digits s = true → fmt ∈ date_formats → strptime s fmt ≠ Ok d.
Proof.
  intros Hs Hin E.
  destruct (accepted_separators _ _ _ Hin E) as (H1 & H2 & H3).
  rewrite digits_no_char in H1, H2, H3 by done.
  symmetry in H1, H2, H3.
  apply bool_decide_eq_false in H1, H2, H3.
  revert Hin. unfold date_formats. rewrite !elem_of_cons, elem_of_nil.
  intros [->|[->|[->|[->|[->|[]]]]]]; try done;
    apply H3, (bool_decide_unpack _); vm_compute; exact I.
Qed.

End DigitCells.

(** X17. A CT cell that is, once trimmed, a run of digits, or two runs of
    digits around one point, is read as a number: the float nearest to
    the integer, which is that integer below 2^53, and the float nearest
    to the decimal fraction with as many decimals as there are digits
    after the point. *)
Theorem ct_numeral_spec (x a b : string) :
  all_digits a = true → a ≠ "" → all_digits b = true → b ≠ "" →
  (Str.strip x = a →
   _to_float_ct x = Ok (PyFloat.of_int (Strptime.int a))
   ∧ (Strptime.int a < 2 ^ 53 →
      ∃ m e, _to_float_ct x = Ok (Fin false m e)
             ∧ PyFloat.trunc m e = Strptime.int a ∧ PyFloat.frac m e = 0))
  ∧ (Str.strip x = a +:+ String "." b →
     _to_float_ct x
     = Ok (PyFloat.binary64 false
             (Strptime.int a * 10 ^ len b + Strptime.int b) (10 ^ len b))).
Proof.
  intros Ha Hne Hb Hnb. unfold _to_float_ct. split; intros ->.
  - rewrite digits_lower by done. rewrite float_digits by done.
    assert (0 ≤ Strptime.int a) as Hn by by apply int_go_nonneg.
    destruct a as [|c a]; [done|]. pose proof Ha as [Hc _]%all_digits_cons.
    case_decide as Hs; [by apply digit_first_no_sentinel in Hs|].
    cbn [try_except]. split; [by rewrite binary64_of_int|].
    intros Hlt. destruct (decide (Strptime.int (String c a) = 0)) as [->|Hn0].
    + by exists 0, 0.
    + destruct (binary64_small false (Strptime.int (String c a)))
        as (m & e & -> & Ht & Hf); [lia|]. by exists m, e.
  - rewrite digits_lower_app by done.
    change (Str.lower (String "." b)) with (String "." (Str.lower b)).
    rewrite digits_lower by done. rewrite float_decimal by done.
    destruct a as [|c a]; [done|]. apply all_digits_cons in Ha as [Hc _].
    rewrite app_cons. case_decide as Hs; [|done].
    by apply digit_first_no_sentinel in Hs.
Qed.

(** 31 is 31 * 2^0, kept as 8725724278030336 * 2^-48; 31.50 is the
    float nearest to 3150 / 100, the same as 31.5. *)
Lemma ct_numeral_spec_witness :
  _to_float_ct " 31 " = Ok (Fin false 8725724278030336 (-48))
  ∧ _to_float_ct "31.50" = _to_float_ct "31.5".
Proof.
  destruct (ct_numeral_spec " 31 " "31" "50") as [H1 _]; [done..|].
  destruct (ct_numeral_spec "31.50" "31" "50") as [_ H2]; [done..|].
  destruct (H1 eq_refl) as [H _].
  split; [etrans; [exact H|reflexivity]|etrans; [exact (H2 eq_refl)|reflexivity]].
Defined.

(** X18. A date cell that is, once trimmed, a run of digits is read by no
    format: it is a serial day number, the date that many days after
    1899-12-30, up to 2958465 (9999-12-31); a larger number raises
    [ValueError]. *)
Theorem serial_date_spec (x : string) :
  let s := Str.strip x in
  all_digits s = true → s ≠ "" →
  Datetime.ymd2ord (mkDate 1899 12 30) = 693594
  ∧ 0 ≤ Strptime.int s
  ∧ _parse_date_any x
    = if decide (Strptime.int s ≤ 2958465)
      then Ok (Datetime.ord2ymd (693594 + Strptime.int s))
      else Raise ValueError.
Proof.
  intros s Hs Hne. split; [reflexivity|].
  assert (0 ≤ Strptime.int s) as Hn by by apply int_go_nonneg.
  split; [done|].
  rewrite parse_date_any_find. fold s.
  destruct (list_find _ date_formats) as [[i fmt]|] eqn:E.
  { apply list_find_Some in E as (Hi & Hok & _).
    apply list_elem_of_lookup_2 in Hi.
    destruct (Strptime.strptime s fmt) as [d|] eqn:Es; [|done].
    by apply digits_no_format in Es. }
  rewrite excel_serial_unfold, float_digits by done.
  change (Datetime.ymd2ord (mkDate 1899 12 30)) with 693594.
  destruct (Datetime.timedelta_days _) as [days|e] eqn:Ed.
  - apply timedelta_days_big in Ed as [Hle ->]; [|done]. cbv zeta.
    unfold Datetime.MAXORDINAL. case_decide.
    + assert ((1 <=? 693594 + Strptime.int s)
              && (693594 + Strptime.int s <=? 3652059) = true) as ->; [|done].
      apply andb_true_iff. split; apply Z.leb_le; lia.
    + assert ((1 <=? 693594 + Strptime.int s)
              && (693594 + Strptime.int s <=? 3652059) = false) as ->; [|done].
      apply andb_false_iff. right. apply Z.leb_gt. lia.
  - rewrite decide_False; [done|]. intros Hle.
    rewrite binary64_of_int, timedelta_days_whole in Ed by lia. done.
Qed.

Lemma serial_date_spec_witness :
  _parse_date_any " 45000 " = Ok (mkDate 2023 3 15)
  ∧ _parse_date_any "20230315" = Raise ValueError.
Proof.
  destruct (serial_date_spec " 45000 ") as (_ & _ & H1); [done..|].
  destruct (serial_date_spec "20230315") as (_ & _ & H2); [done..|].
  split; [exact H1 | exact H2].
Defined.

(** ** The name of the download *)

Section FileName.

Implicit Types (u v w : string).

Lemma replace_no_blank u : Str.mem " " (Str.replace " " "_" u) = false.
Proof.
  induction u as [|c u IH]; [done|]. simpl. rewrite IH, orb_false_r.
  destruct (Ascii.eqb c " ") eqn:E; [done|]. by rewrite Ascii.eqb_sym.
Qed.

Lemma replace_length a b u : String.length (Str.replace a b u) = String.length u.
Proof. induction u as [|c u IH]; [done|]. simpl. by rewrite IH. Qed.

Lemma append_inj_l u v w : u +:+ w = v +:+ w → u = v.
Proof.
  revert v. induction u as [|c u IH]; intros [|c' v] H.
  - done.
  - apply (f_equal String.length) in H. rewrite app_empty, app_cons in H.
    simpl in H. rewrite append_length in H. lia.
  - apply (f_equal String.length) in H. rewrite app_empty, app_cons in H.
    simpl in H. rewrite append_length in H. lia.
  - rewrite !app_cons in H. injection H as -> H. f_equal. by apply IH.
Qed.

Lemma replace_inj u v :
  Str.mem "_" u = false → Str.mem "_" v = false →
  Str.replace " " "_" u = Str.replace " " "_" v → u = v.
Proof.
  revert v. induction u as [|c u IH]; intros [|c' v] Hu Hv H; try done.
  simpl in Hu, Hv, H. apply orb_false_elim in Hu as [Hc Hu].
  apply orb_false_elim in Hv as [Hc' Hv].
  injection H as Hh Ht. f_equal; [|by apply IH].
  destruct (Ascii.eqb c " ") eqn:E, (Ascii.eqb c' " ") eqn:E'.
  - apply Ascii.eqb_eq in E, E'. congruence.
  - subst c'. by rewrite Ascii.eqb_refl in Hc'.
  - subst c. by rewrite Ascii.eqb_refl in Hc.
  - done.
Qed.

Lemma replace_blank_underscore u v :
  Str.replace " " "_" (u +:+ String " " v) = Str.replace " " "_" (u +:+ String "_" v).
Proof.
  induction u as [|c u IH]; [done|]. rewrite !app_cons. cbn [Str.replace].
  by rewrite IH.
Qed.

End FileName.

(** X19. The name of the downloaded report holds no blank and is twelve
    characters longer than the farm's name; two farms whose names hold no
    underscore get different file names, while a blank and an underscore
    at the same place give the same one. *)
Theorem file_name_spec (f g : string) :
  Str.mem " " (file_name f) = false
  ∧ String.length (file_name f) = (String.length f + 12)%nat
  ∧ (Str.mem "_" f = false → Str.mem "_" g = false →
     file_name f = file_name g → f = g)
  ∧ file_name (f +:+ " " +:+ g) = file_name (f +:+ "_" +:+ g).
Proof.
  unfold file_name. repeat split.
  - by rewrite mem_app, replace_no_blank.
  - by rewrite append_length, replace_length.
  - intros Hf Hg H%append_inj_l. by apply replace_inj.
  - f_equal. apply replace_blank_underscore.
Qed.

Lemma file_name_spec_witness :
  file_name "C-JOY Farm" = "C-JOY_Farm_report.html"
  ∧ file_name "C-JOY Farm" = file_name "C-JOY_Farm"
  ∧ (file_name "C-JOY" = file_name "Farm" → "C-JOY" = "Farm").
Proof.
  destruct (file_name_spec "C-JOY" "Farm") as (_ & _ & Hinj & H).
  split; [reflexivity|]. split; [exact H|]. exact (Hinj eq_refl eq_refl).
Defined.
